(** * Code Runner: the execution engine and the toolchain detector

    A shallow embedding of [utils/codeRunner.ts] of the Raycast extension
    "code-runner": [runCode] (the version that still supports Java) and
    [findExecutable] / [detectInstalledLanguages] (the later version of the
    same file, which adds detection).

    JavaScript strings are modelled as [string]: sequences of code units
    restricted to the range 0..255.  The file system is reduced to the one
    scratch directory the engine works in; everything the host decides
    (the environment variable SHELL, the generated identifier, which file
    system calls fail, what the spawned process does to the directory and
    what [exec] reports about it) is read from an explicit record of
    oracles, so that every function below is executable.  The body of
    [runCode] runs in a state and exception monad over the directory and
    the list of the calls made so far.  Output on the console is not
    modelled. *)

From Stdlib Require Import Ascii String NArith ZArith.
From stdpp Require Import base option list strings gmap.

#[local] Set Warnings "-clear-no-such-hyp".

(** ** Characters and the string primitives the code relies on *)

Module JsString.

Definition charCode (c : ascii) : N := N_of_ascii c.

Definition between (lo hi : N) (c : ascii) : bool :=
  ((lo <=? charCode c) && (charCode c <=? hi))%N.

(** [\s] of a JavaScript regular expression, and the white space removed by
    [String.prototype.trim], on code units below 256: TAB, LF, VT, FF, CR,
    SPACE and NO-BREAK SPACE. *)
Definition isSpace (c : ascii) : bool :=
  between 9 13 c || (charCode c =? 32)%N || (charCode c =? 160)%N.

(** The character class [[a-zA-Z0-9_]]. *)
Definition isWordChar (c : ascii) : bool :=
  between 97 122 c || between 65 90 c || between 48 57 c || (charCode c =? 95)%N.

(** One code unit of [toLowerCase]: A-Z, and the upper-case letters of the
    Latin-1 block (U+00C0..U+00DE except the multiplication sign). *)
Definition lowerChar (c : ascii) : ascii :=
  if between 65 90 c || (between 192 222 c && negb (charCode c =? 215)%N)
  then ascii_of_N (charCode c + 32)
  else c.

Fixpoint toLowerCase (s : string) : string :=
  match s with
  | EmptyString => EmptyString
  | String c r => String (lowerChar c) (toLowerCase r)
  end.

Fixpoint startsWith (p s : string) : bool :=
  match p, s with
  | EmptyString, _ => true
  | String a p', String b s' => if Ascii.eqb a b then startsWith p' s' else false
  | String _ _, EmptyString => false
  end.

(** [s.includes(sub)] *)
Fixpoint includes (sub s : string) : bool :=
  if startsWith sub s then true
  else match s with
       | EmptyString => false
       | String _ r => includes sub r
       end.

Fixpoint stripPrefix (p s : string) : option string :=
  match p, s with
  | EmptyString, _ => Some s
  | String a p', String b s' => if Ascii.eqb a b then stripPrefix p' s' else None
  | String _ _, EmptyString => None
  end.

Fixpoint takeWhile (f : ascii -> bool) (s : string) : string :=
  match s with
  | EmptyString => EmptyString
  | String c r => if f c then String c (takeWhile f r) else EmptyString
  end.

Fixpoint dropWhile (f : ascii -> bool) (s : string) : string :=
  match s with
  | EmptyString => EmptyString
  | String c r => if f c then dropWhile f r else s
  end.

Fixpoint allChars (f : ascii -> bool) (s : string) : bool :=
  match s with
  | EmptyString => true
  | String c r => f c && allChars f r
  end.

Definition isEmpty (s : string) : bool :=
  match s with EmptyString => true | String _ _ => false end.

(** A string is truthy when it is not empty. *)
Definition truthy (s : string) : bool := negb (isEmpty s).

Definition quote : ascii := ascii_of_N 34.
Definition backslash : ascii := ascii_of_N 92.
Definition newline : string := String (ascii_of_N 10) EmptyString.

(** [s.replace(/"/g, '\\"')]: every double quote gets a backslash in front. *)
Fixpoint escapeQuotes (s : string) : string :=
  match s with
  | EmptyString => EmptyString
  | String c r =>
      if Ascii.eqb c quote
      then String backslash (String quote (escapeQuotes r))
      else String c (escapeQuotes r)
  end.

(** Every double quote of [s] comes directly after a backslash;
    [afterBackslash] tells whether the character before [s] is one. *)
Fixpoint quotesEscaped (afterBackslash : bool) (s : string) : bool :=
  match s with
  | EmptyString => true
  | String c r =>
      if Ascii.eqb c quote
      then afterBackslash && quotesEscaped false r
      else quotesEscaped (Ascii.eqb c backslash) r
  end.

(** What undoes the escaping: a backslash directly in front of a double
    quote is dropped. *)
Fixpoint unescapeQuotes (s : string) : string :=
  match s with
  | EmptyString => EmptyString
  | String c r =>
      match r with
      | String c' _ =>
          if Ascii.eqb c backslash && Ascii.eqb c' quote
          then unescapeQuotes r
          else String c (unescapeQuotes r)
      | EmptyString => String c EmptyString
      end
  end.

Fixpoint trimEnd (s : string) : string :=
  match s with
  | EmptyString => EmptyString
  | String c r =>
      let r' := trimEnd r in
      if isSpace c && isEmpty r' then EmptyString else String c r'
  end.

(** [s.trim()] *)
Definition trim (s : string) : string := trimEnd (dropWhile isSpace s).

(** [a || b] where [a] may be [undefined]: the first truthy operand. *)
Definition orElse (a : option string) (b : string) : string :=
  match a with
  | Some s => if truthy s then s else b
  | None => b
  end.

End JsString.

Import JsString.

(** ** The regular expression of the Java branch

    [/public\s+class\s+([a-zA-Z0-9_]+)/], matched the way [String.match]
    does: at the leftmost position where the whole pattern matches.  The
    three quantifiers are greedy; as the character after each run of white
    space must be a letter of the pattern and the capture group ends the
    pattern, the greedy choice is the only one that can succeed, so the
    matcher never backtracks within one start position. *)

Definition spaces1 (s : string) : option string :=
  match s with
  | String c r => if isSpace c then Some (dropWhile isSpace r) else None
  | EmptyString => None
  end.

(** The pattern anchored at the start of [s]; the result is capture group 1. *)
Definition matchPublicClassHere (s : string) : option string :=
  match stripPrefix "public" s with
  | None => None
  | Some r1 =>
      match spaces1 r1 with
      | None => None
      | Some r2 =>
          match stripPrefix "class" r2 with
          | None => None
          | Some r3 =>
              match spaces1 r3 with
              | None => None
              | Some r4 =>
                  let name := takeWhile isWordChar r4 in
                  if isEmpty name then None else Some name
              end
          end
      end
  end.

(** [code.match(/public\s+class\s+([a-zA-Z0-9_]+)/)], reduced to group 1. *)
Fixpoint classNameMatch (code : string) : option string :=
  match matchPublicClassHere code with
  | Some name => Some name
  | None =>
      match code with
      | EmptyString => None
      | String _ r => classNameMatch r
      end
  end.


(** What the pattern describes: somewhere in [code], the word [public],
    white space, the word [class], white space, and a name made of the
    characters of [[a-zA-Z0-9_]]. *)
Definition declaresPublicClass (code className : string) : Prop :=
  exists before ws1 ws2 after,
    code = before +:+ "public" +:+ ws1 +:+ "class" +:+ ws2 +:+ className +:+ after /\
    ws1 <> "" /\ allChars isSpace ws1 = true /\
    ws2 <> "" /\ allChars isSpace ws2 = true /\
    className <> "" /\ allChars isWordChar className = true.

(** ** Values of the host *)

(** The record returned to the caller ([error] is [string | null]). *)
Record CodeExecutionResult := {
  stdout : string;
  stderr : string;
  error : option string;
  command : string
}.

(** What can be thrown or rejected inside [runCode]: an [Error] of Node
    (only [message] is defined) or the object the exec callback rejects
    with (only [stdout], [stderr], [error] and [command] are defined). *)
Record Thrown := {
  e_stdout : option string;
  e_stderr : option string;
  e_error : option string;
  e_message : option string;
  e_command : option string
}.

Definition errorObject (message : string) : Thrown :=
  {| e_stdout := None; e_stderr := None; e_error := None;
     e_message := Some message; e_command := None |}.

Definition rejection (out err errorMessage cmd : string) : Thrown :=
  {| e_stdout := Some out; e_stderr := Some err; e_error := Some errorMessage;
     e_message := None; e_command := Some cmd |}.

(** How the spawned shell ended: with an exit status, by a signal (that of
    the timeout included), or not at all because it could not be started. *)
Inductive Termination :=
| Exited (status : Z)
| Signaled (signal : string)
| SpawnFailed.

(** One run of [child_process.exec]: how the process ended, whether
    [stdout] or [stderr] grew beyond [maxBuffer] (1 MB, the option is not
    set), the message of the [Error] that [exec] builds when it reports one,
    and the two streams as [exec] captured them (cut off at [maxBuffer]). *)
Record ChildProcess := {
  cp_termination : Termination;
  cp_overflow : bool;
  cp_message : string;
  cp_stdout : string;
  cp_stderr : string
}.

(** The [error] argument of the callback, reduced to its message ([None]
    for [null]).  [exec] calls back with [null] only for a process that
    exited with status zero without either stream going over [maxBuffer];
    a status other than zero, a signal (the timeout sends one), a failed
    spawn and an overflow all give an [Error]. *)
Definition cp_error (p : ChildProcess) : option string :=
  match cp_termination p with
  | Exited 0 => if cp_overflow p then Some (cp_message p) else None
  | _ => Some (cp_message p)
  end.

(** The scratch directory: [None] when it does not exist, otherwise the set
    of the paths of its entries. *)
Abbreviation Disk := (option (gset string)).

Inductive WriteOutcome :=
| Written
| WriteFailed (message : string) (created : bool).

(** Everything the host decides during one call. *)
Record Env := {
  tempDir : string;                          (* path.join(__dirname, '..', '..', 'temp') *)
  SHELL : option string;                     (* process.env.SHELL *)
  uuidv4 : string;                           (* the value uuidv4() returns *)
  mkdirFails : option string;                (* message of the error of mkdirSync *)
  writeOutcome : string -> WriteOutcome;     (* writeFileSync, by path *)
  spawn : string -> Disk -> ChildProcess * Disk;  (* the process, and what it leaves on disk *)
  accessFails : string -> bool;              (* existsSync cannot reach the entry, by path *)
  unlinkFails : string -> option string;     (* message of the error of unlinkSync, by path *)
  readdirFails : option string;
  rmdirFails : option string
}.

(** Calls that leave the process, in the order they are made. *)
Inductive Event :=
| ExistsSync (path : string)
| MkdirSync (path : string)
| WriteFileSync (path data : string)
| Exec (commandLine cwd shell : string)
| UnlinkSync (path : string)
| ReaddirSync (path : string)
| RmdirSync (path : string).

Record World := {
  disk : Disk;
  trace : list Event
}.

(** ** A state and exception monad for the body of [runCode] *)

Inductive Completion (A : Type) :=
| Normal (a : A)
| Throw (e : Thrown).
Arguments Normal {A} a.
Arguments Throw {A} e.

Definition M (A : Type) : Type := World -> Completion A * World.

#[global] Instance M_ret : MRet M := fun A a w => (Normal a, w).

#[global] Instance M_bind : MBind M := fun A B k m w =>
  match m w with
  | (Normal a, w') => k a w'
  | (Throw e, w') => (Throw e, w')
  end.

Definition throw {A} (e : Thrown) : M A := fun w => (Throw e, w).

Definition emit (ev : Event) : M unit :=
  fun w => (Normal tt, {| disk := disk w; trace := trace w ++ [ev] |}).

Definition getDisk : M Disk := fun w => (Normal (disk w), w).

Definition putDisk (d : Disk) : M unit :=
  fun w => (Normal tt, {| disk := d; trace := trace w |}).

(** [try { body } catch (e) { handler }] *)
Definition tryCatch {A} (body : M A) (handler : Thrown -> M A) : M A :=
  fun w =>
    match body w with
    | (Normal a, w') => (Normal a, w')
    | (Throw e, w') => handler e w'
    end.

(** [try { body } finally { fin }]: the completion of [body] is kept unless
    [fin] itself throws. *)
Definition tryFinally {A} (body : M A) (fin : M unit) : M A :=
  fun w =>
    let (c, w') := body w in
    match fin w' with
    | (Normal _, w'') => (c, w'')
    | (Throw e, w'') => (Throw e, w'')
    end.

(** ** The engine: [runCode] *)

Section Engine.

Context (env : Env).

(** [path.join(dir, name)] for a [name] without separators or dot segments
    (an identifier followed by an extension, or a class name). *)
Definition pathJoin (dir name : string) : string := dir +:+ "/" +:+ name.

(** *** The calls into [fs] and [child_process] *)

(** What [fs.existsSync] answers.  It follows symbolic links and answers
    [false] whenever the look-up fails, so an entry that [readdirSync] lists
    is not seen when it is a link whose target is missing or when it may not
    be looked up ([accessFails]). *)
Definition pathExists (d : Disk) (path : string) : bool :=
  match d with
  | None => false
  | Some entries =>
      bool_decide (path = tempDir env)
      || (bool_decide (path ∈ entries) && negb (accessFails env path))
  end.

Definition existsSync (path : string) : M bool :=
  emit (ExistsSync path);;
  d ← getDisk;
  mret (pathExists d path).

(** [fs.mkdirSync(path, { recursive: true })] *)
Definition mkdirSync (path : string) : M unit :=
  emit (MkdirSync path);;
  match mkdirFails env with
  | Some message => throw (errorObject message)
  | None =>
      d ← getDisk;
      match d with
      | None => putDisk (Some ∅)
      | Some _ => mret tt
      end
  end.

Definition noEntry (call path : string) : string :=
  "ENOENT: no such file or directory, " +:+ call +:+ " '" +:+ path +:+ "'".

Definition writeFileSync (path data : string) : M unit :=
  emit (WriteFileSync path data);;
  d ← getDisk;
  match d with
  | None => throw (errorObject (noEntry "open" path))
  | Some entries =>
      match writeOutcome env path with
      | Written => putDisk (Some ({[path]} ∪ entries))
      | WriteFailed message created =>
          (if created then putDisk (Some ({[path]} ∪ entries)) else mret tt);;
          throw (errorObject message)
      end
  end.

Definition unlinkSync (path : string) : M unit :=
  emit (UnlinkSync path);;
  match unlinkFails env path with
  | Some message => throw (errorObject message)
  | None =>
      d ← getDisk;
      match d with
      | None => throw (errorObject (noEntry "unlink" path))
      | Some entries => putDisk (Some (entries ∖ {[path]}))
      end
  end.

Definition readdirSync (path : string) : M (list string) :=
  emit (ReaddirSync path);;
  match readdirFails env with
  | Some message => throw (errorObject message)
  | None =>
      d ← getDisk;
      match d with
      | None => throw (errorObject (noEntry "scandir" path))
      | Some entries => mret (elements entries)
      end
  end.

Definition rmdirSync (path : string) : M unit :=
  emit (RmdirSync path);;
  match rmdirFails env with
  | Some message => throw (errorObject message)
  | None =>
      d ← getDisk;
      match d with
      | None => throw (errorObject (noEntry "rmdir" path))
      | Some entries =>
          if bool_decide (entries = ∅) then putDisk None
          else throw (errorObject ("ENOTEMPTY: directory not empty, rmdir '" +:+ path +:+ "'"))
      end
  end.

(** The message that replaces the one of the shell when it contains
    [command not found]. *)
Definition indent : string := "                        ".

Definition notFoundMessage (executableCommand : string) : string :=
  "Error: '" +:+ executableCommand +:+ "' command not found. Please ensure '"
  +:+ executableCommand +:+ "' is installed and accessible in your system's PATH."
  +:+ newline +:+ indent +:+ newline
  +:+ "If it is installed, try running 'which " +:+ executableCommand
  +:+ "' in your terminal to find its path."
  +:+ newline +:+ indent +:+ newline
  +:+ "Then, consider adding its directory to your shell's PATH (e.g., in ~/.zshrc or ~/.bashrc) and restarting Raycast.".

(** The callback of [exec]: which message the promise is rejected with. *)
Definition classify (executableCommand message : string) : string :=
  if includes "command not found" message
  then notFoundMessage executableCommand
  else message.

(** [new Promise((resolve, reject) => exec(commandToExecute, ..., callback))],
    awaited.  The timeout of 5000 ms and the kill signal are part of what
    [spawn] answers: a process that ran out of time ends [Signaled]. *)
Definition execPromise (commandLine defaultShellPath executableCommand : string)
  : M (string * string) :=
  emit (Exec commandLine (tempDir env) defaultShellPath);;
  d ← getDisk;
  let (child, d') := spawn env commandLine d in
  putDisk d';;
  match cp_error child with
  | Some message =>
      throw (rejection (cp_stdout child) (cp_stderr child)
               (classify executableCommand message) commandLine)
  | None => mret (cp_stdout child, cp_stderr child)
  end.

(** *** The switch on the language *)

Record Plan := {
  filePath : string;
  rawCommand : string;
  cleanupFiles : list string;
  executableCommand : string
}.

Definition missingClass : CodeExecutionResult :=
  {| stdout := ""; stderr := "";
     error := Some "Java code must contain a public class definition (e.g., public class Main).";
     command := "" |}.

Definition unsupported (language : string) : CodeExecutionResult :=
  {| stdout := ""; stderr := "";
     error := Some ("Unsupported language: " +:+ language);
     command := "" |}.

(** [switch (language.toLowerCase()) { ... }]: either one of the two early
    [return]s or the four variables the cases assign. *)
Definition selectLanguage (language code uniqueId : string) : CodeExecutionResult + Plan :=
  let dir := tempDir env in
  let lang := toLowerCase language in
  if String.eqb lang "javascript" then
    let file := pathJoin dir (uniqueId +:+ ".js") in
    inr {| filePath := file; rawCommand := "node " +:+ file;
           cleanupFiles := [file]; executableCommand := "node" |}
  else if String.eqb lang "python" then
    let file := pathJoin dir (uniqueId +:+ ".py") in
    inr {| filePath := file; rawCommand := "python3 " +:+ file;
           cleanupFiles := [file]; executableCommand := "python3" |}
  else if String.eqb lang "go" then
    let file := pathJoin dir (uniqueId +:+ ".go") in
    let goExecPath := pathJoin dir uniqueId in
    inr {| filePath := file;
           rawCommand := "go build -o " +:+ goExecPath +:+ " " +:+ file +:+ " && " +:+ goExecPath;
           cleanupFiles := [file; goExecPath]; executableCommand := "go" |}
  else if String.eqb lang "java" then
    match classNameMatch code with
    | None => inl missingClass
    | Some className =>
        let file := pathJoin dir (className +:+ ".java") in
        inr {| filePath := file;
               rawCommand := "javac " +:+ file +:+ " -d " +:+ dir +:+ " && java -cp " +:+ dir
                             +:+ " " +:+ className;
               cleanupFiles := [file; pathJoin dir (className +:+ ".class")];
               executableCommand := "java" |}
    end
  else inl (unsupported language).

(** The labels of the [case] clauses. *)
Definition caseLabels : list string := ["javascript"; "python"; "go"; "java"].

(** *** The body of the [try] statement *)

(** [process.env.SHELL || '/bin/zsh'] *)
Definition defaultShellPath : string := orElse (SHELL env) "/bin/zsh".

(** [`${defaultShellPath} -l -c "${rawCommand.replace(/"/g, '\\"')}"`] *)
Definition commandToExecute (shell raw : string) : string :=
  shell +:+ " -l -c " +:+ String quote (escapeQuotes raw +:+ String quote "").

Definition tryBlock (p : Plan) (code : string) : M CodeExecutionResult :=
  writeFileSync (filePath p) code;;
  let commandLine := commandToExecute defaultShellPath (rawCommand p) in
  '(out, err) ← execPromise commandLine defaultShellPath (executableCommand p);
  mret {| stdout := out; stderr := err; error := None; command := commandLine |}.

Definition catchBlock (e : Thrown) : M CodeExecutionResult :=
  mret {| stdout := orElse (e_stdout e) "";
          stderr := orElse (e_stderr e) "";
          error := Some (orElse (e_error e)
                           (orElse (e_message e) "Unknown error during execution"));
          command := "" |}.

(** The callback of [cleanupFiles.forEach]; the handler of its [try] only
    logs. *)
Definition unlinkIfPresent (file : string) : M unit :=
  present ← existsSync file;
  if (present : bool)
  then tryCatch (unlinkSync file) (fun _ => mret tt)
  else mret tt.

(** [cleanupFiles.forEach(file => { ... })] *)
Fixpoint unlinkEach (files : list string) : M unit :=
  match files with
  | [] => mret tt
  | file :: rest => unlinkIfPresent file;; unlinkEach rest
  end.

Definition removeDirIfEmpty : M unit :=
  tryCatch
    (names ← readdirSync (tempDir env);
     if (length (names : list string) =? 0)%nat then rmdirSync (tempDir env) else mret tt)
    (fun _ => mret tt).

Definition finallyBlock (p : Plan) : M unit :=
  unlinkEach (cleanupFiles p);;
  removeDirIfEmpty.

(** [if (!fs.existsSync(tempDir)) fs.mkdirSync(tempDir, { recursive: true })] *)
Definition ensureTempDir : M unit :=
  present ← existsSync (tempDir env);
  if (present : bool) then mret tt else mkdirSync (tempDir env).

Definition runCode (language code : string) : M CodeExecutionResult :=
  ensureTempDir;;
  let uniqueId := uuidv4 env in
  match selectLanguage language code uniqueId with
  | inl early => mret early
  | inr p => tryFinally (tryCatch (tryBlock p code) catchBlock) (finallyBlock p)
  end.

End Engine.

(** ** The toolchain detector: [findExecutable] and [detectInstalledLanguages] *)

Record DetectedLanguage := {
  name : string;
  value : string;
  executablePath : string
}.

Record LanguageCheck := {
  check_name : string;
  check_value : string;
  check_command : string
}.

Definition languageChecks : list LanguageCheck :=
  [ {| check_name := "JavaScript"; check_value := "javascript"; check_command := "node" |};
    {| check_name := "Python"; check_value := "python"; check_command := "python3" |};
    {| check_name := "Go"; check_value := "go"; check_command := "go" |} ].

Section Detector.

(** [process.env.SHELL], and what [exec] answers for a command line. *)
Context (shellVar : option string) (exec : string -> ChildProcess).

(** [`${defaultShellPath} -l -c "which ${command}"`] *)
Definition probeCommand (command : string) : string :=
  orElse shellVar "/bin/zsh" +:+ " -l -c " +:+ String quote ("which " +:+ command +:+ String quote "").

(** The promise always resolves: with [null] when [error || stderr] is
    truthy, with the trimmed output otherwise. *)
Definition findExecutable (command : string) : option string :=
  let child := exec (probeCommand command) in
  if bool_decide (is_Some (cp_error child)) || truthy (cp_stderr child)
  then None
  else Some (trim (cp_stdout child)).

(** The body of the [for ... of] loop, with [detected] as accumulator. *)
Fixpoint detectLoop (checks : list LanguageCheck) (detected : list DetectedLanguage)
  : list DetectedLanguage :=
  match checks with
  | [] => detected
  | lang :: rest =>
      match findExecutable (check_command lang) with
      | Some path =>
          if truthy path
          then detectLoop rest
                 (detected ++ [ {| name := check_name lang; value := check_value lang;
                                   executablePath := path |} ])
          else detectLoop rest detected
      | None => detectLoop rest detected
      end
  end.

Definition detectInstalledLanguages : list DetectedLanguage :=
  detectLoop languageChecks [].

(** What one turn of the loop appends to [detected]. *)
Definition detectOne (lang : LanguageCheck) : list DetectedLanguage :=
  match findExecutable (check_command lang) with
  | Some path =>
      if truthy path
      then [ {| name := check_name lang; value := check_value lang;
                executablePath := path |} ]
      else []
  | None => []
  end.

(** The condition under which the loop keeps a language: the probe
    reported no error, wrote nothing to its standard error, and printed
    more than white space. *)
Definition probeAccepted (command : string) : Prop :=
  let child := exec (probeCommand command) in
  cp_error child = None /\ cp_stderr child = "" /\ trim (cp_stdout child) <> "".

End Detector.

(** ** Sample hosts and inputs *)

Module Sample.

Definition firstId : string := "1b9d6bcd-bbfd-4b2d-9b5d-ab8dfbbd4bed".
Definition secondId : string := "9c858901-8a57-4791-81fe-4c455b099bc9".

Definition emptyWorld : World := {| disk := None; trace := [] |}.

Definition greeted : ChildProcess :=
  {| cp_termination := Exited 0; cp_overflow := false; cp_message := "";
     cp_stdout := "hello"; cp_stderr := "" |}.

(** A host on which everything works; the process leaves the disk alone. *)
Definition host : Env :=
  {| tempDir := "/ext/temp"; SHELL := Some "/bin/bash"; uuidv4 := firstId;
     mkdirFails := None; writeOutcome := fun _ => Written;
     spawn := fun _ d => (greeted, d);
     accessFails := fun _ => false;
     unlinkFails := fun _ => None; readdirFails := None; rmdirFails := None |}.

(** The compiler leaves the binary in the scratch directory. *)
Definition goHost : Env :=
  {| tempDir := "/ext/temp"; SHELL := None; uuidv4 := firstId;
     mkdirFails := None; writeOutcome := fun _ => Written;
     spawn := fun _ d => (greeted, (fun entries => {[pathJoin "/ext/temp" firstId]} ∪ entries) <$> d);
     accessFails := fun _ => false;
     unlinkFails := fun _ => None; readdirFails := None; rmdirFails := None |}.

Definition goPlan : Plan :=
  {| filePath := "/ext/temp/1b9d6bcd-bbfd-4b2d-9b5d-ab8dfbbd4bed.go";
     rawCommand := "go build -o /ext/temp/1b9d6bcd-bbfd-4b2d-9b5d-ab8dfbbd4bed /ext/temp/1b9d6bcd-bbfd-4b2d-9b5d-ab8dfbbd4bed.go && /ext/temp/1b9d6bcd-bbfd-4b2d-9b5d-ab8dfbbd4bed";
     cleanupFiles := ["/ext/temp/1b9d6bcd-bbfd-4b2d-9b5d-ab8dfbbd4bed.go";
                      "/ext/temp/1b9d6bcd-bbfd-4b2d-9b5d-ab8dfbbd4bed"];
     executableCommand := "go" |}.

Definition jsPlan : Plan :=
  {| filePath := "/ext/temp/1b9d6bcd-bbfd-4b2d-9b5d-ab8dfbbd4bed.js";
     rawCommand := "node /ext/temp/1b9d6bcd-bbfd-4b2d-9b5d-ab8dfbbd4bed.js";
     cleanupFiles := ["/ext/temp/1b9d6bcd-bbfd-4b2d-9b5d-ab8dfbbd4bed.js"];
     executableCommand := "node" |}.

(** [unlinkSync] is refused, as after the script made the directory
    read-only. *)
Definition unlinkDenied : Env :=
  {| tempDir := "/ext/temp"; SHELL := Some "/bin/bash"; uuidv4 := firstId;
     mkdirFails := None; writeOutcome := fun _ => Written;
     spawn := fun _ d => (greeted, d);
     accessFails := fun _ => false;
     unlinkFails := fun path => Some ("EACCES: permission denied, unlink '" +:+ path +:+ "'");
     readdirFails := None; rmdirFails := None |}.

(** The directory of the extension is not writable. *)
Definition mkdirDenied : Env :=
  {| tempDir := "/ext/temp"; SHELL := Some "/bin/bash"; uuidv4 := firstId;
     mkdirFails := Some "EACCES: permission denied, mkdir '/ext/temp'";
     writeOutcome := fun _ => Written;
     spawn := fun _ d => (greeted, d);
     accessFails := fun _ => false;
     unlinkFails := fun _ => None; readdirFails := None; rmdirFails := None |}.

(** The disk is full: the file is created, the write fails. *)
Definition diskFull : Env :=
  {| tempDir := "/ext/temp"; SHELL := Some "/bin/bash"; uuidv4 := firstId;
     mkdirFails := None;
     writeOutcome := fun _ => WriteFailed "ENOSPC: no space left on device, write" true;
     spawn := fun _ d => (greeted, d);
     accessFails := fun _ => false;
     unlinkFails := fun _ => None; readdirFails := None; rmdirFails := None |}.

(** The script exits with status 1 after printing to both streams. *)
Definition crashText : string :=
  "Command failed: /bin/bash -l -c node x.js" +:+ newline +:+ "boom".

Definition crashed : ChildProcess :=
  {| cp_termination := Exited 1; cp_overflow := false; cp_message := crashText;
     cp_stdout := "partial"; cp_stderr := "boom" |}.

Definition crashHost : Env :=
  {| tempDir := "/ext/temp"; SHELL := Some "/bin/bash"; uuidv4 := firstId;
     mkdirFails := None; writeOutcome := fun _ => Written;
     spawn := fun _ d => (crashed, d);
     accessFails := fun _ => false;
     unlinkFails := fun _ => None; readdirFails := None; rmdirFails := None |}.




(** The script prints more than [maxBuffer] allows and exits with status
    zero: [exec] cuts the stream off and reports an error. *)
Definition flooded : ChildProcess :=
  {| cp_termination := Exited 0; cp_overflow := true;
     cp_message := "stdout maxBuffer length exceeded";
     cp_stdout := "aaaaaaaa"; cp_stderr := "" |}.

Definition floodHost : Env :=
  {| tempDir := "/ext/temp"; SHELL := Some "/bin/bash"; uuidv4 := firstId;
     mkdirFails := None; writeOutcome := fun _ => Written;
     spawn := fun _ d => (flooded, d);
     accessFails := fun _ => false;
     unlinkFails := fun _ => None; readdirFails := None; rmdirFails := None |}.

(** The script replaces its own file by a symbolic link to nowhere: the
    entry is still listed, [existsSync] does not see it. *)
Definition linkHost : Env :=
  {| tempDir := "/ext/temp"; SHELL := Some "/bin/bash"; uuidv4 := firstId;
     mkdirFails := None; writeOutcome := fun _ => Written;
     spawn := fun _ d => (greeted, d);
     accessFails := String.eqb "/ext/temp/1b9d6bcd-bbfd-4b2d-9b5d-ab8dfbbd4bed.js";
     unlinkFails := fun _ => None; readdirFails := None; rmdirFails := None |}.







(** The extension lives in a directory with a double quote in its name. *)
Definition quotedDir : string := "/ext/6" +:+ String quote " disk/temp".

Definition quotedHost : Env :=
  {| tempDir := quotedDir; SHELL := None; uuidv4 := firstId;
     mkdirFails := None; writeOutcome := fun _ => Written;
     spawn := fun _ d => (greeted, d);
     accessFails := fun _ => false;
     unlinkFails := fun _ => None; readdirFails := None; rmdirFails := None |}.

Definition quotedPlan : Plan :=
  {| filePath := quotedDir +:+ "/1b9d6bcd-bbfd-4b2d-9b5d-ab8dfbbd4bed.js";
     rawCommand := "node " +:+ quotedDir +:+ "/1b9d6bcd-bbfd-4b2d-9b5d-ab8dfbbd4bed.js";
     cleanupFiles := [quotedDir +:+ "/1b9d6bcd-bbfd-4b2d-9b5d-ab8dfbbd4bed.js"];
     executableCommand := "node" |}.


(** Probes of the detector: [which] prints the path; a start-up file of
    the login shell prints a warning first; [which] succeeds silently. *)
Definition found (path : string) : ChildProcess :=
  {| cp_termination := Exited 0; cp_overflow := false; cp_message := "";
     cp_stdout := path +:+ newline; cp_stderr := "" |}.

Definition foundWithWarning (path : string) : ChildProcess :=
  {| cp_termination := Exited 0; cp_overflow := false; cp_message := "";
     cp_stdout := path +:+ newline; cp_stderr := "compinit: insecure directories" |}.

Definition silent : ChildProcess :=
  {| cp_termination := Exited 0; cp_overflow := false; cp_message := "";
     cp_stdout := ""; cp_stderr := "" |}.

Definition missing : ChildProcess :=
  {| cp_termination := Exited 1; cp_overflow := false;
     cp_message := "Command failed: which python3";
     cp_stdout := "python3 not found" +:+ newline; cp_stderr := "" |}.

Definition probes (commandLine : string) : ChildProcess :=
  if includes "which node" commandLine then foundWithWarning "/usr/local/bin/node"
  else if includes "which python3" commandLine then missing
  else found "/usr/local/go/bin/go".

Definition silentProbes (commandLine : string) : ChildProcess := silent.

End Sample.

(** ** The later version of [runCode]

    [utils/codeRunner.ts] as it stands next to the detector: the java case
    is gone and [command] is [null], not the empty string, when there is
    nothing to report.  Everything else is the code of the first
    version, which is reused. *)

Module Later.

(** [command] is [string | null]. *)
Record CodeExecutionResult := {
  stdout : string;
  stderr : string;
  error : option string;
  command : option string
}.

Section Engine.

Context (env : Env).

Definition unsupported (language : string) : CodeExecutionResult :=
  {| stdout := ""; stderr := "";
     error := Some ("Unsupported language: " +:+ language);
     command := None |}.

(** [switch (language.toLowerCase()) { ... }] with its three cases. *)
Definition selectLanguage (language uniqueId : string) : CodeExecutionResult + Plan :=
  let dir := tempDir env in
  let lang := toLowerCase language in
  if String.eqb lang "javascript" then
    let file := pathJoin dir (uniqueId +:+ ".js") in
    inr {| filePath := file; rawCommand := "node " +:+ file;
           cleanupFiles := [file]; executableCommand := "node" |}
  else if String.eqb lang "python" then
    let file := pathJoin dir (uniqueId +:+ ".py") in
    inr {| filePath := file; rawCommand := "python3 " +:+ file;
           cleanupFiles := [file]; executableCommand := "python3" |}
  else if String.eqb lang "go" then
    let file := pathJoin dir (uniqueId +:+ ".go") in
    let goExecPath := pathJoin dir uniqueId in
    inr {| filePath := file;
           rawCommand := "go build -o " +:+ goExecPath +:+ " " +:+ file +:+ " && " +:+ goExecPath;
           cleanupFiles := [file; goExecPath]; executableCommand := "go" |}
  else inl (unsupported language).

Definition tryBlock (p : Plan) (code : string) : M CodeExecutionResult :=
  writeFileSync env (filePath p) code;;
  let commandLine := commandToExecute (defaultShellPath env) (rawCommand p) in
  '(out, err) ← execPromise env commandLine (defaultShellPath env) (executableCommand p);
  mret {| stdout := out; stderr := err; error := None; command := Some commandLine |}.

Definition catchBlock (e : Thrown) : M CodeExecutionResult :=
  mret {| stdout := orElse (e_stdout e) "";
          stderr := orElse (e_stderr e) "";
          error := Some (orElse (e_error e)
                           (orElse (e_message e) "Unknown error during execution"));
          command := None |}.

Definition runCode (language code : string) : M CodeExecutionResult :=
  ensureTempDir env;;
  let uniqueId := uuidv4 env in
  match selectLanguage language uniqueId with
  | inl early => mret early
  | inr p => tryFinally (tryCatch (tryBlock p code) catchBlock) (finallyBlock env p)
  end.

End Engine.

End Later.

(** ** The sample programs of the forms *)

Definition dq : string := String quote EmptyString.

(** The template literals of [handleLanguageChange] and of
    [getInitialCodeForLanguage]; [\n] is a line feed, and [\\n] in the go
    program is a backslash followed by [n]. *)
Definition sampleJavaScript : string :=
  "console.log(" +:+ dq +:+ "Hello from JavaScript!" +:+ dq +:+ ");" +:+ newline
  +:+ "let a = 10;" +:+ newline
  +:+ "let b = 20;" +:+ newline
  +:+ "console.log(" +:+ dq +:+ "Sum:" +:+ dq +:+ ", a + b);".

Definition samplePython : string :=
  "print(" +:+ dq +:+ "Hello from Python!" +:+ dq +:+ ")" +:+ newline
  +:+ "x = 5" +:+ newline
  +:+ "y = 3" +:+ newline
  +:+ "print(f" +:+ dq +:+ "Product: {x * y}" +:+ dq +:+ ")".

Definition sampleGo : string :=
  "package main" +:+ newline +:+ newline
  +:+ "import " +:+ dq +:+ "fmt" +:+ dq +:+ newline +:+ newline
  +:+ "func main() {" +:+ newline
  +:+ "    fmt.Println(" +:+ dq +:+ "Hello from Go!" +:+ dq +:+ ")" +:+ newline
  +:+ "    a, b := 7, 2" +:+ newline
  +:+ "    fmt.Printf(" +:+ dq +:+ "Division: %f\n" +:+ dq
  +:+ ", float64(a) / float64(b))" +:+ newline
  +:+ "}".

Definition sampleJava : string :=
  "public class Main {" +:+ newline
  +:+ "    public static void main(String[] args) {" +:+ newline
  +:+ "        System.out.println(" +:+ dq +:+ "Hello from Java!" +:+ dq +:+ ");" +:+ newline
  +:+ "        int num1 = 15;" +:+ newline
  +:+ "        int num2 = 4;" +:+ newline
  +:+ "        System.out.println(" +:+ dq +:+ "Difference: " +:+ dq
  +:+ " + (num1 - num2));" +:+ newline
  +:+ "    }" +:+ newline
  +:+ "}".

(** ** The first form: a fixed list of languages

    [run-code.tsx] as it was with the first version of [runCode]. *)

Module FirstForm.

Record Language := {
  name : string;
  value : string
}.

Definition languages : list Language :=
  [ {| name := "JavaScript"; value := "javascript" |};
    {| name := "Python"; value := "python" |};
    {| name := "Go"; value := "go" |};
    {| name := "Java"; value := "java" |} ].

(** The state of the component ([useState]). *)
Record State := {
  code : string;
  language : string;
  isLoading : bool;
  result : option CodeExecutionResult
}.

(** [setLanguage(newValue); setResult(null); switch (newValue) { ... setCode(...) }] *)
Definition handleLanguageChange (newValue : string) (st : State) : State :=
  {| code :=
       if String.eqb newValue "javascript" then sampleJavaScript
       else if String.eqb newValue "python" then samplePython
       else if String.eqb newValue "go" then sampleGo
       else if String.eqb newValue "java" then sampleJava
       else "";
     language := newValue;
     isLoading := isLoading st;
     result := None |}.

End FirstForm.

(** ** The form with detection and saved snippets

    The handlers of the latest [run-code.tsx].  Each handler is modelled as
    one uninterrupted step from the state of the component and the local
    storage it starts with; [code] and [language] inside a handler are the
    values of the render it was created in.  [LocalStorage] is a finite map
    from keys to strings. *)

Module Form.

Inductive ToastStyle := Animated | Success | Failure.

Record Toast := {
  style : ToastStyle;
  title : string;
  message : option string
}.

Record State := {
  code : string;
  language : string;
  isInitializing : bool;
  isExecutingCode : bool;
  result : option Later.CodeExecutionResult;
  availableLanguages : list DetectedLanguage;
  storage : gmap string string;     (* LocalStorage *)
  toast : option Toast              (* the toast on the screen *)
}.

Definition setCode (v : string) (st : State) : State :=
  {| code := v; language := language st; isInitializing := isInitializing st;
     isExecutingCode := isExecutingCode st; result := result st;
     availableLanguages := availableLanguages st; storage := storage st;
     toast := toast st |}.

Definition setLanguage (v : string) (st : State) : State :=
  {| code := code st; language := v; isInitializing := isInitializing st;
     isExecutingCode := isExecutingCode st; result := result st;
     availableLanguages := availableLanguages st; storage := storage st;
     toast := toast st |}.

Definition setIsInitializing (v : bool) (st : State) : State :=
  {| code := code st; language := language st; isInitializing := v;
     isExecutingCode := isExecutingCode st; result := result st;
     availableLanguages := availableLanguages st; storage := storage st;
     toast := toast st |}.

Definition setIsExecutingCode (v : bool) (st : State) : State :=
  {| code := code st; language := language st; isInitializing := isInitializing st;
     isExecutingCode := v; result := result st;
     availableLanguages := availableLanguages st; storage := storage st;
     toast := toast st |}.

Definition setResult (v : option Later.CodeExecutionResult) (st : State) : State :=
  {| code := code st; language := language st; isInitializing := isInitializing st;
     isExecutingCode := isExecutingCode st; result := v;
     availableLanguages := availableLanguages st; storage := storage st;
     toast := toast st |}.

Definition setAvailableLanguages (v : list DetectedLanguage) (st : State) : State :=
  {| code := code st; language := language st; isInitializing := isInitializing st;
     isExecutingCode := isExecutingCode st; result := result st;
     availableLanguages := v; storage := storage st;
     toast := toast st |}.

Definition setStorage (v : gmap string string) (st : State) : State :=
  {| code := code st; language := language st; isInitializing := isInitializing st;
     isExecutingCode := isExecutingCode st; result := result st;
     availableLanguages := availableLanguages st; storage := v;
     toast := toast st |}.

(** [showToast], and the assignments to the fields of the toast. *)
Definition setToast (v : Toast) (st : State) : State :=
  {| code := code st; language := language st; isInitializing := isInitializing st;
     isExecutingCode := isExecutingCode st; result := result st;
     availableLanguages := availableLanguages st; storage := storage st;
     toast := Some v |}.

Definition LANGUAGES_STORAGE_KEY : string := "detected_languages".
Definition LAST_USED_LANGUAGE_KEY : string := "lastUsedLanguage".

(** [`code_${language}`] *)
Definition codeKey (lang : string) : string := "code_" +:+ lang.

Definition getInitialCodeForLanguage (langValue : string) : string :=
  if String.eqb langValue "javascript" then sampleJavaScript
  else if String.eqb langValue "python" then samplePython
  else if String.eqb langValue "go" then sampleGo
  else "".

(** [setCode(savedCode || getInitialCodeForLanguage(lang))] *)
Definition loadCode (lang : string) (st : State) : State :=
  setCode (orElse (storage st !! codeKey lang) (getInitialCodeForLanguage lang)) st.

Definition handleCodeChange (newCode : string) (st : State) : State :=
  setStorage (<[codeKey (language st) := newCode]> (storage st)) (setCode newCode st).

Section Handlers.

(** The host of the detector, and [JSON.stringify] on a list of detected
    languages. *)
Context (shellVar : option string) (exec : string -> ChildProcess)
        (stringify : list DetectedLanguage -> string).

(** [detected.find((lang) => lang.value === savedLanguage)?.value ?? detected[0].value],
    for a list whose first element is [first]. *)
Definition matchedLanguageValue (savedLanguage : option string)
    (detected : list DetectedLanguage) (first : DetectedLanguage) : string :=
  match savedLanguage with
  | Some saved =>
      match find (fun lang => String.eqb (value lang) saved) detected with
      | Some lang => value lang
      | None => value first
      end
  | None => value first
  end.

(** Nothing the [try] block calls throws here (the detector resolves in
    all cases, the storage is a map), so its [catch] block has no run; the
    [finally] block is the last step. *)
Definition performLanguageDetection (showLoadingToast : bool) (st : State) : State :=
  let st := setIsInitializing true st in
  let st :=
    if showLoadingToast
    then setToast {| style := Animated; title := "Detecting languages..."; message := None |} st
    else st in
  let detected := detectInstalledLanguages shellVar exec in
  let st := setAvailableLanguages detected st in
  let st :=
    match detected with
    | [] =>
        let st := setCode "" (setLanguage "" st) in
        let st :=
          if showLoadingToast
          then setToast
                 {| style := Failure; title := "No supported languages found!";
                    message := Some "Please ensure Node.js, Python3, or Go are installed and in your PATH." |}
                 st
          else st in
        setStorage (delete LANGUAGES_STORAGE_KEY (storage st)) st
    | first :: _ =>
        let st := setStorage (<[LANGUAGES_STORAGE_KEY := stringify detected]> (storage st)) st in
        let savedLanguage := storage st !! LAST_USED_LANGUAGE_KEY in
        let matched := matchedLanguageValue savedLanguage detected first in
        let st := setLanguage matched st in
        let st := loadCode matched st in
        let st := setStorage (<[LAST_USED_LANGUAGE_KEY := matched]> (storage st)) st in
        if showLoadingToast
        then setToast
               {| style := Success; title := "Languages detected!";
                  message := Some (if (0 <? length detected)%nat
                                   then "Ready to run code."
                                   else "No supported languages found.") |}
               st
        else st
    end in
  setIsInitializing false st.

Definition handleLanguageChange (newValue : string) (st : State) : State :=
  if String.eqb newValue "detect-new-languages"
  then performLanguageDetection true st
  else
    let st1 := setStorage (<[codeKey (language st) := code st]> (storage st)) st in
    let st2 := setResult None (setLanguage newValue st1) in
    let st3 := loadCode newValue st2 in
    setStorage (<[LAST_USED_LANGUAGE_KEY := newValue]> (storage st3)) st3.

End Handlers.

(** [if (executionResult.error)] *)
Definition hasError (r : Later.CodeExecutionResult) : bool :=
  match Later.error r with
  | Some text => truthy text
  | None => false
  end.

(** [handleRunCode]: the state of the component and the world after it. *)
Definition handleRunCode (env : Env) (st : State) (w : World) : State * World :=
  let st := setResult None (setIsExecutingCode true st) in
  let st := setToast {| style := Animated; title := "Running code..."; message := None |} st in
  let '(st, w) :=
    if negb (truthy (trim (code st)))
    then (setToast {| style := Failure; title := "No code provided!";
                      message := Some "Please enter some code to run." |} st, w)
    else
      match Later.runCode env (language st) (code st) w with
      | (Normal executionResult, w') =>
          let st := setResult (Some executionResult) st in
          (if hasError executionResult
           then setToast {| style := Failure; title := "Code execution failed!";
                            message := Later.error executionResult |} st
           else setToast {| style := Success; title := "Code executed successfully!";
                            message := Some "Output displayed below." |} st,
           w')
      | (Throw e, w') =>
          let st := setToast {| style := Failure; title := "Failed to run code!";
                                message := Some (orElse (e_message e)
                                                   "An unknown error occurred.") |} st in
          (setResult (Some {| Later.stdout := ""; Later.stderr := "";
                              Later.error := Some (orElse (e_message e) "Unknown error");
                              Later.command := None |}) st,
           w')
      end in
  (setIsExecutingCode false st, w).

End Form.

(** ** Sample states of the form *)

Module FormSample.

(** Python is selected, a line has been typed, and a snippet is saved
    for go. *)
Definition typing : Form.State :=
  {| Form.code := "print(2)"; Form.language := "python";
     Form.isInitializing := false; Form.isExecutingCode := false;
     Form.result := None;
     Form.availableLanguages :=
       [ {| name := "Python"; value := "python"; executablePath := "/usr/bin/python3" |};
         {| name := "Go"; value := "go"; executablePath := "/usr/local/go/bin/go" |} ];
     Form.storage := {[ "lastUsedLanguage" := "python"; "code_go" := "package main" ]};
     Form.toast := None |}.

(** Only white space in the editor. *)
Definition blank : Form.State :=
  {| Form.code := "  " +:+ newline; Form.language := "python";
     Form.isInitializing := false; Form.isExecutingCode := false;
     Form.result := None; Form.availableLanguages := [];
     Form.storage := ∅; Form.toast := None |}.

(** A host on which [python3] and [go] are found. *)
Definition twoFound (commandLine : string) : ChildProcess :=
  if includes "which node" commandLine then Sample.missing
  else if includes "which python3" commandLine then Sample.found "/usr/bin/python3"
  else Sample.found "/usr/local/go/bin/go".

Definition stringify (detected : list DetectedLanguage) : string :=
  "[" +:+ String.concat "," (executablePath <$> detected) +:+ "]".

End FormSample.

(** ** Vocabulary of the further properties *)

(** The calls the [finally] block makes. *)
Definition isCleanupEvent (ev : Event) : bool :=
  match ev with
  | ExistsSync _ | UnlinkSync _ | ReaddirSync _ | RmdirSync _ => true
  | MkdirSync _ | WriteFileSync _ _ | Exec _ _ _ => false
  end.

(** [s] starts, respectively ends, with a character that satisfies [f]. *)
Definition headSatisfies (f : ascii -> bool) (s : string) : bool :=
  match s with
  | EmptyString => false
  | String c _ => f c
  end.

Fixpoint lastSatisfies (f : ascii -> bool) (s : string) : bool :=
  match s with
  | EmptyString => false
  | String c EmptyString => f c
  | String _ r => lastSatisfies f r
  end.

(** The result of the first version as the later version reports it:
    [command] is [null] where the first version has the empty string. *)
Definition laterResult (r : CodeExecutionResult) : Later.CodeExecutionResult :=
  {| Later.stdout := stdout r; Later.stderr := stderr r; Later.error := error r;
     Later.command := match error r with
                      | None => Some (command r)
                      | Some _ => None
                      end |}.

(** The pattern of the java case matches in [code] right after [before],
    with [className] as its name and [after] as the rest of the text. *)
Definition publicClassAt (code before className after : string) : Prop :=
  exists ws1 ws2,
    code = before +:+ "public" +:+ ws1 +:+ "class" +:+ ws2 +:+ className +:+ after /\
    ws1 <> "" /\ allChars isSpace ws1 = true /\
    ws2 <> "" /\ allChars isSpace ws2 = true /\
    className <> "" /\ allChars isWordChar className = true.

(** * Properties *)

(** ** Strings *)

Section StringFacts.

Lemma append_cons c (a b : string) : String c a +:+ b = String c (a +:+ b).
Proof. reflexivity. Qed.

Lemma append_nil_l (b : string) : "" +:+ b = b.
Proof. reflexivity. Qed.

Lemma append_assoc (a b c : string) : (a +:+ b) +:+ c = a +:+ (b +:+ c).
Proof.
  induction a as [|x a IH]; [reflexivity|].
  rewrite !append_cons. by rewrite IH.
Qed.

Lemma append_inv_head (a b c : string) : a +:+ b = a +:+ c -> b = c.
Proof.
  induction a as [|x a IH]; [done|].
  rewrite !append_cons. intros [= H]. auto.
Qed.

(** Two concatenations whose first parts have the same length agree part
    by part. *)
Lemma append_same_length (u1 u2 e1 e2 : string) :
  String.length u1 = String.length u2 ->
  u1 +:+ e1 = u2 +:+ e2 -> u1 = u2 /\ e1 = e2.
Proof.
  revert u2. induction u1 as [|x u1 IH]; intros [|y u2]; try done.
  rewrite !append_cons. intros [= Hlen] [= -> H].
  destruct (IH _ Hlen H) as [-> ->]. done.
Qed.

Lemma lowerChar_idem c : lowerChar (lowerChar c) = lowerChar c.
Proof. destruct c as [[][][][][][][][]]; reflexivity. Qed.

Lemma toLowerCase_idem s : toLowerCase (toLowerCase s) = toLowerCase s.
Proof.
  induction s as [|c s IH]; [done|].
  cbn [toLowerCase]. by rewrite lowerChar_idem, IH.
Qed.

Lemma startsWith_append (x b : string) : startsWith x (x +:+ b) = true.
Proof.
  induction x as [|c x IH]; [done|].
  rewrite append_cons. cbn [startsWith]. by rewrite Ascii.eqb_refl.
Qed.

Lemma includes_startsWith (x s : string) : startsWith x s = true -> includes x s = true.
Proof. intros H. destruct s; cbn [includes]; by rewrite H. Qed.

Lemma includes_append_r (x a b : string) :
  includes x b = true -> includes x (a +:+ b) = true.
Proof.
  intros H. induction a as [|c a IH]; [done|].
  rewrite append_cons. cbn [includes]. rewrite IH. by destruct (startsWith _ _).
Qed.

(** The text between two others is found by [includes]. *)
Lemma includes_middle (x a b : string) : includes x (a +:+ x +:+ b) = true.
Proof. apply includes_append_r, includes_startsWith, startsWith_append. Qed.

Lemma append_nil_r (a : string) : a +:+ "" = a.
Proof. induction a as [|c a IH]; [done|]. by rewrite append_cons, IH. Qed.

Lemma includes_pathJoin (dir x ext : string) :
  includes x (pathJoin dir (x +:+ ext)) = true.
Proof.
  unfold pathJoin. do 2 apply includes_append_r.
  apply includes_startsWith, startsWith_append.
Qed.

Lemma pathJoin_same_length (dir u1 u2 e1 e2 : string) :
  String.length u1 = String.length u2 ->
  pathJoin dir (u1 +:+ e1) = pathJoin dir (u2 +:+ e2) -> u1 = u2 /\ e1 = e2.
Proof.
  unfold pathJoin. intros Hlen H.
  do 2 apply append_inv_head in H. by apply append_same_length.
Qed.

Lemma pathJoin_not_dir (dir name : string) : pathJoin dir name <> dir.
Proof.
  unfold pathJoin. intros H. rewrite <- (append_nil_r dir) in H at 2.
  by apply append_inv_head in H.
Qed.

Lemma orElse_empty (s : string) : orElse (Some s) "" = s.
Proof. by destruct s. Qed.

Lemma orElse_truthy (s d : string) : s <> "" -> orElse (Some s) d = s.
Proof. by destruct s. Qed.

End StringFacts.

(** ** The monad and the calls into the host *)

Ltac run :=
  unfold mbind, M_bind, mret, M_ret, emit, getDisk, putDisk, throw; cbn [disk trace].

Section EngineFacts.

Context (env : Env).

Lemma runCode_unfold language code w :
  runCode env language code w =
  match ensureTempDir env w with
  | (Normal _, w1) =>
      match selectLanguage env language code (uuidv4 env) with
      | inl early => (Normal early, w1)
      | inr p =>
          tryFinally (tryCatch (tryBlock env p code) catchBlock) (finallyBlock env p) w1
      end
  | (Throw e, w1) => (Throw e, w1)
  end.
Proof.
  unfold runCode. run.
  destruct (ensureTempDir env w) as [[[]|e] w1]; [|done].
  by destruct (selectLanguage _ _ _ _).
Qed.

Lemma pathExists_tempDir entries : pathExists env (Some entries) (tempDir env) = true.
Proof. unfold pathExists. by rewrite bool_decide_eq_true_2. Qed.

(** [ensureTempDir] throws exactly when the directory is absent and
    [mkdirSync] fails; otherwise the directory exists afterwards, with the
    entries it had. *)
Lemma ensureTempDir_spec w :
  match disk w with
  | Some entries =>
      ensureTempDir env w =
      (Normal tt, {| disk := Some entries;
                     trace := trace w ++ [ExistsSync (tempDir env)] |})
  | None =>
      match mkdirFails env with
      | None =>
          ensureTempDir env w =
          (Normal tt, {| disk := Some ∅;
                         trace := (trace w ++ [ExistsSync (tempDir env)])
                                    ++ [MkdirSync (tempDir env)] |})
      | Some message =>
          ensureTempDir env w =
          (Throw (errorObject message),
           {| disk := None;
              trace := (trace w ++ [ExistsSync (tempDir env)])
                         ++ [MkdirSync (tempDir env)] |})
      end
  end.
Proof.
  unfold ensureTempDir, existsSync, mkdirSync. run.
  destruct (disk w) as [entries|] eqn:Hd.
  - by rewrite pathExists_tempDir.
  - cbn [pathExists]. run. by destruct (mkdirFails env).
Qed.

Lemma ensureTempDir_normal w w1 :
  ensureTempDir env w = (Normal tt, w1) ->
  disk w1 = Some (default ∅ (disk w)) /\
  exists tr, trace w1 = trace w ++ ExistsSync (tempDir env) :: tr /\
             (tr = [] \/ tr = [MkdirSync (tempDir env)]).
Proof.
  pose proof (ensureTempDir_spec w) as H.
  destruct (disk w) as [entries|]; [|destruct (mkdirFails env)];
    rewrite H; intros [= <-]; cbn [disk trace default]; split; try done.
  - exists []. auto.
  - exists [MkdirSync (tempDir env)]. rewrite <- app_assoc. auto.
Qed.

(** One iteration of the [forEach] of the [finally] block: the entry goes
    when [existsSync] sees it and [unlinkSync] does not fail, and stays when
    [existsSync] does not see it or [unlinkSync] fails. *)
Lemma unlinkOne_spec file w :
  exists w',
    unlinkIfPresent env file w = (Normal tt, w') /\
    (exists tr, trace w' = trace w ++ tr) /\
    match disk w with
    | None => disk w' = None
    | Some entries =>
        (disk w' = Some entries \/ disk w' = Some (entries ∖ {[file]})) /\
        (accessFails env file = false -> unlinkFails env file = None ->
         disk w' = Some (entries ∖ {[file]})) /\
        (file <> tempDir env ->
         accessFails env file = true \/ unlinkFails env file <> None ->
         disk w' = Some entries)
    end.
Proof.
  unfold unlinkIfPresent, existsSync, unlinkSync, tryCatch. run.
  destruct (disk w) as [entries|] eqn:Hd; cbn [pathExists].
  - destruct (bool_decide (file = tempDir env)
              || (bool_decide (file ∈ entries) && negb (accessFails env file))) eqn:Hp.
    + run. destruct (unlinkFails env file) as [message|] eqn:Hu; run.
      * eexists; split; [done|]. cbn [disk trace].
        split; [rewrite <- app_assoc; eauto|]. split_and!; [auto|done|done].
      * eexists; split; [done|]. cbn [disk trace].
        split; [rewrite <- app_assoc; eauto|]. split_and!; [auto|done|].
        intros Hne [Ha|Hu']; [|done].
        rewrite Ha, andb_false_r, orb_false_r in Hp.
        by apply bool_decide_eq_true in Hp.
    + eexists; split; [done|]. cbn [disk trace].
      apply orb_false_iff in Hp as [_ Hp].
      split; [eauto|]. split_and!; [auto| |done].
      intros Ha _. rewrite Ha, andb_true_r in Hp. apply bool_decide_eq_false in Hp.
      f_equal. set_solver.
  - eexists; split; [done|]. cbn [disk trace]. eauto.
Qed.

(** The loop never throws; it only removes entries, and only tracked ones;
    a tracked file that [existsSync] sees and whose [unlinkSync] does not
    fail is gone afterwards; an entry that [existsSync] does not see, or
    whose [unlinkSync] fails, stays. *)
Lemma unlinkEach_spec files : forall w,
  exists w',
    unlinkEach env files w = (Normal tt, w') /\
    (exists tr, trace w' = trace w ++ tr) /\
    match disk w with
    | None => disk w' = None
    | Some entries =>
        exists entries',
          disk w' = Some entries' /\
          entries' ⊆ entries /\
          (forall f, f ∈ entries -> f ∉ files -> f ∈ entries') /\
          (forall f, f ∈ files -> accessFails env f = false -> unlinkFails env f = None ->
                     f ∉ entries') /\
          (forall f, f ∈ entries -> f <> tempDir env ->
                     accessFails env f = true \/ unlinkFails env f <> None -> f ∈ entries')
    end.
Proof.
  induction files as [|file rest IH]; intros w.
  - exists w. split; [done|]. split; [exists []; by rewrite app_nil_r|].
    destruct (disk w) as [entries|]; [|done].
    exists entries. set_solver.
  - cbn [unlinkEach].
    destruct (unlinkOne_spec file w) as (w1 & Hrun & [tr1 Htr1] & Hdisk1).
    destruct (IH w1) as (w2 & Hrest & [tr2 Htr2] & Hdisk2).
    exists w2. split.
    { unfold mbind, M_bind. by rewrite Hrun. }
    split; [exists (tr1 ++ tr2); by rewrite Htr2, Htr1, app_assoc|].
    destruct (disk w) as [entries|].
    + destruct Hdisk1 as (Hcases & Hgone & Hstays).
      assert (exists e1, disk w1 = Some e1 /\ e1 ⊆ entries /\
                (forall f, f ∈ entries -> f <> file -> f ∈ e1) /\
                (accessFails env file = false -> unlinkFails env file = None -> file ∉ e1) /\
                (file <> tempDir env ->
                 accessFails env file = true \/ unlinkFails env file <> None -> e1 = entries))
        as (e1 & He1 & Hsub & Hkeep & Hrm & Hst).
      { destruct Hcases as [H|H].
        - exists entries. split; [done|]. split; [done|]. split; [auto|]. split; [|done].
          intros Ha Hu. specialize (Hgone Ha Hu). rewrite H in Hgone.
          injection Hgone as Hgone. set_solver.
        - exists (entries ∖ {[file]}). split; [done|]. split; [set_solver|].
          split; [set_solver|]. split; [set_solver|].
          intros Hne Hor. specialize (Hstays Hne Hor). congruence. }
      rewrite He1 in Hdisk2.
      destruct Hdisk2 as (e2 & He2 & Hsub2 & Hkeep2 & Hrm2 & Hst2).
      exists e2. split; [done|]. split; [set_solver|]. split_and!.
      * intros f Hf Hnot. apply Hkeep2; [apply Hkeep; set_solver|set_solver].
      * intros f Hf Ha Hu. apply elem_of_cons in Hf as [->|Hf]; [|by apply Hrm2].
        specialize (Hrm Ha Hu). set_solver.
      * intros f Hf Hne Hor. apply Hst2; [|done|done].
        destruct (decide (f = file)) as [->|Hdiff]; [|by apply Hkeep].
        by rewrite (Hst Hne Hor).
    + by rewrite Hdisk1 in Hdisk2.
Qed.

Lemma length_elements_zero (entries : gset string) :
  (length (elements entries) =? 0)%nat = bool_decide (entries = ∅).
Proof.
  destruct (decide (entries = ∅)) as [->|Hne].
  - by rewrite elements_empty.
  - rewrite bool_decide_eq_false_2 by done.
    destruct (elements entries) eqn:He; [|done].
    apply elements_empty_iff in He. by apply leibniz_equiv in He.
Qed.

(** The second half of the [finally] block never throws.  It leaves the
    disk as it is, or removes the directory, which it does only when the
    directory is empty, and always does then unless [readdirSync] or
    [rmdirSync] fails. *)
Lemma removeDirIfEmpty_spec w :
  exists w',
    removeDirIfEmpty env w = (Normal tt, w') /\
    (exists tr, trace w' = trace w ++ tr) /\
    (disk w' = disk w \/ (disk w = Some ∅ /\ disk w' = None)) /\
    (readdirFails env = None -> rmdirFails env = None -> disk w' <> Some ∅).
Proof.
  unfold removeDirIfEmpty, tryCatch, readdirSync, rmdirSync. run.
  destruct (readdirFails env) as [m|]; run.
  { eexists; split; [done|]. cbn [disk trace]. split; [eauto|]. split; [auto|done]. }
  destruct (disk w) as [entries|] eqn:Hd; run.
  2:{ eexists; split; [done|]. cbn [disk trace]. split; [eauto|]. split; [auto|done]. }
  rewrite length_elements_zero.
  destruct (decide (entries = ∅)) as [->|Hne].
  - rewrite bool_decide_eq_true_2 by done. run.
    destruct (rmdirFails env) as [m|]; run.
    + eexists; split; [done|]. cbn [disk trace].
      split; [rewrite <- app_assoc; eauto|]. split; [auto|done].
    + rewrite bool_decide_eq_true_2 by done.
      eexists; split; [done|]. cbn [disk trace].
      split; [rewrite <- app_assoc; eauto|]. split; [auto|done].
  - rewrite bool_decide_eq_false_2 by done. run.
    eexists; split; [done|]. cbn [disk trace].
    split; [eauto|]. split; [auto|]. intros _ _ [= ?]. done.
Qed.

(** The [finally] block as a whole. *)
Lemma finallyBlock_spec p w :
  exists w',
    finallyBlock env p w = (Normal tt, w') /\
    (exists tr, trace w' = trace w ++ tr) /\
    (forall f, f ∈ cleanupFiles p -> accessFails env f = false -> unlinkFails env f = None ->
               forall entries', disk w' = Some entries' -> f ∉ entries') /\
    (forall entries', disk w' = Some entries' ->
       exists entries, disk w = Some entries /\ entries' ⊆ entries /\
         forall f, f ∈ entries -> f ∉ cleanupFiles p -> f ∈ entries') /\
    (readdirFails env = None -> rmdirFails env = None -> disk w' <> Some ∅) /\
    (forall f entries, disk w = Some entries -> f ∈ entries -> f <> tempDir env ->
       accessFails env f = true \/ unlinkFails env f <> None ->
       exists entries', disk w' = Some entries' /\ f ∈ entries').
Proof.
  unfold finallyBlock.
  destruct (unlinkEach_spec (cleanupFiles p) w) as (w1 & Hrun1 & [tr1 Htr1] & Hd1).
  destruct (removeDirIfEmpty_spec w1) as (w2 & Hrun2 & [tr2 Htr2] & Hd2 & Hempty).
  exists w2. split; [unfold mbind, M_bind; by rewrite Hrun1|].
  split; [exists (tr1 ++ tr2); by rewrite Htr2, Htr1, app_assoc|].
  split_and!; [| |done|].
  - intros f Hf Ha Hu entries' Hw2.
    destruct Hd2 as [Heq|[_ Hnone]]; [|congruence].
    rewrite Hw2 in Heq. destruct (disk w) as [entries|]; [|congruence].
    destruct Hd1 as (e1 & He1 & _ & _ & Hrm & _). rewrite He1 in Heq.
    injection Heq as <-. by apply Hrm.
  - intros entries' Hw2.
    destruct Hd2 as [Heq|[_ Hnone]]; [|congruence].
    rewrite Hw2 in Heq. destruct (disk w) as [entries|]; [|congruence].
    destruct Hd1 as (e1 & He1 & Hsub & Hkeep & _). rewrite He1 in Heq.
    injection Heq as <-. eauto.
  - intros f entries Hw Hf Hne Hor. rewrite Hw in Hd1.
    destruct Hd1 as (e1 & He1 & _ & _ & _ & Hst).
    specialize (Hst f Hf Hne Hor).
    destruct Hd2 as [Heq|[Hnil _]].
    + exists e1. split; [congruence|done].
    + rewrite He1 in Hnil. injection Hnil as ->. set_solver.
Qed.

(** The [try] and [catch] blocks together, when the write fails. *)
Lemma tryBlock_write_failed p code w entries message created :
  disk w = Some entries ->
  writeOutcome env (filePath p) = WriteFailed message created ->
  tryCatch (tryBlock env p code) catchBlock w =
  (Normal {| stdout := ""; stderr := "";
             error := Some (orElse (Some message) "Unknown error during execution");
             command := "" |},
   {| disk := Some (if created then {[filePath p]} ∪ entries else entries);
      trace := trace w ++ [WriteFileSync (filePath p) code] |}).
Proof.
  intros Hd Hw. unfold tryCatch, tryBlock, writeFileSync, catchBlock. run.
  rewrite Hd, Hw. by destruct created.
Qed.

(** The [try] and [catch] blocks together, when the write succeeds: the
    process is spawned on the disk that holds the source file, and the
    result is read off what the callback of [exec] receives. *)
Lemma tryBlock_written p code w entries child d' :
  disk w = Some entries ->
  writeOutcome env (filePath p) = Written ->
  spawn env (commandToExecute (defaultShellPath env) (rawCommand p))
    (Some ({[filePath p]} ∪ entries)) = (child, d') ->
  tryCatch (tryBlock env p code) catchBlock w =
  (Normal
     match cp_error child with
     | None =>
         {| stdout := cp_stdout child; stderr := cp_stderr child; error := None;
            command := commandToExecute (defaultShellPath env) (rawCommand p) |}
     | Some message =>
         {| stdout := cp_stdout child; stderr := cp_stderr child;
            error := Some (orElse (Some (classify (executableCommand p) message))
                             "Unknown error during execution");
            command := "" |}
     end,
   {| disk := d';
      trace := (trace w ++ [WriteFileSync (filePath p) code])
                 ++ [Exec (commandToExecute (defaultShellPath env) (rawCommand p))
                          (tempDir env) (defaultShellPath env)] |}).
Proof.
  intros Hd Hw Hs. unfold tryCatch, tryBlock, writeFileSync, execPromise, catchBlock. run.
  rewrite Hd, Hw. run. rewrite Hs. run.
  destruct (cp_error child) as [message|]; run; [|done].
  cbn [rejection e_stdout e_stderr e_error e_message]. by rewrite !orElse_empty.
Qed.

(** Neither block lets an exception escape, and both start by writing the
    source file. *)
Lemma tryBlock_caught p code w entries :
  disk w = Some entries ->
  exists r w' tr,
    tryCatch (tryBlock env p code) catchBlock w = (Normal r, w') /\
    trace w' = trace w ++ WriteFileSync (filePath p) code :: tr.
Proof.
  intros Hd.
  destruct (writeOutcome env (filePath p)) as [|message created] eqn:Hw.
  - destruct (spawn env (commandToExecute (defaultShellPath env) (rawCommand p))
                (Some ({[filePath p]} ∪ entries))) as [child d'] eqn:Hs.
    rewrite (tryBlock_written p code w entries child d' Hd Hw Hs).
    do 3 eexists. split; [done|]. cbn [trace]. by rewrite <- app_assoc.
  - rewrite (tryBlock_write_failed p code w entries message created Hd Hw).
    do 3 eexists. split; [done|]. done.
Qed.

(** Every tracked path is a path inside the scratch directory. *)
Lemma cleanupFiles_in_tempDir language code uniqueId p f :
  selectLanguage env language code uniqueId = inr p ->
  f ∈ cleanupFiles p ->
  exists name, f = pathJoin (tempDir env) name.
Proof.
  unfold selectLanguage. intros Hs Hf.
  destruct (String.eqb _ "javascript");
    [|destruct (String.eqb _ "python");
      [|destruct (String.eqb _ "go");
        [|destruct (String.eqb _ "java"); [destruct (classNameMatch code)|]]]];
    try discriminate Hs; injection Hs as <-; cbn [cleanupFiles] in Hf;
    repeat (apply elem_of_cons in Hf as [->|Hf]; [by eexists|]);
    by apply elem_of_nil in Hf.
Qed.

(** A call that gets past the switch returns what the [try] and [catch]
    blocks produce, after the [finally] block has run. *)
Lemma runCode_planned language code w w1 p r w2 :
  ensureTempDir env w = (Normal tt, w1) ->
  selectLanguage env language code (uuidv4 env) = inr p ->
  tryCatch (tryBlock env p code) catchBlock w1 = (Normal r, w2) ->
  exists w3,
    runCode env language code w = (Normal r, w3) /\
    finallyBlock env p w2 = (Normal tt, w3).
Proof.
  intros He Hs Ht. rewrite runCode_unfold, He, Hs.
  unfold tryFinally. rewrite Ht.
  destruct (finallyBlock_spec p w2) as (w3 & Hf & _).
  exists w3. by rewrite Hf.
Qed.

(** A call that leaves through one of the two early [return]s. *)
Lemma runCode_early language code w w1 early :
  ensureTempDir env w = (Normal tt, w1) ->
  selectLanguage env language code (uuidv4 env) = inl early ->
  runCode env language code w = (Normal early, w1).
Proof. intros He Hs. by rewrite runCode_unfold, He, Hs. Qed.

End EngineFacts.

(** ** The claims about [runCode] *)

(** C1, as amended.  Whenever a call gets as far as the [try] statement, it
    returns, whatever the write and the process did.  A tracked artifact
    that [existsSync] sees and whose [unlinkSync] does not fail is not on
    the disk afterwards.  A tracked artifact that is in the scratch
    directory when the [try] and [catch] blocks are over stays there when
    [existsSync] does not see it (a link whose target is missing) or when
    its [unlinkSync] fails.  The scratch directory is not left behind empty
    unless [readdirSync] or [rmdirSync] fails. *)
Theorem runCode_cleans_up env language code w w1 p :
  ensureTempDir env w = (Normal tt, w1) ->
  selectLanguage env language code (uuidv4 env) = inr p ->
  exists r w2 w',
    tryCatch (tryBlock env p code) catchBlock w1 = (Normal r, w2) /\
    runCode env language code w = (Normal r, w') /\
    (forall f, f ∈ cleanupFiles p ->
       accessFails env f = false -> unlinkFails env f = None ->
       forall entries, disk w' = Some entries -> f ∉ entries) /\
    (forall f, f ∈ cleanupFiles p ->
       accessFails env f = true \/ unlinkFails env f <> None ->
       forall before, disk w2 = Some before -> f ∈ before ->
       exists entries, disk w' = Some entries /\ f ∈ entries) /\
    (readdirFails env = None -> rmdirFails env = None -> disk w' <> Some ∅).
Proof.
  intros He Hs.
  destruct (ensureTempDir_normal env w w1 He) as [Hd _].
  destruct (tryBlock_caught env p code w1 _ Hd) as (r & w2 & tr & Ht & _).
  destruct (runCode_planned env language code w w1 p r w2 He Hs Ht) as (w3 & Hrun & Hfin).
  destruct (finallyBlock_spec env p w2) as (w3' & Hfin' & _ & Hgone & _ & Hempty & Hstays).
  rewrite Hfin in Hfin'. injection Hfin' as <-.
  exists r, w2, w3. split_and!; [done|done|done| |done].
  intros f Hf Hor before Hw2 Hin.
  destruct (cleanupFiles_in_tempDir env _ _ _ _ _ Hs Hf) as [name ->].
  apply (Hstays _ before); [done|done|apply pathJoin_not_dir|done].
Qed.

Lemma runCode_cleans_up_witness :
  exists r w2 w',
    tryCatch (tryBlock Sample.linkHost Sample.jsPlan "process.exit(0)") catchBlock
      {| disk := Some ∅; trace := [ExistsSync "/ext/temp"; MkdirSync "/ext/temp"] |}
      = (Normal r, w2) /\
    runCode Sample.linkHost "javascript" "process.exit(0)" Sample.emptyWorld = (Normal r, w') /\
    (forall f, f ∈ cleanupFiles Sample.jsPlan ->
       accessFails Sample.linkHost f = false -> unlinkFails Sample.linkHost f = None ->
       forall entries, disk w' = Some entries -> f ∉ entries) /\
    (forall f, f ∈ cleanupFiles Sample.jsPlan ->
       accessFails Sample.linkHost f = true \/ unlinkFails Sample.linkHost f <> None ->
       forall before, disk w2 = Some before -> f ∈ before ->
       exists entries, disk w' = Some entries /\ f ∈ entries) /\
    (readdirFails Sample.linkHost = None -> rmdirFails Sample.linkHost = None ->
     disk w' <> Some ∅).
Proof.
  eapply (runCode_cleans_up Sample.linkHost "javascript" "process.exit(0)" Sample.emptyWorld).
  - reflexivity.
  - reflexivity.
Defined.

(** C1 as stated fails: when [unlinkSync] throws, the handler only logs,
    and the source file, named with the generated identifier, is still in
    the scratch directory when the call returns. *)
Lemma runCode_leaves_file_when_unlink_fails :
  let w' := (runCode Sample.unlinkDenied "javascript" "console.log(1)" Sample.emptyWorld).2 in
  let file := pathJoin "/ext/temp" (Sample.firstId +:+ ".js") in
  selectLanguage Sample.unlinkDenied "javascript" "console.log(1)" Sample.firstId
    = inr Sample.jsPlan /\
  file ∈ cleanupFiles Sample.jsPlan /\
  includes Sample.firstId file = true /\
  pathExists Sample.unlinkDenied (disk w') file = true.
Proof.
  cbv zeta. split; [reflexivity|]. split; [by left|]. split; [reflexivity|].
  vm_compute. reflexivity.
Qed.

(** A link whose target is missing: no call fails, [unlinkSync] is never
    called, and both the entry and the scratch directory stay. *)
Example runCode_dangling_link_sample :
  let w' := (runCode Sample.linkHost "javascript" "process.exit(0)" Sample.emptyWorld).2 in
  elements <$> disk w' = Some [filePath Sample.jsPlan] /\
  trace w' = [ ExistsSync "/ext/temp"; MkdirSync "/ext/temp";
               WriteFileSync (filePath Sample.jsPlan) "process.exit(0)";
               Exec (commandToExecute "/bin/bash" (rawCommand Sample.jsPlan))
                    "/ext/temp" "/bin/bash";
               ExistsSync (filePath Sample.jsPlan);
               ReaddirSync "/ext/temp" ].
Proof. cbv zeta. split; vm_compute; reflexivity. Qed.

(** C2, as amended.  In a call that spawns the process, [error] is [null]
    exactly when the process exited with status zero and neither stream
    went over the [maxBuffer] of [exec]; and the two streams as [exec]
    captured them reach the result unchanged, after a failure as after a
    success. *)
Theorem runCode_error_null_iff_clean_exit env language code w w1 p entries child d' :
  ensureTempDir env w = (Normal tt, w1) ->
  selectLanguage env language code (uuidv4 env) = inr p ->
  disk w1 = Some entries ->
  writeOutcome env (filePath p) = Written ->
  spawn env (commandToExecute (defaultShellPath env) (rawCommand p))
    (Some ({[filePath p]} ∪ entries)) = (child, d') ->
  exists r w',
    runCode env language code w = (Normal r, w') /\
    (error r = None <-> cp_termination child = Exited 0 /\ cp_overflow child = false) /\
    stdout r = cp_stdout child /\
    stderr r = cp_stderr child.
Proof.
  intros He Hs Hd Hw Hc.
  pose proof (tryBlock_written env p code w1 entries child d' Hd Hw Hc) as Ht.
  destruct (runCode_planned env language code w w1 p _ _ He Hs Ht) as (w3 & Hrun & _).
  eexists _, w3. split; [exact Hrun|].
  unfold cp_error.
  destruct (cp_termination child) as [[|status|status]|signal|];
    destruct (cp_overflow child); cbn [error stdout stderr];
    (split; [|done]); split; (done || by intros [? ?]).
Qed.

Lemma runCode_error_null_iff_clean_exit_witness :
  exists r w',
    runCode Sample.crashHost "javascript" "process.exit(1)" Sample.emptyWorld = (Normal r, w') /\
    (error r = None <->
     cp_termination Sample.crashed = Exited 0 /\ cp_overflow Sample.crashed = false) /\
    stdout r = cp_stdout Sample.crashed /\
    stderr r = cp_stderr Sample.crashed.
Proof.
  eapply (runCode_error_null_iff_clean_exit Sample.crashHost "javascript" "process.exit(1)"
            Sample.emptyWorld _ Sample.jsPlan ∅ Sample.crashed).
  - reflexivity.
  - reflexivity.
  - reflexivity.
  - reflexivity.
  - reflexivity.
Defined.

(** C2 as stated fails: a script that prints more than [maxBuffer] allows
    and then exits with status zero is reported with an error, and what
    [stdout] holds is the part that [exec] kept. *)
Lemma runCode_error_after_exit_zero :
  let flood := "process.stdout.write('a'.repeat(2000000))" in
  cp_termination Sample.flooded = Exited 0 /\
  (runCode Sample.floodHost "javascript" flood Sample.emptyWorld).1 =
  Normal {| stdout := "aaaaaaaa"; stderr := "";
            error := Some "stdout maxBuffer length exceeded"; command := "" |}.
Proof. cbv zeta. split; reflexivity. Qed.

(** C3, as amended.  Once the scratch directory exists or has been created,
    [runCode] returns a result: in particular an error of [writeFileSync]
    ends up in [error].  An error of [mkdirSync], which is called before
    the [try] statement, leaves [runCode] as an exception. *)
Theorem runCode_throws_only_from_mkdirSync env language code w :
  ((disk w = None -> mkdirFails env = None) ->
   exists r w', runCode env language code w = (Normal r, w')) /\
  (forall w1 p message created,
     ensureTempDir env w = (Normal tt, w1) ->
     selectLanguage env language code (uuidv4 env) = inr p ->
     writeOutcome env (filePath p) = WriteFailed message created ->
     exists w',
       runCode env language code w =
       (Normal {| stdout := ""; stderr := "";
                  error := Some (orElse (Some message) "Unknown error during execution");
                  command := "" |}, w')) /\
  (forall message,
     disk w = None -> mkdirFails env = Some message ->
     exists w', runCode env language code w = (Throw (errorObject message), w')).
Proof.
  split; [|split].
  - intros Hdir.
    assert (exists w1, ensureTempDir env w = (Normal tt, w1)) as [w1 He].
    { pose proof (ensureTempDir_spec env w) as H.
      destruct (disk w); [eauto|]. rewrite Hdir in H by done. eauto. }
    destruct (selectLanguage env language code (uuidv4 env)) as [early|p] eqn:Hs.
    + exists early, w1. by apply runCode_early.
    + destruct (ensureTempDir_normal env w w1 He) as [Hd _].
      destruct (tryBlock_caught env p code w1 _ Hd) as (r & w2 & tr & Ht & _).
      destruct (runCode_planned env language code w w1 p r w2 He Hs Ht) as (w3 & Hrun & _).
      eauto.
  - intros w1 p message created He Hs Hw.
    destruct (ensureTempDir_normal env w w1 He) as [Hd _].
    pose proof (tryBlock_write_failed env p code w1 _ message created Hd Hw) as Ht.
    destruct (runCode_planned env language code w w1 p _ _ He Hs Ht) as (w3 & Hrun & _).
    eauto.
  - intros message Hd Hm. rewrite runCode_unfold.
    pose proof (ensureTempDir_spec env w) as H. rewrite Hd, Hm in H. rewrite H. eauto.
Qed.

Lemma runCode_throws_only_from_mkdirSync_witness :
  (exists r w', runCode Sample.host "python" "print(1)" Sample.emptyWorld = (Normal r, w')) /\
  (exists w', runCode Sample.diskFull "javascript" "console.log(1)" Sample.emptyWorld =
              (Normal {| stdout := ""; stderr := "";
                         error := Some "ENOSPC: no space left on device, write";
                         command := "" |}, w')) /\
  (exists w', runCode Sample.mkdirDenied "python" "print(1)" Sample.emptyWorld =
              (Throw (errorObject "EACCES: permission denied, mkdir '/ext/temp'"), w')).
Proof.
  split; [|split].
  - apply (runCode_throws_only_from_mkdirSync Sample.host "python" "print(1)" Sample.emptyWorld).
    reflexivity.
  - destruct (runCode_throws_only_from_mkdirSync Sample.diskFull "javascript"
                "console.log(1)" Sample.emptyWorld) as (_ & Hwrite & _).
    eapply (Hwrite _ Sample.jsPlan "ENOSPC: no space left on device, write" true);
      reflexivity.
  - destruct (runCode_throws_only_from_mkdirSync Sample.mkdirDenied "python" "print(1)"
                Sample.emptyWorld) as (_ & _ & Hmkdir).
    apply Hmkdir; reflexivity.
Defined.

(** C3 as stated fails: the directory is absent and cannot be created, and
    the error of [mkdirSync] is thrown to the caller instead of being
    returned in a result. *)
Lemma runCode_throws_when_mkdirSync_fails :
  (runCode Sample.mkdirDenied "javascript" "console.log(1)" Sample.emptyWorld).1 =
  Throw (errorObject "EACCES: permission denied, mkdir '/ext/temp'").
Proof. reflexivity. Qed.

(** *** The four cases and the default of the switch *)

Section Switch.

Context (env : Env) (language code uniqueId : string).

Lemma selectLanguage_javascript :
  toLowerCase language = "javascript" ->
  selectLanguage env language code uniqueId =
  inr {| filePath := pathJoin (tempDir env) (uniqueId +:+ ".js");
         rawCommand := "node " +:+ pathJoin (tempDir env) (uniqueId +:+ ".js");
         cleanupFiles := [pathJoin (tempDir env) (uniqueId +:+ ".js")];
         executableCommand := "node" |}.
Proof. intros H. unfold selectLanguage. by rewrite H. Qed.

Lemma selectLanguage_python :
  toLowerCase language = "python" ->
  selectLanguage env language code uniqueId =
  inr {| filePath := pathJoin (tempDir env) (uniqueId +:+ ".py");
         rawCommand := "python3 " +:+ pathJoin (tempDir env) (uniqueId +:+ ".py");
         cleanupFiles := [pathJoin (tempDir env) (uniqueId +:+ ".py")];
         executableCommand := "python3" |}.
Proof. intros H. unfold selectLanguage. by rewrite H. Qed.

Lemma selectLanguage_go :
  toLowerCase language = "go" ->
  selectLanguage env language code uniqueId =
  inr {| filePath := pathJoin (tempDir env) (uniqueId +:+ ".go");
         rawCommand := "go build -o " +:+ pathJoin (tempDir env) uniqueId +:+ " "
                       +:+ pathJoin (tempDir env) (uniqueId +:+ ".go") +:+ " && "
                       +:+ pathJoin (tempDir env) uniqueId;
         cleanupFiles := [pathJoin (tempDir env) (uniqueId +:+ ".go");
                          pathJoin (tempDir env) uniqueId];
         executableCommand := "go" |}.
Proof. intros H. unfold selectLanguage. by rewrite H. Qed.

Lemma selectLanguage_java :
  toLowerCase language = "java" ->
  selectLanguage env language code uniqueId =
  match classNameMatch code with
  | None => inl missingClass
  | Some className =>
      inr {| filePath := pathJoin (tempDir env) (className +:+ ".java");
             rawCommand := "javac " +:+ pathJoin (tempDir env) (className +:+ ".java")
                           +:+ " -d " +:+ tempDir env +:+ " && java -cp " +:+ tempDir env
                           +:+ " " +:+ className;
             cleanupFiles := [pathJoin (tempDir env) (className +:+ ".java");
                              pathJoin (tempDir env) (className +:+ ".class")];
             executableCommand := "java" |}
  end.
Proof. intros H. unfold selectLanguage. by rewrite H. Qed.

Lemma selectLanguage_default :
  toLowerCase language ∉ caseLabels ->
  selectLanguage env language code uniqueId = inl (unsupported language).
Proof.
  intros H. unfold selectLanguage, caseLabels in *.
  destruct (String.eqb_spec (toLowerCase language) "javascript") as [Heq|_];
    [rewrite Heq in H; set_solver|].
  destruct (String.eqb_spec (toLowerCase language) "python") as [Heq|_];
    [rewrite Heq in H; set_solver|].
  destruct (String.eqb_spec (toLowerCase language) "go") as [Heq|_];
    [rewrite Heq in H; set_solver|].
  destruct (String.eqb_spec (toLowerCase language) "java") as [Heq|_];
    [rewrite Heq in H; set_solver|].
  done.
Qed.

End Switch.

(** C4, as amended.  For an identifier that no [case] matches, and unless
    the creation of the scratch directory fails, [runCode] returns the
    result whose error is [Unsupported language: ] followed by the
    identifier as given.  No file is written or deleted and nothing is
    spawned: the only calls into the file system are the test for the
    scratch directory and, when it is absent, its creation. *)
Theorem runCode_unsupported env language code w :
  toLowerCase language ∉ caseLabels ->
  (disk w = None -> mkdirFails env = None) ->
  exists r w',
    runCode env language code w = (Normal r, w') /\
    r = {| stdout := ""; stderr := "";
           error := Some ("Unsupported language: " +:+ language); command := "" |} /\
    disk w' = Some (default ∅ (disk w)) /\
    trace w' = trace w ++ ExistsSync (tempDir env) ::
                 match disk w with
                 | Some _ => []
                 | None => [MkdirSync (tempDir env)]
                 end.
Proof.
  intros Hlang Hdir.
  pose proof (selectLanguage_default env language code (uuidv4 env) Hlang) as Hs.
  pose proof (ensureTempDir_spec env w) as He.
  destruct (disk w) as [entries|] eqn:Hd.
  - eexists _, _. split; [by apply runCode_early|]. done.
  - rewrite Hdir in He by done.
    eexists _, _. split; [by apply runCode_early|]. cbn [disk trace default].
    by rewrite <- app_assoc.
Qed.

Lemma runCode_unsupported_witness :
  exists r w',
    runCode Sample.host "Ruby" "puts 1" Sample.emptyWorld = (Normal r, w') /\
    r = {| stdout := ""; stderr := "";
           error := Some "Unsupported language: Ruby"; command := "" |} /\
    disk w' = Some ∅ /\
    trace w' = [ExistsSync "/ext/temp"; MkdirSync "/ext/temp"].
Proof.
  apply (runCode_unsupported Sample.host "Ruby" "puts 1" Sample.emptyWorld).
  - vm_compute. set_solver.
  - reflexivity.
Defined.

(** C4 as stated fails: the test for the scratch directory and its creation
    come before the switch, so a call with an unknown identifier creates
    the directory, and leaves it there. *)
Lemma runCode_unsupported_creates_directory :
  let w' := (runCode Sample.host "not-a-real-language" "anything" Sample.emptyWorld).2 in
  disk Sample.emptyWorld = None /\
  disk w' = Some ∅ /\
  trace w' = [ExistsSync "/ext/temp"; MkdirSync "/ext/temp"].
Proof. cbv zeta. split; [reflexivity|]. split; reflexivity. Qed.

(** *** Names of the artifacts *)

(** The three cases that name their files after the generated identifier. *)
Lemma cleanupFiles_named_after_id env language code uniqueId p :
  toLowerCase language ∈ ["javascript"; "python"; "go"] ->
  selectLanguage env language code uniqueId = inr p ->
  forall f, f ∈ cleanupFiles p ->
    exists ext, f = pathJoin (tempDir env) (uniqueId +:+ ext).
Proof.
  intros Hlang Hs f Hf.
  apply elem_of_cons in Hlang as [H|Hlang];
    [rewrite (selectLanguage_javascript _ _ _ _ H) in Hs|
     apply elem_of_cons in Hlang as [H|Hlang];
       [rewrite (selectLanguage_python _ _ _ _ H) in Hs|
        apply elem_of_cons in Hlang as [H|Hlang];
          [rewrite (selectLanguage_go _ _ _ _ H) in Hs|set_solver]]];
    injection Hs as <-; cbn [cleanupFiles] in Hf.
  - exists ".js". set_solver.
  - exists ".py". set_solver.
  - apply elem_of_cons in Hf as [->|Hf]; [by exists ".go"|].
    exists "". rewrite append_nil_r. set_solver.
Qed.

(** C5, as amended.  For javascript, python and go every tracked path
    contains the identifier generated for the call, and two calls with
    different identifiers of the same length (those of [uuidv4] have 36
    characters) track no path in common.  For java the identifier is not
    used: the plan is the same whatever the identifier is. *)
Theorem artifact_names_embed_id env :
  (forall language code uniqueId p,
     toLowerCase language ∈ ["javascript"; "python"; "go"] ->
     selectLanguage env language code uniqueId = inr p ->
     forall f, f ∈ cleanupFiles p -> includes uniqueId f = true) /\
  (forall language1 language2 code1 code2 id1 id2 p1 p2,
     toLowerCase language1 ∈ ["javascript"; "python"; "go"] ->
     toLowerCase language2 ∈ ["javascript"; "python"; "go"] ->
     String.length id1 = String.length id2 ->
     id1 <> id2 ->
     selectLanguage env language1 code1 id1 = inr p1 ->
     selectLanguage env language2 code2 id2 = inr p2 ->
     forall f, f ∈ cleanupFiles p1 -> f ∉ cleanupFiles p2) /\
  (forall language code id1 id2,
     toLowerCase language = "java" ->
     selectLanguage env language code id1 = selectLanguage env language code id2).
Proof.
  split; [|split].
  - intros language code uniqueId p Hlang Hs f Hf.
    destruct (cleanupFiles_named_after_id env language code uniqueId p Hlang Hs f Hf)
      as [ext ->].
    apply includes_pathJoin.
  - intros l1 l2 c1 c2 id1 id2 p1 p2 Hl1 Hl2 Hlen Hne Hs1 Hs2 f Hf1 Hf2.
    destruct (cleanupFiles_named_after_id env l1 c1 id1 p1 Hl1 Hs1 f Hf1) as [e1 H1].
    destruct (cleanupFiles_named_after_id env l2 c2 id2 p2 Hl2 Hs2 f Hf2) as [e2 H2].
    rewrite H1 in H2. by apply pathJoin_same_length in H2 as [? _].
  - intros language code id1 id2 H. by rewrite !selectLanguage_java.
Qed.

Lemma artifact_names_embed_id_witness :
  (forall f, f ∈ cleanupFiles Sample.goPlan -> includes Sample.firstId f = true) /\
  (forall f, f ∈ cleanupFiles Sample.goPlan ->
     f ∉ ["/ext/temp/9c858901-8a57-4791-81fe-4c455b099bc9.py"]) /\
  selectLanguage Sample.host "Java" "public class Main {}" Sample.firstId =
  selectLanguage Sample.host "Java" "public class Main {}" Sample.secondId.
Proof.
  destruct (artifact_names_embed_id Sample.host) as (Hembed & Hdistinct & Hjava).
  split; [|split].
  - apply (Hembed "Go" "package main" Sample.firstId Sample.goPlan).
    + vm_compute. set_solver.
    + reflexivity.
  - apply (Hdistinct "Go" "PYTHON" "package main" "print(1)" Sample.firstId Sample.secondId
             Sample.goPlan
             {| filePath := "/ext/temp/9c858901-8a57-4791-81fe-4c455b099bc9.py";
                rawCommand := "python3 /ext/temp/9c858901-8a57-4791-81fe-4c455b099bc9.py";
                cleanupFiles := ["/ext/temp/9c858901-8a57-4791-81fe-4c455b099bc9.py"];
                executableCommand := "python3" |}).
    + vm_compute. set_solver.
    + vm_compute. set_solver.
    + reflexivity.
    + discriminate.
    + reflexivity.
    + reflexivity.
  - apply Hjava. reflexivity.
Defined.

(** C5 as stated fails for java: the source file and the class file are
    named after the public class, so two calls with different identifiers
    and the same class name track the same two paths, neither of which
    contains the identifier. *)
Lemma java_artifacts_ignore_id :
  Sample.firstId <> Sample.secondId /\
  selectLanguage Sample.host "java" "public class Main {}" Sample.firstId =
  inr {| filePath := "/ext/temp/Main.java";
         rawCommand := "javac /ext/temp/Main.java -d /ext/temp && java -cp /ext/temp Main";
         cleanupFiles := ["/ext/temp/Main.java"; "/ext/temp/Main.class"];
         executableCommand := "java" |} /\
  selectLanguage Sample.host "java" "public class Main {}" Sample.secondId =
  selectLanguage Sample.host "java" "public class Main {}" Sample.firstId /\
  includes Sample.firstId "/ext/temp/Main.java" = false /\
  includes Sample.firstId "/ext/temp/Main.class" = false.
Proof. repeat split; try reflexivity. discriminate. Qed.

(** *** The regular expression *)

Section Matcher.

Lemma stripPrefix_Some p : forall s r, stripPrefix p s = Some r -> s = p +:+ r.
Proof.
  induction p as [|a p IH]; intros s r; cbn [stripPrefix]; [by intros [= ->]|].
  destruct s as [|b s]; [done|].
  destruct (Ascii.eqb_spec a b) as [->|]; [|done].
  intros H. rewrite append_cons. f_equal. by apply IH.
Qed.

Lemma stripPrefix_append p r : stripPrefix p (p +:+ r) = Some r.
Proof.
  induction p as [|a p IH]; [done|].
  rewrite append_cons. cbn [stripPrefix]. by rewrite Ascii.eqb_refl.
Qed.

Lemma takeWhile_dropWhile f s : s = takeWhile f s +:+ dropWhile f s.
Proof.
  induction s as [|c s IH]; [done|]. cbn [takeWhile dropWhile].
  destruct (f c); [|done]. rewrite append_cons. by f_equal.
Qed.

Lemma allChars_takeWhile f s : allChars f (takeWhile f s) = true.
Proof.
  induction s as [|c s IH]; [done|]. cbn [takeWhile].
  destruct (f c) eqn:Hc; [|done]. cbn [allChars]. by rewrite Hc.
Qed.

Lemma dropWhile_append f ws r : allChars f ws = true -> dropWhile f (ws +:+ r) = dropWhile f r.
Proof.
  induction ws as [|c ws IH]; [done|]. cbn [allChars].
  intros [Hc Hws]%andb_true_iff. rewrite append_cons. cbn [dropWhile]. rewrite Hc. auto.
Qed.

Lemma isEmpty_false s : isEmpty s = false <-> s <> "".
Proof. by destruct s. Qed.

Lemma spaces1_Some s r :
  spaces1 s = Some r -> exists ws, s = ws +:+ r /\ ws <> "" /\ allChars isSpace ws = true.
Proof.
  destruct s as [|c s]; [done|]. cbn [spaces1].
  destruct (isSpace c) eqn:Hc; [|done]. intros [= <-].
  exists (String c (takeWhile isSpace s)). split; [|split; [done|]].
  - rewrite append_cons. f_equal. apply takeWhile_dropWhile.
  - cbn [allChars]. by rewrite Hc, allChars_takeWhile.
Qed.

Lemma spaces1_append ws r :
  ws <> "" -> allChars isSpace ws = true -> spaces1 (ws +:+ r) = Some (dropWhile isSpace r).
Proof.
  destruct ws as [|c ws]; [done|]. intros _. cbn [allChars].
  intros [Hc Hws]%andb_true_iff. rewrite append_cons. cbn [spaces1].
  by rewrite Hc, dropWhile_append.
Qed.

Lemma isWordChar_not_space c : isWordChar c = true -> isSpace c = false.
Proof. destruct c as [[][][][][][][][]]; (reflexivity || discriminate). Qed.

Lemma matchPublicClassHere_sound s className :
  matchPublicClassHere s = Some className ->
  exists ws1 ws2 after,
    s = "public" +:+ ws1 +:+ "class" +:+ ws2 +:+ className +:+ after /\
    ws1 <> "" /\ allChars isSpace ws1 = true /\
    ws2 <> "" /\ allChars isSpace ws2 = true /\
    className <> "" /\ allChars isWordChar className = true.
Proof.
  unfold matchPublicClassHere.
  destruct (stripPrefix "public" s) as [r1|] eqn:H1; [|done].
  destruct (spaces1 r1) as [r2|] eqn:H2; [|done].
  destruct (stripPrefix "class" r2) as [r3|] eqn:H3; [|done].
  destruct (spaces1 r3) as [r4|] eqn:H4; [|done].
  destruct (isEmpty (takeWhile isWordChar r4)) eqn:H5; [done|].
  intros [= <-].
  apply stripPrefix_Some in H1 as ->. apply spaces1_Some in H2 as (ws1 & -> & ? & ?).
  apply stripPrefix_Some in H3 as ->. apply spaces1_Some in H4 as (ws2 & -> & ? & ?).
  exists ws1, ws2, (dropWhile isWordChar r4).
  rewrite <- takeWhile_dropWhile. rewrite isEmpty_false in H5.
  repeat split; try done. apply allChars_takeWhile.
Qed.

Lemma matchPublicClassHere_complete ws1 ws2 className after :
  ws1 <> "" -> allChars isSpace ws1 = true ->
  ws2 <> "" -> allChars isSpace ws2 = true ->
  className <> "" -> allChars isWordChar className = true ->
  is_Some (matchPublicClassHere
             ("public" +:+ ws1 +:+ "class" +:+ ws2 +:+ className +:+ after)).
Proof.
  intros Hn1 Hs1 Hn2 Hs2 Hn Hw. unfold matchPublicClassHere.
  destruct className as [|c className]; [done|].
  cbn [allChars] in Hw. apply andb_true_iff in Hw as [Hc _].
  rewrite stripPrefix_append, (spaces1_append _ _ Hn1 Hs1).
  change (dropWhile isSpace ("class" +:+ ws2 +:+ String c className +:+ after))
    with ("class" +:+ ws2 +:+ String c className +:+ after).
  rewrite stripPrefix_append, (spaces1_append _ _ Hn2 Hs2).
  rewrite append_cons. cbn [dropWhile]. rewrite (isWordChar_not_space _ Hc).
  cbn [takeWhile]. rewrite Hc. cbn [isEmpty]. eauto.
Qed.

(** A match is the name of a declaration that fits the pattern. *)
Lemma classNameMatch_sound code className :
  classNameMatch code = Some className -> declaresPublicClass code className.
Proof.
  induction code as [|c code IH].
  - cbn [classNameMatch]. change (matchPublicClassHere "") with (@None string). done.
  - cbn [classNameMatch].
    destruct (matchPublicClassHere (String c code)) as [found|] eqn:Hm.
    + intros [= ->]. apply matchPublicClassHere_sound in Hm as (ws1 & ws2 & after & Hm).
      exists "", ws1, ws2, after. exact Hm.
    + intros (before & ws1 & ws2 & after & -> & Hrest)%IH.
      exists (String c before), ws1, ws2, after. by rewrite append_cons.
Qed.

(** There is a match as soon as some declaration fits the pattern. *)
Lemma classNameMatch_complete code className :
  declaresPublicClass code className -> is_Some (classNameMatch code).
Proof.
  intros (before & ws1 & ws2 & after & -> & Hn1 & Hs1 & Hn2 & Hs2 & Hn & Hw).
  pose proof (matchPublicClassHere_complete ws1 ws2 className after Hn1 Hs1 Hn2 Hs2 Hn Hw)
    as Hhere.
  set (tail := "public" +:+ ws1 +:+ "class" +:+ ws2 +:+ className +:+ after) in *.
  clearbody tail.
  induction before as [|c before IH].
  - rewrite append_nil_l. destruct Hhere as [found Hfound].
    destruct tail; cbn [classNameMatch]; rewrite Hfound; eauto.
  - rewrite append_cons. cbn [classNameMatch].
    destruct (matchPublicClassHere (String c (before +:+ tail))); eauto.
Qed.

End Matcher.

(** C6.  In the java case the source is searched for the pattern
    [public\s+class\s+([a-zA-Z0-9_]+)].  When there is a match, it is the
    name of a declaration of that form, and the first thing the [try]
    statement does is to write the source to the file named after it.
    When there is none, no declaration of that form exists, and [runCode]
    returns the error about the missing public class having written
    no file. *)
Theorem runCode_java_class_name env language code w w1 :
  toLowerCase language = "java" ->
  ensureTempDir env w = (Normal tt, w1) ->
  (forall className,
     classNameMatch code = Some className ->
     declaresPublicClass code className /\
     exists r w' tr,
       runCode env language code w = (Normal r, w') /\
       trace w' =
         trace w1 ++
         WriteFileSync (pathJoin (tempDir env) (className +:+ ".java")) code :: tr) /\
  (classNameMatch code = None ->
     (forall className, ~ declaresPublicClass code className) /\
     runCode env language code w =
       (Normal {| stdout := ""; stderr := "";
                  error := Some "Java code must contain a public class definition (e.g., public class Main).";
                  command := "" |}, w1) /\
     disk w1 = Some (default ∅ (disk w)) /\
     exists tr, trace w1 = trace w ++ tr /\
                forall path data, WriteFileSync path data ∉ tr).
Proof.
  intros Hlang He.
  pose proof (selectLanguage_java env language code (uuidv4 env) Hlang) as Hs.
  destruct (ensureTempDir_normal env w w1 He) as (Hd & tr0 & Htr0 & Hshape).
  split.
  - intros className Hm. split; [by apply classNameMatch_sound|].
    rewrite Hm in Hs.
    match type of Hs with _ = inr ?plan => set (p := plan) in * end.
    destruct (tryBlock_caught env p code w1 _ Hd) as (r & w2 & tr & Ht & Htr).
    destruct (runCode_planned env language code w w1 p r w2 He Hs Ht) as (w3 & Hrun & Hfin).
    destruct (finallyBlock_spec env p w2) as (w3' & Hfin' & [tr' Htr'] & _).
    rewrite Hfin in Hfin'. injection Hfin' as <-.
    exists r, w3, (tr ++ tr'). split; [done|].
    rewrite Htr', Htr. subst p. cbn [filePath]. by rewrite <- app_assoc.
  - intros Hm. rewrite Hm in Hs. split; [|split; [|split; [done|]]].
    + intros className Hdecl. apply classNameMatch_complete in Hdecl as [found Hfound].
      congruence.
    + by apply runCode_early.
    + eexists. split; [exact Htr0|]. intros path data Hin.
      apply elem_of_cons in Hin as [?|Hin]; [done|].
      destruct Hshape as [-> | ->]; set_solver.
Qed.

Lemma runCode_java_class_name_witness :
  (declaresPublicClass "public class Main {}" "Main" /\
   exists r w' tr,
     runCode Sample.host "Java" "public class Main {}" Sample.emptyWorld = (Normal r, w') /\
     trace w' = [ExistsSync "/ext/temp"; MkdirSync "/ext/temp"] ++
                WriteFileSync "/ext/temp/Main.java" "public class Main {}" :: tr) /\
  ((forall className, ~ declaresPublicClass "class Main {}" className) /\
   runCode Sample.host "Java" "class Main {}" Sample.emptyWorld =
     (Normal {| stdout := ""; stderr := "";
                error := Some "Java code must contain a public class definition (e.g., public class Main).";
                command := "" |},
      {| disk := Some ∅; trace := [ExistsSync "/ext/temp"; MkdirSync "/ext/temp"] |}) /\
   Some (∅ : gset string) = Some ∅ /\
   exists tr, [ExistsSync "/ext/temp"; MkdirSync "/ext/temp"] = [] ++ tr /\
              forall path data, WriteFileSync path data ∉ tr).
Proof.
  split.
  - destruct (runCode_java_class_name Sample.host "Java" "public class Main {}"
                Sample.emptyWorld
                {| disk := Some ∅; trace := [ExistsSync "/ext/temp"; MkdirSync "/ext/temp"] |}
                eq_refl eq_refl) as [Hfound _].
    apply (Hfound "Main"). reflexivity.
  - destruct (runCode_java_class_name Sample.host "Java" "class Main {}"
                Sample.emptyWorld
                {| disk := Some ∅; trace := [ExistsSync "/ext/temp"; MkdirSync "/ext/temp"] |}
                eq_refl eq_refl) as [_ Hnone].
    apply Hnone. reflexivity.
Defined.

(** *** The command line *)

Lemma quotesEscaped_escapeQuotes s : forall b, quotesEscaped b (escapeQuotes s) = true.
Proof.
  induction s as [|c s IH]; intros b; [done|]. cbn [escapeQuotes].
  destruct (Ascii.eqb c quote) eqn:Hc.
  - cbn [quotesEscaped].
    change (Ascii.eqb backslash quote) with false.
    change (Ascii.eqb backslash backslash) with true.
    change (Ascii.eqb quote quote) with true. cbn [andb]. apply IH.
  - cbn [quotesEscaped]. rewrite Hc. apply IH.
Qed.

Lemma escapeQuotes_append a b : escapeQuotes (a +:+ b) = escapeQuotes a +:+ escapeQuotes b.
Proof.
  induction a as [|c a IH]; [done|].
  rewrite append_cons. cbn [escapeQuotes]. rewrite IH.
  by destruct (Ascii.eqb c quote); rewrite !append_cons.
Qed.

Lemma escapeQuotes_other c : c <> ascii_of_N 34 -> escapeQuotes (String c "") = String c "".
Proof.
  intros Hc. cbn [escapeQuotes].
  destruct (Ascii.eqb_spec c quote) as [->|_]; [by destruct Hc|done].
Qed.

(** An escaped text never starts with a double quote. *)
Lemma escapeQuotes_head s :
  match escapeQuotes s with
  | String c _ => Ascii.eqb c quote = false
  | EmptyString => True
  end.
Proof.
  destruct s as [|c s]; [done|]. cbn [escapeQuotes].
  by destruct (Ascii.eqb c quote) eqn:Hc.
Qed.

Lemma unescapeQuotes_cons c r :
  match r with
  | String c' _ => Ascii.eqb c' quote = false
  | EmptyString => True
  end ->
  unescapeQuotes (String c r) = String c (unescapeQuotes r).
Proof.
  destruct r as [|c' r]; [done|]. intros H.
  change (unescapeQuotes (String c (String c' r)))
    with (if Ascii.eqb c backslash && Ascii.eqb c' quote
          then unescapeQuotes (String c' r)
          else String c (unescapeQuotes (String c' r))).
  by rewrite H, andb_false_r.
Qed.

Lemma unescapeQuotes_escapeQuotes s : unescapeQuotes (escapeQuotes s) = s.
Proof.
  induction s as [|c s IH]; [done|]. cbn [escapeQuotes].
  pose proof (escapeQuotes_head s) as Hhead.
  destruct (Ascii.eqb_spec c quote) as [->|Hc].
  - change (unescapeQuotes (String backslash (String quote (escapeQuotes s))))
      with (unescapeQuotes (String quote (escapeQuotes s))).
    by rewrite unescapeQuotes_cons, IH.
  - by rewrite unescapeQuotes_cons, IH.
Qed.

(** C7.  The raw command of each language, the artifacts it tracks, and
    the command line handed to [exec]: the shell named by SHELL, or
    [/bin/zsh] when SHELL is unset or empty, followed by [-l -c] and the
    raw command between double quotes, each double quote of the raw
    command having received a backslash in front: the escaping works
    character by character, turns a double quote (code 34) into a
    backslash (code 92) and a double quote and keeps every other
    character, so that dropping the added backslashes gives the raw
    command back. *)
Theorem command_line_per_language env language code w w1 p :
  ensureTempDir env w = (Normal tt, w1) ->
  selectLanguage env language code (uuidv4 env) = inr p ->
  writeOutcome env (filePath p) = Written ->
  (toLowerCase language = "javascript" ->
     rawCommand p = "node " +:+ filePath p /\ cleanupFiles p = [filePath p]) /\
  (toLowerCase language = "python" ->
     rawCommand p = "python3 " +:+ filePath p /\ cleanupFiles p = [filePath p]) /\
  (toLowerCase language = "go" ->
     exists binary,
       rawCommand p = "go build -o " +:+ binary +:+ " " +:+ filePath p +:+ " && " +:+ binary /\
       cleanupFiles p = [filePath p; binary]) /\
  (toLowerCase language = "java" ->
     exists className,
       rawCommand p = "javac " +:+ filePath p +:+ " -d " +:+ tempDir env +:+ " && "
                      +:+ "java -cp " +:+ tempDir env +:+ " " +:+ className /\
       cleanupFiles p = [filePath p; pathJoin (tempDir env) (className +:+ ".class")]) /\
  (exists shell,
     shell = match SHELL env with
             | Some s => if isEmpty s then "/bin/zsh" else s
             | None => "/bin/zsh"
             end /\
     exists r w' before after,
       runCode env language code w = (Normal r, w') /\
       trace w' =
         before ++
         Exec (shell +:+ " -l -c "
                 +:+ String (ascii_of_N 34)
                       (escapeQuotes (rawCommand p) +:+ String (ascii_of_N 34) ""))
              (tempDir env) shell :: after) /\
  quotesEscaped false (escapeQuotes (rawCommand p)) = true /\
  unescapeQuotes (escapeQuotes (rawCommand p)) = rawCommand p /\
  (forall a b, escapeQuotes (a +:+ b) = escapeQuotes a +:+ escapeQuotes b) /\
  escapeQuotes (String (ascii_of_N 34) "") = String (ascii_of_N 92) (String (ascii_of_N 34) "") /\
  (forall c, c <> ascii_of_N 34 -> escapeQuotes (String c "") = String c "").
Proof.
  intros He Hs Hw.
  split_and!.
  - intros H. rewrite (selectLanguage_javascript _ _ _ _ H) in Hs. by injection Hs as <-.
  - intros H. rewrite (selectLanguage_python _ _ _ _ H) in Hs. by injection Hs as <-.
  - intros H. rewrite (selectLanguage_go _ _ _ _ H) in Hs. injection Hs as <-.
    by exists (pathJoin (tempDir env) (uuidv4 env)).
  - intros H. rewrite (selectLanguage_java _ _ _ _ H) in Hs.
    destruct (classNameMatch code) as [className|]; [|done]. injection Hs as <-.
    by exists className.
  - exists (defaultShellPath env). split.
    { unfold defaultShellPath, orElse, truthy. destruct (SHELL env) as [s|]; [|done].
      by destruct (isEmpty s). }
    destruct (ensureTempDir_normal env w w1 He) as [Hd _].
    destruct (spawn env (commandToExecute (defaultShellPath env) (rawCommand p))
                (Some ({[filePath p]} ∪ default ∅ (disk w)))) as [child d'] eqn:Hc.
    pose proof (tryBlock_written env p code w1 _ child d' Hd Hw Hc) as Ht.
    destruct (runCode_planned env language code w w1 p _ _ He Hs Ht) as (w3 & Hrun & Hfin).
    match type of Hfin with
    | finallyBlock _ _ ?w2 = _ =>
        destruct (finallyBlock_spec env p w2) as (w3' & Hfin' & [tr' Htr'] & _)
    end.
    rewrite Hfin in Hfin'. injection Hfin' as <-.
    eexists _, w3, _, tr'. split; [exact Hrun|].
    rewrite Htr'. cbn [trace]. by rewrite <- app_assoc.
  - apply quotesEscaped_escapeQuotes.
  - apply unescapeQuotes_escapeQuotes.
  - apply escapeQuotes_append.
  - reflexivity.
  - apply escapeQuotes_other.
Qed.

Lemma command_line_per_language_witness :
  (rawCommand Sample.quotedPlan = "node " +:+ filePath Sample.quotedPlan /\
   cleanupFiles Sample.quotedPlan = [filePath Sample.quotedPlan]) /\
  (exists shell,
     shell = "/bin/zsh" /\
     exists r w' before after,
       runCode Sample.quotedHost "JavaScript" "console.log(1)" Sample.emptyWorld
         = (Normal r, w') /\
       trace w' =
         before ++
         Exec (shell +:+ " -l -c "
                 +:+ String (ascii_of_N 34)
                       (escapeQuotes (rawCommand Sample.quotedPlan)
                        +:+ String (ascii_of_N 34) ""))
              Sample.quotedDir shell :: after) /\
  unescapeQuotes (escapeQuotes (rawCommand Sample.quotedPlan)) = rawCommand Sample.quotedPlan.
Proof.
  destruct (command_line_per_language Sample.quotedHost "JavaScript" "console.log(1)"
              Sample.emptyWorld
              {| disk := Some ∅;
                 trace := [ExistsSync Sample.quotedDir; MkdirSync Sample.quotedDir] |}
              Sample.quotedPlan eq_refl eq_refl eq_refl)
    as (Hjs & _ & _ & _ & Hexec & _ & Hback & _).
  split; [apply Hjs; reflexivity|]. split; [exact Hexec|exact Hback].
Defined.

(** The command line for a scratch directory with a double quote in its
    name, character by character. *)
Example command_line_quoted_sample :
  commandToExecute (defaultShellPath Sample.quotedHost) (rawCommand Sample.quotedPlan) =
  "/bin/zsh -l -c " +:+ String (ascii_of_N 34) "node /ext/6"
  +:+ String (ascii_of_N 92) (String (ascii_of_N 34) " disk/temp/1b9d6bcd-bbfd-4b2d-9b5d-ab8dfbbd4bed.js")
  +:+ String (ascii_of_N 34) "".
Proof. reflexivity. Qed.

(** *** Classification of a failure *)





(** The fallback of the [catch] block: an empty message, which Node does
    not produce, would be replaced. *)
Lemma catchBlock_empty_message w :
  (catchBlock (rejection "" "" "" "") w).1 =
  Normal {| stdout := ""; stderr := ""; error := Some "Unknown error during execution";
            command := "" |}.
Proof. reflexivity. Qed.

(** *** The case of the identifier *)

Lemma selectLanguage_toLowerCase env language code uniqueId :
  toLowerCase language ∈ caseLabels ->
  selectLanguage env (toLowerCase language) code uniqueId =
  selectLanguage env language code uniqueId.
Proof.
  intros Hin. unfold selectLanguage. rewrite toLowerCase_idem.
  destruct (String.eqb_spec (toLowerCase language) "javascript") as [|H1]; [done|].
  destruct (String.eqb_spec (toLowerCase language) "python") as [|H2]; [done|].
  destruct (String.eqb_spec (toLowerCase language) "go") as [|H3]; [done|].
  destruct (String.eqb_spec (toLowerCase language) "java") as [|H4]; [done|].
  unfold caseLabels in Hin. set_solver.
Qed.

(** C9, as amended.  When the lower-case form of the identifier is one of
    the four labels, [runCode] does the same with the identifier as with
    its lower-case form.  When it is not, both calls return the error for
    an unsupported language, each with the identifier as it was given. *)
Theorem runCode_language_case env language code w :
  (toLowerCase language ∈ caseLabels ->
   runCode env language code w = runCode env (toLowerCase language) code w) /\
  (toLowerCase language ∉ caseLabels ->
   forall w1,
     ensureTempDir env w = (Normal tt, w1) ->
     runCode env language code w =
       (Normal {| stdout := ""; stderr := "";
                  error := Some ("Unsupported language: " +:+ language);
                  command := "" |}, w1) /\
     runCode env (toLowerCase language) code w =
       (Normal {| stdout := ""; stderr := "";
                  error := Some ("Unsupported language: " +:+ toLowerCase language);
                  command := "" |}, w1)).
Proof.
  split.
  - intros Hin. by rewrite !runCode_unfold, selectLanguage_toLowerCase.
  - intros Hout w1 He. split; apply runCode_early; try done.
    + by apply selectLanguage_default.
    + apply selectLanguage_default. by rewrite toLowerCase_idem.
Qed.

Lemma runCode_language_case_witness :
  runCode Sample.host "JavaScript" "console.log(1)" Sample.emptyWorld =
  runCode Sample.host "javascript" "console.log(1)" Sample.emptyWorld /\
  (runCode Sample.host "Ruby" "puts 1" Sample.emptyWorld =
     (Normal {| stdout := ""; stderr := "";
                error := Some "Unsupported language: Ruby"; command := "" |},
      {| disk := Some ∅; trace := [ExistsSync "/ext/temp"; MkdirSync "/ext/temp"] |}) /\
   runCode Sample.host "ruby" "puts 1" Sample.emptyWorld =
     (Normal {| stdout := ""; stderr := "";
                error := Some "Unsupported language: ruby"; command := "" |},
      {| disk := Some ∅; trace := [ExistsSync "/ext/temp"; MkdirSync "/ext/temp"] |})).
Proof.
  split.
  - apply (runCode_language_case Sample.host "JavaScript" "console.log(1)" Sample.emptyWorld).
    vm_compute. set_solver.
  - apply (runCode_language_case Sample.host "Ruby" "puts 1" Sample.emptyWorld);
      [vm_compute; set_solver|reflexivity].
Defined.

(** C9 as stated fails: the error for an unsupported language repeats the
    identifier as it was given, so the result for [Ruby] is not the result
    for [ruby]. *)
Lemma runCode_differs_on_unsupported_case :
  toLowerCase "Ruby" = "ruby" /\
  error (unsupported "Ruby") <> error (unsupported "ruby") /\
  (runCode Sample.host "Ruby" "puts 1" Sample.emptyWorld).1 = Normal (unsupported "Ruby") /\
  (runCode Sample.host (toLowerCase "Ruby") "puts 1" Sample.emptyWorld).1
    = Normal (unsupported "ruby") /\
  runCode Sample.host "Ruby" "puts 1" Sample.emptyWorld <>
  runCode Sample.host (toLowerCase "Ruby") "puts 1" Sample.emptyWorld.
Proof.
  split; [reflexivity|]. split; [discriminate|]. split; [reflexivity|].
  split; [reflexivity|]. intros H. apply (f_equal fst) in H. discriminate H.
Qed.

(** *** Two complete runs *)

(** A go program on a host without SHELL: the directory is created, the
    source is written, the compiler leaves the binary, both files are
    deleted and the directory, empty again, is removed. *)
Example runCode_go_sample :
  runCode Sample.goHost "go" "package main" Sample.emptyWorld =
  (Normal {| stdout := "hello"; stderr := ""; error := None;
             command := commandToExecute "/bin/zsh" (rawCommand Sample.goPlan) |},
   {| disk := None;
      trace := [ ExistsSync "/ext/temp"; MkdirSync "/ext/temp";
                 WriteFileSync (filePath Sample.goPlan) "package main";
                 Exec (commandToExecute "/bin/zsh" (rawCommand Sample.goPlan))
                      "/ext/temp" "/bin/zsh";
                 ExistsSync "/ext/temp/1b9d6bcd-bbfd-4b2d-9b5d-ab8dfbbd4bed.go";
                 UnlinkSync "/ext/temp/1b9d6bcd-bbfd-4b2d-9b5d-ab8dfbbd4bed.go";
                 ExistsSync "/ext/temp/1b9d6bcd-bbfd-4b2d-9b5d-ab8dfbbd4bed";
                 UnlinkSync "/ext/temp/1b9d6bcd-bbfd-4b2d-9b5d-ab8dfbbd4bed";
                 ReaddirSync "/ext/temp"; RmdirSync "/ext/temp" ] |}).
Proof. reflexivity. Qed.

(** A full disk: the source file is created but the write fails; the error
    is returned, the file is deleted all the same, nothing is spawned. *)
Example runCode_disk_full_sample :
  runCode Sample.diskFull "javascript" "console.log(1)" Sample.emptyWorld =
  (Normal {| stdout := ""; stderr := "";
             error := Some "ENOSPC: no space left on device, write"; command := "" |},
   {| disk := None;
      trace := [ ExistsSync "/ext/temp"; MkdirSync "/ext/temp";
                 WriteFileSync (filePath Sample.jsPlan) "console.log(1)";
                 ExistsSync (filePath Sample.jsPlan);
                 UnlinkSync (filePath Sample.jsPlan);
                 ReaddirSync "/ext/temp"; RmdirSync "/ext/temp" ] |}).
Proof. reflexivity. Qed.

(** ** The claim about the detector *)

Section DetectorFacts.

Context (shellVar : option string) (exec : string -> ChildProcess).

Lemma findExecutable_truthy command :
  (exists path, findExecutable shellVar exec command = Some path /\ truthy path = true)
  <-> probeAccepted shellVar exec command.
Proof.
  unfold findExecutable, probeAccepted. cbv zeta.
  set (child := exec (probeCommand shellVar command)).
  destruct (cp_error child) as [message|] eqn:Hcb.
  - rewrite bool_decide_eq_true_2 by eauto. cbn [orb]. split.
    + by intros (path & ? & _).
    + by intros [? _].
  - rewrite bool_decide_eq_false_2 by (intros [? ?]; done). cbn [orb].
    unfold truthy. destruct (cp_stderr child) as [|c err]; cbn [isEmpty negb].
    + split.
      * intros (path & [= <-] & Hp). repeat split; try done.
        intros Heq. rewrite Heq in Hp. done.
      * intros (_ & _ & Hne). eexists. split; [done|].
        by destruct (trim (cp_stdout child)).
    + split; [by intros (path & ? & _)|by intros (_ & ? & _)].
Qed.

Lemma detectLoop_detectOne checks : forall detected,
  detectLoop shellVar exec checks detected =
  detected ++ concat (detectOne shellVar exec <$> checks).
Proof.
  induction checks as [|lang rest IH]; intros detected.
  - cbn. by rewrite app_nil_r.
  - cbn [detectLoop fmap list_fmap concat]. unfold detectOne at 1.
    destruct (findExecutable shellVar exec (check_command lang)) as [path|];
      [destruct (truthy path)|]; rewrite IH; by rewrite <- ?app_assoc.
Qed.

Lemma detectOne_value lang :
  (exists d, d ∈ detectOne shellVar exec lang) <->
  probeAccepted shellVar exec (check_command lang).
Proof.
  rewrite <- findExecutable_truthy. unfold detectOne.
  destruct (findExecutable shellVar exec (check_command lang)) as [path|].
  - destruct (truthy path) eqn:Hp; split.
    + eauto.
    + intros _. eexists. by left.
    + intros [d Hd]. by apply elem_of_nil in Hd.
    + intros (path' & [= <-] & Hp'). congruence.
  - split; [|by intros (? & ? & _)]. intros [d Hd]. by apply elem_of_nil in Hd.
Qed.

Lemma detectOne_values lang d :
  d ∈ detectOne shellVar exec lang -> value d = check_value lang.
Proof.
  unfold detectOne.
  destruct (findExecutable shellVar exec (check_command lang)) as [path|];
    [destruct (truthy path)|]; intros Hd; try by apply elem_of_nil in Hd.
  by apply list_elem_of_singleton in Hd as ->.
Qed.

Lemma detectOne_sublist lang :
  sublist (value <$> detectOne shellVar exec lang) [check_value lang].
Proof.
  unfold detectOne.
  destruct (findExecutable shellVar exec (check_command lang)) as [path|];
    [destruct (truthy path)|]; cbn; repeat constructor.
Qed.

End DetectorFacts.

Lemma elem_of_concat {A} (x : A) (ls : list (list A)) :
  x ∈ concat ls <-> exists l, x ∈ l /\ l ∈ ls.
Proof.
  induction ls as [|l0 ls IH]; cbn [concat].
  - split; [by intros ?%elem_of_nil|by intros (l & _ & ?%elem_of_nil)].
  - rewrite elem_of_app, IH. split.
    + intros [H|(l & H1 & H2)]; [exists l0; split; [done|by left]|].
      exists l. split; [done|by right].
    + intros (l & H1 & H2). apply elem_of_cons in H2 as [->|H2]; [by left|right; eauto].
Qed.

Lemma languageChecks_values l1 l2 :
  l1 ∈ languageChecks -> l2 ∈ languageChecks -> check_value l1 = check_value l2 -> l1 = l2.
Proof.
  unfold languageChecks. rewrite !elem_of_cons, !elem_of_nil.
  intros [->|[->|[->|[]]]] [->|[->|[->|[]]]]; cbn [check_value]; done.
Qed.

(** C10, as amended.  A language of the check list is in the result of
    [detectInstalledLanguages] exactly when its probe reported no error,
    wrote nothing at all to its standard error, and printed a path that is
    not empty once trimmed.  So any output on standard error excludes the
    language, and the result lists the languages that are kept in the
    order of the check list. *)
Theorem detect_keeps_accepted_probes shellVar exec :
  (forall lang, lang ∈ languageChecks ->
     (check_value lang ∈ value <$> detectInstalledLanguages shellVar exec
      <-> probeAccepted shellVar exec (check_command lang))) /\
  (forall lang, lang ∈ languageChecks ->
     cp_stderr (exec (probeCommand shellVar (check_command lang))) <> "" ->
     check_value lang ∉ value <$> detectInstalledLanguages shellVar exec) /\
  sublist (value <$> detectInstalledLanguages shellVar exec) ["javascript"; "python"; "go"] /\
  (forall command,
     probeCommand shellVar command =
     orElse shellVar "/bin/zsh" +:+ " -l -c "
       +:+ String quote ("which " +:+ command +:+ String quote "")).
Proof.
  assert (forall lang, lang ∈ languageChecks ->
            (check_value lang ∈ value <$> detectInstalledLanguages shellVar exec
             <-> probeAccepted shellVar exec (check_command lang))) as Hiff.
  { intros lang Hlang. unfold detectInstalledLanguages.
    rewrite detectLoop_detectOne, app_nil_l, <- detectOne_value.
    rewrite list_elem_of_fmap. split.
    - intros (d & Hv & Hd). apply elem_of_concat in Hd as (ds & Hd & Hds).
      apply list_elem_of_fmap in Hds as (lang' & -> & Hlang').
      pose proof (detectOne_values shellVar exec lang' d Hd) as Hv'.
      rewrite <- Hv in Hv'.
      rewrite (languageChecks_values lang lang' Hlang Hlang') by done. eauto.
    - intros [d Hd]. exists d. split.
      + symmetry. by apply (detectOne_values shellVar exec).
      + apply elem_of_concat. eexists. split; [exact Hd|].
        apply list_elem_of_fmap. eauto. }
  split; [exact Hiff|]. split; [|split; [|done]].
  - intros lang Hlang Herr Hin. apply Hiff in Hin as (_ & Hempty & _); done.
  - unfold detectInstalledLanguages. rewrite detectLoop_detectOne, app_nil_l.
    unfold languageChecks. cbn [fmap list_fmap concat].
    rewrite app_nil_r, !fmap_app.
    change ["javascript"; "python"; "go"] with (["javascript"] ++ ["python"] ++ ["go"]).
    repeat apply sublist_app; apply detectOne_sublist.
Qed.

Lemma detect_keeps_accepted_probes_witness :
  ("go" ∈ value <$> detectInstalledLanguages (Some "/bin/bash") Sample.probes
   <-> probeAccepted (Some "/bin/bash") Sample.probes "go") /\
  "javascript" ∉ value <$> detectInstalledLanguages (Some "/bin/bash") Sample.probes.
Proof.
  destruct (detect_keeps_accepted_probes (Some "/bin/bash") Sample.probes)
    as (Hiff & Hstderr & _).
  split.
  - apply (Hiff {| check_name := "Go"; check_value := "go"; check_command := "go" |}).
    unfold languageChecks. set_solver.
  - apply (Hstderr {| check_name := "JavaScript"; check_value := "javascript";
                      check_command := "node" |}).
    + unfold languageChecks. set_solver.
    + discriminate.
Defined.

(** C10 as stated fails: a probe that reports no error and writes nothing
    to its standard error, but prints nothing either (as when SHELL names
    a program that ignores its arguments and succeeds), resolves with the
    empty string, which the loop drops. *)
Lemma detect_drops_silent_probe :
  let shellVar := Some "/usr/bin/true" in
  cp_error (Sample.silentProbes (probeCommand shellVar "node")) = None /\
  cp_stderr (Sample.silentProbes (probeCommand shellVar "node")) = "" /\
  findExecutable shellVar Sample.silentProbes "node" = Some "" /\
  ("javascript" ∉ value <$> detectInstalledLanguages shellVar Sample.silentProbes) /\
  detectInstalledLanguages shellVar Sample.silentProbes = [].
Proof. cbv zeta. repeat split. cbn. apply not_elem_of_nil. Qed.

(** What the detector answers on a host where the start-up files of the
    shell print a warning for [node], [python3] is missing and [go] is
    found. *)
Example detect_sample :
  detectInstalledLanguages (Some "/bin/bash") Sample.probes =
  [ {| name := "Go"; value := "go"; executablePath := "/usr/local/go/bin/go" |} ].
Proof. reflexivity. Qed.

(** * Further properties *)

(** ** The result of [runCode] *)

Lemma append_not_empty_r (a b : string) : b <> "" -> a +:+ b <> "".
Proof.
  intros Hb. destruct a as [|c a]; [done|]. by rewrite append_cons.
Qed.

Lemma commandToExecute_not_empty shell raw : commandToExecute shell raw <> "".
Proof. unfold commandToExecute. by apply append_not_empty_r. Qed.

Lemma orElse_default_not_empty a d : d <> "" -> orElse a d <> "".
Proof.
  intros Hd. destruct a as [[|c s]|]; cbn; try done.
Qed.

Lemma selectLanguage_early env language code uniqueId early :
  selectLanguage env language code uniqueId = inl early ->
  early = missingClass \/ early = unsupported language.
Proof.
  unfold selectLanguage.
  destruct (String.eqb _ "javascript"); [done|].
  destruct (String.eqb _ "python"); [done|].
  destruct (String.eqb _ "go"); [done|].
  destruct (String.eqb _ "java").
  - destruct (classNameMatch code); [done|]. intros [= <-]. by left.
  - intros [= <-]. by right.
Qed.

(** What a call that got past the switch returns, by what happened. *)
Lemma runCode_result env language code w w1 p r w' :
  ensureTempDir env w = (Normal tt, w1) ->
  selectLanguage env language code (uuidv4 env) = inr p ->
  runCode env language code w = (Normal r, w') ->
  (exists message created,
     writeOutcome env (filePath p) = WriteFailed message created /\
     r = {| stdout := ""; stderr := "";
            error := Some (orElse (Some message) "Unknown error during execution");
            command := "" |}) \/
  (writeOutcome env (filePath p) = Written /\
   exists child d',
     spawn env (commandToExecute (defaultShellPath env) (rawCommand p))
       (Some ({[filePath p]} ∪ default ∅ (disk w))) = (child, d') /\
     r = match cp_error child with
         | None =>
             {| stdout := cp_stdout child; stderr := cp_stderr child; error := None;
                command := commandToExecute (defaultShellPath env) (rawCommand p) |}
         | Some message =>
             {| stdout := cp_stdout child; stderr := cp_stderr child;
                error := Some (orElse (Some (classify (executableCommand p) message))
                                 "Unknown error during execution");
                command := "" |}
         end).
Proof.
  intros He Hs Hrun.
  destruct (ensureTempDir_normal env w w1 He) as [Hd _].
  destruct (writeOutcome env (filePath p)) as [|message created] eqn:Hw.
  - right. split; [done|].
    destruct (spawn env (commandToExecute (defaultShellPath env) (rawCommand p))
                (Some ({[filePath p]} ∪ default ∅ (disk w)))) as [child d'] eqn:Hc.
    pose proof (tryBlock_written env p code w1 _ child d' Hd Hw Hc) as Ht.
    destruct (runCode_planned env language code w w1 p _ _ He Hs Ht) as (w3 & Hrun' & _).
    rewrite Hrun in Hrun'. injection Hrun' as -> _. eauto.
  - left. pose proof (tryBlock_write_failed env p code w1 _ message created Hd Hw) as Ht.
    destruct (runCode_planned env language code w w1 p _ _ He Hs Ht) as (w3 & Hrun' & _).
    rewrite Hrun in Hrun'. injection Hrun' as -> _. eauto.
Qed.

Lemma runCode_result_fields env language code w r w' :
  runCode env language code w = (Normal r, w') ->
  (error r = None <-> command r <> "") /\
  (forall message, error r = Some message -> message <> "").
Proof.
  intros Hrun. pose proof Hrun as Hrun0. rewrite runCode_unfold in Hrun0.
  destruct (ensureTempDir env w) as [[[]|e] w1] eqn:He; [|done].
  destruct (selectLanguage env language code (uuidv4 env)) as [early|p] eqn:Hs.
  - injection Hrun0 as <- _.
    apply selectLanguage_early in Hs as [-> | ->]; cbn [error command missingClass unsupported].
    + split; [split; done|]. by intros message [= <-].
    + split; [split; done|]. intros message [= <-]. by rewrite append_cons.
  - clear Hrun0.
    destruct (runCode_result env language code w w1 p r w' He Hs Hrun)
      as [(message & created & _ & ->)|(_ & child & d' & _ & ->)].
    + cbn [error command]. split; [split; done|].
      intros m [= <-].
      by apply (orElse_default_not_empty (Some _) "Unknown error during execution").
    + destruct (cp_error child) as [message|]; cbn [error command].
      * split; [split; done|]. intros m [= <-].
        by apply (orElse_default_not_empty (Some _) "Unknown error during execution").
      * split; [|done]. split; [|done]. intros _. apply commandToExecute_not_empty.
Qed.

(** A call that returns without an error got past the switch, wrote the
    file and handed its command line to [exec]. *)
Lemma runCode_success env language code w r w' :
  runCode env language code w = (Normal r, w') ->
  error r = None ->
  exists p,
    selectLanguage env language code (uuidv4 env) = inr p /\
    writeOutcome env (filePath p) = Written /\
    command r = commandToExecute (defaultShellPath env) (rawCommand p) /\
    Exec (commandToExecute (defaultShellPath env) (rawCommand p))
         (tempDir env) (defaultShellPath env) ∈ trace w'.
Proof.
  intros Hrun Herr. pose proof Hrun as Hrun0. rewrite runCode_unfold in Hrun0.
  destruct (ensureTempDir env w) as [[[]|e] w1] eqn:He; [|done].
  destruct (selectLanguage env language code (uuidv4 env)) as [early|p] eqn:Hs.
  { injection Hrun0 as <- _. by apply selectLanguage_early in Hs as [-> | ->]. }
  clear Hrun0. exists p. split; [done|].
  destruct (ensureTempDir_normal env w w1 He) as [Hd _].
  destruct (writeOutcome env (filePath p)) as [|message created] eqn:Hw.
  - destruct (spawn env (commandToExecute (defaultShellPath env) (rawCommand p))
                (Some ({[filePath p]} ∪ default ∅ (disk w)))) as [child d'] eqn:Hc.
    pose proof (tryBlock_written env p code w1 _ child d' Hd Hw Hc) as Ht.
    destruct (runCode_planned env language code w w1 p _ _ He Hs Ht) as (w3 & Hrun' & Hfin).
    rewrite Hrun in Hrun'. injection Hrun' as -> <-.
    match type of Hfin with
    | finallyBlock _ _ ?w2 = _ =>
        destruct (finallyBlock_spec env p w2) as (w3' & Hfin' & [tr' Htr'] & _)
    end.
    rewrite Hfin in Hfin'. injection Hfin' as <-.
    split; [done|]. destruct (cp_error child) as [message|]; [done|].
    split; [done|]. rewrite Htr'. cbn [trace]. set_solver.
  - pose proof (tryBlock_write_failed env p code w1 _ message created Hd Hw) as Ht.
    destruct (runCode_planned env language code w w1 p _ _ He Hs Ht) as (w3 & Hrun' & _).
    rewrite Hrun in Hrun'. injection Hrun' as -> _. done.
Qed.

(** X1.  Whatever [runCode] returns: when [error] is [null], [command] is
    the command line that was handed to [exec], the login shell with the
    escaped raw command of the language between double quotes; when
    [error] is not [null], [command] is empty; and an error text is never
    the empty string, so testing [error] for truthiness is testing it
    against [null]. *)
Theorem runCode_command_iff_success env language code w r w' :
  runCode env language code w = (Normal r, w') ->
  (error r = None ->
   exists p,
     selectLanguage env language code (uuidv4 env) = inr p /\
     command r = defaultShellPath env +:+ " -l -c "
                 +:+ String (ascii_of_N 34)
                       (escapeQuotes (rawCommand p) +:+ String (ascii_of_N 34) "") /\
     Exec (command r) (tempDir env) (defaultShellPath env) ∈ trace w') /\
  (error r <> None -> command r = "") /\
  (error r = None <-> command r <> "") /\
  (forall message, error r = Some message -> message <> "").
Proof.
  intros Hrun.
  destruct (runCode_result_fields env language code w r w' Hrun) as [Hiff Htext].
  split_and!; [| |done|done].
  - intros Herr.
    destruct (runCode_success env language code w r w' Hrun Herr) as (p & Hs & _ & Hcmd & Hexec).
    exists p. split; [done|]. split; [exact Hcmd|]. by rewrite Hcmd.
  - intros Herr. destruct (decide (command r = "")) as [|Hne]; [done|].
    by apply Hiff in Hne.
Qed.

Lemma runCode_command_iff_success_witness :
  let r := {| stdout := "hello"; stderr := ""; error := None;
              command := commandToExecute "/bin/bash" (rawCommand Sample.jsPlan) |} in
  let w' := {| disk := None;
               trace := [ ExistsSync "/ext/temp"; MkdirSync "/ext/temp";
                          WriteFileSync (filePath Sample.jsPlan) "console.log(1)";
                          Exec (commandToExecute "/bin/bash" (rawCommand Sample.jsPlan))
                               "/ext/temp" "/bin/bash";
                          ExistsSync (filePath Sample.jsPlan);
                          UnlinkSync (filePath Sample.jsPlan);
                          ReaddirSync "/ext/temp"; RmdirSync "/ext/temp" ] |} in
  (error r = None ->
   exists p,
     selectLanguage Sample.host "javascript" "console.log(1)" Sample.firstId = inr p /\
     command r = "/bin/bash" +:+ " -l -c "
                 +:+ String (ascii_of_N 34)
                       (escapeQuotes (rawCommand p) +:+ String (ascii_of_N 34) "") /\
     Exec (command r) "/ext/temp" "/bin/bash" ∈ trace w') /\
  (error r <> None -> command r = "") /\
  (error r = None <-> command r <> "") /\
  (forall message, error r = Some message -> message <> "").
Proof.
  apply (runCode_command_iff_success Sample.host "javascript" "console.log(1)"
           Sample.emptyWorld).
  reflexivity.
Defined.

(** ** The calls a run makes *)

Section Calls.

Context (env : Env).

Lemma unlinkIfPresent_trace file w :
  exists tr, trace (unlinkIfPresent env file w).2 = trace w ++ tr /\ Forall (fun ev => isCleanupEvent ev = true) tr.
Proof.
  unfold unlinkIfPresent, existsSync, unlinkSync, tryCatch. run.
  destruct (pathExists env (disk w) file).
  - run. destruct (unlinkFails env file) as [message|]; run.
    + eexists. cbn [snd trace]. rewrite <- app_assoc. split; [done|]. by repeat constructor.
    + destruct (disk w); run; eexists; cbn [snd trace]; rewrite <- app_assoc;
        (split; [done|]); by repeat constructor.
  - eexists. cbn [snd trace]. split; [done|]. by repeat constructor.
Qed.

Lemma unlinkEach_trace files : forall w,
  exists tr, trace (unlinkEach env files w).2 = trace w ++ tr /\ Forall (fun ev => isCleanupEvent ev = true) tr.
Proof.
  induction files as [|file rest IH]; intros w.
  - exists []. cbn. by rewrite app_nil_r.
  - cbn [unlinkEach].
    destruct (unlinkOne_spec env file w) as (w1 & Hrun & _).
    destruct (unlinkIfPresent_trace file w) as (tr1 & Htr1 & Hc1).
    rewrite Hrun in Htr1. cbn [snd] in Htr1.
    destruct (IH w1) as (tr2 & Htr2 & Hc2).
    exists (tr1 ++ tr2). unfold mbind, M_bind. rewrite Hrun.
    rewrite Htr2, Htr1, app_assoc. split; [done|]. by apply Forall_app.
Qed.

Lemma removeDirIfEmpty_trace w :
  exists tr, trace (removeDirIfEmpty env w).2 = trace w ++ tr /\ Forall (fun ev => isCleanupEvent ev = true) tr.
Proof.
  unfold removeDirIfEmpty, tryCatch, readdirSync, rmdirSync. run.
  destruct (readdirFails env) as [m|]; run.
  { eexists. cbn [snd trace]. split; [done|]. by repeat constructor. }
  destruct (disk w) as [entries|] eqn:Hd; run.
  2:{ eexists. cbn [snd trace]. split; [done|]. by repeat constructor. }
  destruct (length (elements entries) =? 0)%nat; run.
  - destruct (rmdirFails env) as [m|]; run.
    + eexists. cbn [snd trace]. rewrite <- app_assoc. split; [done|]. by repeat constructor.
    + destruct (bool_decide (entries = ∅)); run;
        eexists; cbn [snd trace]; rewrite <- app_assoc; (split; [done|]);
        by repeat constructor.
  - eexists. cbn [snd trace]. split; [done|]. by repeat constructor.
Qed.

Lemma finallyBlock_trace p w :
  exists tr, trace (finallyBlock env p w).2 = trace w ++ tr /\ Forall (fun ev => isCleanupEvent ev = true) tr.
Proof.
  unfold finallyBlock.
  destruct (unlinkEach_spec env (cleanupFiles p) w) as (w1 & Hrun1 & _).
  destruct (unlinkEach_trace (cleanupFiles p) w) as (tr1 & Htr1 & Hc1).
  rewrite Hrun1 in Htr1. cbn [snd] in Htr1.
  destruct (removeDirIfEmpty_trace w1) as (tr2 & Htr2 & Hc2).
  exists (tr1 ++ tr2). unfold mbind, M_bind. rewrite Hrun1.
  rewrite Htr2, Htr1, app_assoc. split; [done|]. by apply Forall_app.
Qed.

(** X2.  A call that gets past the switch first writes the source text,
    unchanged, to the source file; it spawns one process, in the scratch
    directory, if that write succeeded and none if it failed; every call
    it makes after that belongs to the cleanup. *)
Theorem runCode_calls language code w w1 p :
  ensureTempDir env w = (Normal tt, w1) ->
  selectLanguage env language code (uuidv4 env) = inr p ->
  exists r w' tr,
    runCode env language code w = (Normal r, w') /\
    trace w' =
      trace w1 ++
      WriteFileSync (filePath p) code ::
      match writeOutcome env (filePath p) with
      | Written =>
          [Exec (commandToExecute (defaultShellPath env) (rawCommand p))
                (tempDir env) (defaultShellPath env)]
      | WriteFailed _ _ => []
      end ++ tr /\
    Forall (fun ev => isCleanupEvent ev = true) tr.
Proof.
  intros He Hs.
  destruct (ensureTempDir_normal env w w1 He) as [Hd _].
  destruct (writeOutcome env (filePath p)) as [|message created] eqn:Hw.
  - destruct (spawn env (commandToExecute (defaultShellPath env) (rawCommand p))
                (Some ({[filePath p]} ∪ default ∅ (disk w)))) as [child d'] eqn:Hc.
    pose proof (tryBlock_written env p code w1 _ child d' Hd Hw Hc) as Ht.
    destruct (runCode_planned env language code w w1 p _ _ He Hs Ht) as (w3 & Hrun & Hfin).
    match type of Hfin with
    | finallyBlock _ _ ?w2 = _ =>
        destruct (finallyBlock_trace p w2) as (tr & Htr & Hc')
    end.
    rewrite Hfin in Htr. cbn [snd trace] in Htr.
    eexists _, w3, tr. split; [exact Hrun|]. split; [|done].
    rewrite Htr. by rewrite <- !app_assoc.
  - pose proof (tryBlock_write_failed env p code w1 _ message created Hd Hw) as Ht.
    destruct (runCode_planned env language code w w1 p _ _ He Hs Ht) as (w3 & Hrun & Hfin).
    match type of Hfin with
    | finallyBlock _ _ ?w2 = _ =>
        destruct (finallyBlock_trace p w2) as (tr & Htr & Hc')
    end.
    rewrite Hfin in Htr. cbn [snd trace] in Htr.
    eexists _, w3, tr. split; [exact Hrun|]. split; [|done].
    rewrite Htr. by rewrite <- !app_assoc.
Qed.

End Calls.

Lemma runCode_calls_witness :
  exists r w' tr,
    runCode Sample.diskFull "javascript" "console.log(1)" Sample.emptyWorld = (Normal r, w') /\
    trace w' =
      [ExistsSync "/ext/temp"; MkdirSync "/ext/temp"] ++
      WriteFileSync (filePath Sample.jsPlan) "console.log(1)" :: [] ++ tr /\
    Forall (fun ev => isCleanupEvent ev = true) tr.
Proof.
  apply (runCode_calls Sample.diskFull "javascript" "console.log(1)" Sample.emptyWorld
           {| disk := Some ∅; trace := [ExistsSync "/ext/temp"; MkdirSync "/ext/temp"] |}
           Sample.jsPlan); reflexivity.
Defined.

(** ** What the cleanup leaves on the disk *)

Section Leftovers.

Context (env : Env).

Lemma finallyBlock_keeps p w entries f :
  disk w = Some entries -> f ∈ entries -> f ∉ cleanupFiles p ->
  exists entries', disk (finallyBlock env p w).2 = Some entries' /\ f ∈ entries'.
Proof.
  intros Hd Hf Hnot. unfold finallyBlock.
  destruct (unlinkEach_spec env (cleanupFiles p) w) as (w1 & Hrun1 & _ & Hd1).
  rewrite Hd in Hd1. destruct Hd1 as (e1 & He1 & _ & Hkeep & _).
  destruct (removeDirIfEmpty_spec env w1) as (w2 & Hrun2 & _ & Hcases & _).
  unfold mbind, M_bind. rewrite Hrun1, Hrun2. cbn [snd].
  specialize (Hkeep f Hf Hnot).
  destruct Hcases as [Heq|[Hempty _]].
  - exists e1. by rewrite Heq, He1.
  - rewrite He1 in Hempty. injection Hempty as ->. set_solver.
Qed.

Lemma unlinkEach_exact files : forall w entries,
  disk w = Some entries ->
  (forall f, f ∈ files -> f <> tempDir env) ->
  disk (unlinkEach env files w).2 =
  Some (entries ∖ list_to_set
          (filter (fun f => accessFails env f = false /\ unlinkFails env f = None) files)).
Proof.
  induction files as [|file rest IH]; intros w entries Hd Hne.
  - cbn. rewrite Hd. f_equal. set_solver.
  - cbn [unlinkEach].
    destruct (unlinkOne_spec env file w) as (w1 & Hrun & _ & Hdisk1).
    rewrite Hd in Hdisk1. destruct Hdisk1 as (_ & Hgone & Hstays).
    unfold mbind, M_bind. rewrite Hrun. rewrite filter_cons.
    assert (forall f, f ∈ rest -> f <> tempDir env) as Hrest by (intros; apply Hne; set_solver).
    destruct (decide (accessFails env file = false /\ unlinkFails env file = None))
      as [[Ha Hu]|Hnot].
    + rewrite (IH w1 _ (Hgone Ha Hu) Hrest). f_equal. set_solver.
    + apply (IH w1 entries); [|done]. apply Hstays; [apply Hne; set_solver|].
      destruct (accessFails env file); [by left|right]. intros Hu. by apply Hnot.
Qed.

Lemma removeDirIfEmpty_exact w :
  disk (removeDirIfEmpty env w).2 =
  match disk w with
  | None => None
  | Some entries =>
      if decide (entries = ∅ /\ readdirFails env = None /\ rmdirFails env = None)
      then None else Some entries
  end.
Proof.
  unfold removeDirIfEmpty, tryCatch, readdirSync, rmdirSync. run.
  destruct (readdirFails env) as [m|]; run.
  { cbn [snd disk]. destruct (disk w); [|done]. rewrite decide_False; [done|]. by intros (_ & ? & _). }
  destruct (disk w) as [entries|] eqn:Hd; run; [|done].
  rewrite length_elements_zero.
  destruct (decide (entries = ∅)) as [->|Hne].
  - rewrite bool_decide_eq_true_2 by done. run.
    destruct (rmdirFails env) as [m|]; run.
    + cbn [snd disk]. rewrite decide_False; [done|]. by intros (_ & _ & ?).
    + rewrite bool_decide_eq_true_2 by done. cbn [snd disk]. by rewrite decide_True.
  - rewrite bool_decide_eq_false_2 by done. run. cbn [snd disk].
    rewrite decide_False; [done|]. by intros (? & _).
Qed.

Lemma finallyBlock_exact p w :
  (forall f, f ∈ cleanupFiles p -> f <> tempDir env) ->
  disk (finallyBlock env p w).2 =
  match disk w with
  | None => None
  | Some remains =>
      if decide (remains ∖ list_to_set
                   (filter (fun f => accessFails env f = false /\ unlinkFails env f = None)
                      (cleanupFiles p)) = ∅
                 /\ readdirFails env = None /\ rmdirFails env = None)
      then None
      else Some (remains ∖ list_to_set
                   (filter (fun f => accessFails env f = false /\ unlinkFails env f = None)
                      (cleanupFiles p)))
  end.
Proof.
  intros Hne. unfold finallyBlock.
  destruct (unlinkEach_spec env (cleanupFiles p) w) as (w1 & Hrun1 & _ & Hd1).
  pose proof (removeDirIfEmpty_exact w1) as Hrm.
  unfold mbind, M_bind. rewrite Hrun1.
  destruct (removeDirIfEmpty env w1) as [[[]|e] w2]; cbn [snd] in *; rewrite Hrm.
  all: destruct (disk w) as [remains|] eqn:Hd; [|by rewrite Hd1].
  all: pose proof (unlinkEach_exact (cleanupFiles p) w remains Hd Hne) as Hex;
    rewrite Hrun1 in Hex; cbn [snd] in Hex; by rewrite Hex.
Qed.

(** X3.  The cleanup deletes nothing but tracked files: a file of the
    scratch directory that the call does not track, be it there since
    before the call or left by the process, is still there when the call
    returns, whichever calls into the file system fail. *)
Theorem runCode_keeps_untracked_files language code w w1 p entries f :
  ensureTempDir env w = (Normal tt, w1) ->
  selectLanguage env language code (uuidv4 env) = inr p ->
  disk w1 = Some entries ->
  f ∉ cleanupFiles p ->
  match writeOutcome env (filePath p) with
  | Written =>
      exists remains,
        (spawn env (commandToExecute (defaultShellPath env) (rawCommand p))
           (Some ({[filePath p]} ∪ entries))).2 = Some remains /\ f ∈ remains
  | WriteFailed _ _ => f ∈ entries
  end ->
  exists r w' entries',
    runCode env language code w = (Normal r, w') /\
    disk w' = Some entries' /\ f ∈ entries'.
Proof.
  intros He Hs Hd Hnot Hthere.
  destruct (writeOutcome env (filePath p)) as [|message created] eqn:Hw.
  - destruct Hthere as (remains & Hleft & Hf).
    destruct (spawn env (commandToExecute (defaultShellPath env) (rawCommand p))
                (Some ({[filePath p]} ∪ entries))) as [child d'] eqn:Hc.
    cbn [snd] in Hleft. subst d'.
    pose proof (tryBlock_written env p code w1 _ child _ Hd Hw Hc) as Ht.
    destruct (runCode_planned env language code w w1 p _ _ He Hs Ht) as (w3 & Hrun & Hfin).
    match type of Hfin with
    | finallyBlock _ _ ?w2 = _ =>
        destruct (finallyBlock_keeps p w2 remains f eq_refl Hf Hnot) as (entries' & Hd' & Hf')
    end.
    rewrite Hfin in Hd'. eauto 6.
  - pose proof (tryBlock_write_failed env p code w1 _ message created Hd Hw) as Ht.
    destruct (runCode_planned env language code w w1 p _ _ He Hs Ht) as (w3 & Hrun & Hfin).
    match type of Hfin with
    | finallyBlock _ _ ?w2 = _ =>
        destruct (finallyBlock_keeps p w2
                    (if created then {[filePath p]} ∪ entries else entries) f eq_refl)
          as (entries' & Hd' & Hf'); [destruct created; set_solver|done|]
    end.
    rewrite Hfin in Hd'. eauto 6.
Qed.

(** X4.  What a run that spawned the process leaves on the disk: the
    scratch directory holds what the process left in it minus the tracked
    files that [existsSync] sees and whose [unlinkSync] does not fail, and
    it is removed exactly when that is nothing and neither [readdirSync]
    nor [rmdirSync] fails.  In particular, when no call of the cleanup
    fails and [existsSync] sees every tracked file, a process that leaves
    only tracked files behind leaves no trace on the disk. *)
Theorem runCode_final_disk language code w w1 p entries child d' :
  ensureTempDir env w = (Normal tt, w1) ->
  selectLanguage env language code (uuidv4 env) = inr p ->
  disk w1 = Some entries ->
  writeOutcome env (filePath p) = Written ->
  spawn env (commandToExecute (defaultShellPath env) (rawCommand p))
    (Some ({[filePath p]} ∪ entries)) = (child, d') ->
  exists r w',
    runCode env language code w = (Normal r, w') /\
    disk w' =
      match d' with
      | None => None
      | Some remains =>
          if decide (remains ∖ list_to_set
                       (filter (fun f => accessFails env f = false /\ unlinkFails env f = None)
                          (cleanupFiles p)) = ∅
                     /\ readdirFails env = None /\ rmdirFails env = None)
          then None
          else Some (remains ∖ list_to_set
                       (filter (fun f => accessFails env f = false /\ unlinkFails env f = None)
                          (cleanupFiles p)))
      end /\
    ((forall f, f ∈ cleanupFiles p -> accessFails env f = false /\ unlinkFails env f = None) ->
     readdirFails env = None -> rmdirFails env = None ->
     forall remains, d' = Some remains -> remains ⊆ list_to_set (cleanupFiles p) ->
     disk w' = None).
Proof.
  intros He Hs Hd Hw Hc.
  pose proof (tryBlock_written env p code w1 _ child d' Hd Hw Hc) as Ht.
  destruct (runCode_planned env language code w w1 p _ _ He Hs Ht) as (w3 & Hrun & Hfin).
  assert (forall f, f ∈ cleanupFiles p -> f <> tempDir env) as Hne.
  { intros f Hf. destruct (cleanupFiles_in_tempDir env _ _ _ _ _ Hs Hf) as [name ->].
    apply pathJoin_not_dir. }
  match type of Hfin with
  | finallyBlock _ _ ?w2 = _ =>
      pose proof (finallyBlock_exact p w2 Hne) as Hexact
  end.
  rewrite Hfin in Hexact. cbn [snd disk] in Hexact.
  eexists _, w3. split; [exact Hrun|]. split; [exact Hexact|].
  intros Hall Hread Hrm remains -> Hsub. rewrite Hexact.
  rewrite decide_True; [done|]. split; [|done].
  apply set_eq. intros f. rewrite elem_of_difference, elem_of_list_to_set, list_elem_of_filter.
  split; [|set_solver]. intros [Hf Hnot]. exfalso. apply Hnot.
  assert (f ∈ cleanupFiles p) as Hin by set_solver. split; [by apply Hall|done].
Qed.

End Leftovers.

Lemma runCode_keeps_untracked_files_witness :
  exists r w' entries',
    runCode Sample.unlinkDenied "javascript" "console.log(1)"
      {| disk := Some {[ "/ext/temp/notes.txt" ]}; trace := [] |} = (Normal r, w') /\
    disk w' = Some entries' /\ "/ext/temp/notes.txt" ∈ entries'.
Proof.
  apply (runCode_keeps_untracked_files Sample.unlinkDenied "javascript" "console.log(1)"
           {| disk := Some {[ "/ext/temp/notes.txt" ]}; trace := [] |}
           {| disk := Some {[ "/ext/temp/notes.txt" ]}; trace := [ExistsSync "/ext/temp"] |}
           Sample.jsPlan {[ "/ext/temp/notes.txt" ]}).
  - reflexivity.
  - reflexivity.
  - reflexivity.
  - cbn. rewrite list_elem_of_singleton. discriminate.
  - cbn. eexists. split; [reflexivity|]. set_solver.
Defined.

Lemma runCode_final_disk_witness :
  exists r w',
    runCode Sample.linkHost "javascript" "process.exit(0)" Sample.emptyWorld = (Normal r, w') /\
    disk w' =
      (if decide (({[filePath Sample.jsPlan]} ∪ ∅)
                    ∖ list_to_set
                        (filter (fun f => accessFails Sample.linkHost f = false
                                          /\ unlinkFails Sample.linkHost f = None)
                           (cleanupFiles Sample.jsPlan)) = (∅ : gset string)
                  /\ readdirFails Sample.linkHost = None /\ rmdirFails Sample.linkHost = None)
       then None
       else Some (({[filePath Sample.jsPlan]} ∪ ∅)
                    ∖ list_to_set
                        (filter (fun f => accessFails Sample.linkHost f = false
                                          /\ unlinkFails Sample.linkHost f = None)
                           (cleanupFiles Sample.jsPlan)))) /\
    ((forall f, f ∈ cleanupFiles Sample.jsPlan ->
        accessFails Sample.linkHost f = false /\ unlinkFails Sample.linkHost f = None) ->
     readdirFails Sample.linkHost = None -> rmdirFails Sample.linkHost = None ->
     forall remains : gset string,
       Some ({[filePath Sample.jsPlan]} ∪ ∅) = Some remains ->
       remains ⊆ list_to_set (cleanupFiles Sample.jsPlan) -> disk w' = None).
Proof.
  apply (runCode_final_disk Sample.linkHost "javascript" "process.exit(0)" Sample.emptyWorld
           {| disk := Some ∅; trace := [ExistsSync "/ext/temp"; MkdirSync "/ext/temp"] |}
           Sample.jsPlan ∅ Sample.greeted (Some ({[filePath Sample.jsPlan]} ∪ ∅)));
    reflexivity.
Defined.

(** ** The source text and the command line *)

(** X5.  The source text reaches the command line only through the class
    name of the java case: outside that case the plan (file names, command,
    tracked files) is the same for every source text, inside it for every
    two texts with the same match; and a matched class name is a
    non-empty word of the characters of [[a-zA-Z0-9_]]. *)
Theorem plan_independent_of_source env language code1 code2 uniqueId :
  (toLowerCase language <> "java" ->
   selectLanguage env language code1 uniqueId = selectLanguage env language code2 uniqueId) /\
  (classNameMatch code1 = classNameMatch code2 ->
   selectLanguage env language code1 uniqueId = selectLanguage env language code2 uniqueId) /\
  (forall className,
     classNameMatch code1 = Some className ->
     className <> "" /\ allChars isWordChar className = true).
Proof.
  split; [|split].
  - intros Hjava. unfold selectLanguage.
    destruct (String.eqb _ "javascript"); [done|].
    destruct (String.eqb _ "python"); [done|].
    destruct (String.eqb _ "go"); [done|].
    by destruct (String.eqb_spec (toLowerCase language) "java").
  - intros Hsame. unfold selectLanguage. by rewrite Hsame.
  - intros className Hm.
    apply classNameMatch_sound in Hm as (? & ? & ? & ? & _ & _ & _ & _ & _ & ? & ?). done.
Qed.

Lemma plan_independent_of_source_witness :
  selectLanguage Sample.host "Python" "print(1)" Sample.firstId =
  selectLanguage Sample.host "Python" "import os" Sample.firstId /\
  selectLanguage Sample.host "java" "public class Main {}" Sample.firstId =
  selectLanguage Sample.host "java" "public  class Main extends Base { int x; }" Sample.firstId /\
  "Main" <> "" /\ allChars isWordChar "Main" = true.
Proof.
  split; [|split].
  - destruct (plan_independent_of_source Sample.host "Python" "print(1)" "import os"
                Sample.firstId) as (Hother & _ & _).
    apply Hother. intros H. vm_compute in H. discriminate H.
  - destruct (plan_independent_of_source Sample.host "java" "public class Main {}"
                "public  class Main extends Base { int x; }" Sample.firstId)
      as (_ & Hsame & _).
    apply Hsame. reflexivity.
  - destruct (plan_independent_of_source Sample.host "java" "public class Main {}"
                "public class Main {}" Sample.firstId) as (_ & _ & Hword).
    apply Hword. reflexivity.
Defined.

(** ** Which declaration the pattern picks *)

Section FirstMatch.

Lemma headSatisfies_dropWhile f s : headSatisfies f (dropWhile f s) = false.
Proof.
  induction s as [|c s IH]; [done|]. cbn [dropWhile].
  destruct (f c) eqn:Hc; [done|]. cbn [headSatisfies]. done.
Qed.

Lemma matchPublicClassHere_at s className :
  matchPublicClassHere s = Some className ->
  exists after,
    publicClassAt s "" className after /\ headSatisfies isWordChar after = false.
Proof.
  unfold matchPublicClassHere, publicClassAt.
  destruct (stripPrefix "public" s) as [r1|] eqn:H1; [|done].
  destruct (spaces1 r1) as [r2|] eqn:H2; [|done].
  destruct (stripPrefix "class" r2) as [r3|] eqn:H3; [|done].
  destruct (spaces1 r3) as [r4|] eqn:H4; [|done].
  destruct (isEmpty (takeWhile isWordChar r4)) eqn:H5; [done|].
  intros [= <-].
  apply stripPrefix_Some in H1 as ->. apply spaces1_Some in H2 as (ws1 & -> & ? & ?).
  apply stripPrefix_Some in H3 as ->. apply spaces1_Some in H4 as (ws2 & -> & ? & ?).
  exists (dropWhile isWordChar r4). split; [|apply headSatisfies_dropWhile].
  exists ws1, ws2. rewrite <- takeWhile_dropWhile, append_nil_l.
  rewrite isEmpty_false in H5. repeat split; try done. apply allChars_takeWhile.
Qed.

Lemma publicClassAt_here s className after :
  publicClassAt s "" className after -> is_Some (matchPublicClassHere s).
Proof.
  intros (ws1 & ws2 & -> & ? & ? & ? & ? & ? & ?). rewrite append_nil_l.
  by apply matchPublicClassHere_complete.
Qed.

Lemma publicClassAt_cons c code before className after :
  publicClassAt (String c code) (String c before) className after <->
  publicClassAt code before className after.
Proof.
  unfold publicClassAt. split; intros (ws1 & ws2 & Heq & Hrest); exists ws1, ws2;
    (split; [|exact Hrest]).
  - rewrite append_cons in Heq. by injection Heq.
  - rewrite append_cons. by f_equal.
Qed.

(** X6.  When several declarations fit the pattern, the match is the first
    one in the text, and its name is taken as long as possible: what
    follows the name does not start with a character of
    [[a-zA-Z0-9_]]. *)
Theorem classNameMatch_first_longest code className :
  classNameMatch code = Some className ->
  exists before after,
    publicClassAt code before className after /\
    headSatisfies isWordChar after = false /\
    forall before' className' after',
      publicClassAt code before' className' after' ->
      String.length before <= String.length before'.
Proof.
  induction code as [|c code IH].
  - cbn [classNameMatch]. change (matchPublicClassHere "") with (@None string). done.
  - cbn [classNameMatch].
    destruct (matchPublicClassHere (String c code)) as [found|] eqn:Hm.
    + intros [= ->]. apply matchPublicClassHere_at in Hm as (after & Hat & Hhead).
      exists "", after. split; [done|]. split; [done|]. intros. cbn. lia.
    + intros (before & after & Hat & Hhead & Hfirst)%IH.
      exists (String c before), after. split; [by apply publicClassAt_cons|].
      split; [done|]. intros before' className' after' Hat'.
      destruct before' as [|c' before'].
      * apply publicClassAt_here in Hat' as [? Hsome]. congruence.
      * assert (c' = c) as ->.
        { destruct Hat' as (? & ? & Heq & _). rewrite append_cons in Heq. by injection Heq. }
        apply publicClassAt_cons in Hat'. specialize (Hfirst _ _ _ Hat'). cbn. lia.
Qed.

End FirstMatch.

Lemma classNameMatch_first_longest_witness :
  exists before after,
    publicClassAt "class A {} public class First2 {} public class Second {}" before
      "First2" after /\
    headSatisfies isWordChar after = false /\
    forall before' className' after',
      publicClassAt "class A {} public class First2 {} public class Second {}" before'
        className' after' ->
      String.length before <= String.length before'.
Proof.
  apply (classNameMatch_first_longest
           "class A {} public class First2 {} public class Second {}" "First2").
  reflexivity.
Defined.

(** ** The two versions of [runCode] *)

Section Versions.

Context (env : Env).

Lemma later_selectLanguage language code uniqueId :
  toLowerCase language <> "java" ->
  selectLanguage env language code uniqueId =
  match Later.selectLanguage env language uniqueId with
  | inl _ => inl (unsupported language)
  | inr p => inr p
  end.
Proof.
  intros Hjava. unfold selectLanguage, Later.selectLanguage.
  destruct (String.eqb _ "javascript"); [done|].
  destruct (String.eqb _ "python"); [done|].
  destruct (String.eqb _ "go"); [done|].
  by destruct (String.eqb_spec (toLowerCase language) "java").
Qed.

Lemma later_selectLanguage_early language uniqueId early :
  Later.selectLanguage env language uniqueId = inl early ->
  early = Later.unsupported language.
Proof.
  unfold Later.selectLanguage.
  destruct (String.eqb _ "javascript"); [done|].
  destruct (String.eqb _ "python"); [done|].
  destruct (String.eqb _ "go"); [done|]. by intros [= <-].
Qed.

Lemma later_try_catch p code w :
  tryCatch (Later.tryBlock env p code) Later.catchBlock w =
  match tryCatch (tryBlock env p code) catchBlock w with
  | (Normal r, w') => (Normal (laterResult r), w')
  | (Throw e, w') => (Throw e, w')
  end.
Proof.
  unfold tryCatch, Later.tryBlock, tryBlock, Later.catchBlock, catchBlock,
    writeFileSync, execPromise. run.
  destruct (disk w) as [entries|]; run; [|done].
  destruct (writeOutcome env (filePath p)) as [|message created]; run.
  - destruct (spawn env _ _) as [child d']. run.
    by destruct (cp_error child).
  - by destruct created.
Qed.

Lemma later_runCode_as_first language code w :
  toLowerCase language <> "java" ->
  Later.runCode env language code w =
  match runCode env language code w with
  | (Normal r, w') => (Normal (laterResult r), w')
  | (Throw e, w') => (Throw e, w')
  end.
Proof.
  intros Hjava. rewrite runCode_unfold, (later_selectLanguage _ _ _ Hjava).
  unfold Later.runCode. run.
  destruct (ensureTempDir env w) as [[[]|e] w1]; [|done].
  destruct (Later.selectLanguage env language (uuidv4 env)) as [early|p] eqn:Hs.
  - by apply later_selectLanguage_early in Hs as ->.
  - unfold tryFinally. rewrite later_try_catch.
    destruct (tryCatch (tryBlock env p code) catchBlock w1) as [[r|e] w2].
    + by destruct (finallyBlock env p w2) as [[[]|e] w3].
    + by destruct (finallyBlock env p w2) as [[[]|e'] w3].
Qed.

(** X7.  For every language but java the later version of [runCode] does
    what the first version does: the same calls, the same disk, the same
    [stdout], [stderr] and [error], and the same exception when the
    scratch directory cannot be created.  It only reports [command] as
    [null] where the first version reports the empty string. *)
Theorem later_runCode_agrees language code w :
  toLowerCase language <> "java" ->
  Later.runCode env language code w =
  match runCode env language code w with
  | (Normal r, w') => (Normal (laterResult r), w')
  | (Throw e, w') => (Throw e, w')
  end.
Proof. apply later_runCode_as_first. Qed.

(** An error text of the later version is never the empty string. *)
Lemma later_runCode_error_text language code w r w' :
  Later.runCode env language code w = (Normal r, w') ->
  forall message, Later.error r = Some message -> message <> "".
Proof.
  intros Hrun message Herr.
  destruct (String.eqb_spec (toLowerCase language) "java") as [Hjava|Hjava].
  - revert Hrun. unfold Later.runCode, Later.selectLanguage. rewrite Hjava. run.
    destruct (ensureTempDir env w) as [[[]|e] w1]; [|done].
    intros [= <- _]. cbn in Herr. injection Herr as <-. by rewrite append_cons.
  - rewrite (later_runCode_as_first _ _ _ Hjava) in Hrun.
    destruct (runCode env language code w) as [[r0|e] w0] eqn:Hfirst; [|done].
    injection Hrun as <- _. cbn in Herr.
    by apply (runCode_result_fields _ _ _ _ _ _ Hfirst).
Qed.

(** The later version throws what [mkdirSync] throws. *)
Lemma later_runCode_throws language code w message :
  disk w = None -> mkdirFails env = Some message ->
  exists w', Later.runCode env language code w = (Throw (errorObject message), w').
Proof.
  intros Hd Hm. unfold Later.runCode. run.
  pose proof (ensureTempDir_spec env w) as H. rewrite Hd, Hm in H. rewrite H. eauto.
Qed.

End Versions.

Lemma later_runCode_agrees_witness :
  Later.runCode Sample.crashHost "JavaScript" "process.exit(1)" Sample.emptyWorld =
  match runCode Sample.crashHost "JavaScript" "process.exit(1)" Sample.emptyWorld with
  | (Normal r, w') => (Normal (laterResult r), w')
  | (Throw e, w') => (Throw e, w')
  end.
Proof.
  apply (later_runCode_agrees Sample.crashHost "JavaScript" "process.exit(1)"
           Sample.emptyWorld).
  intros H. vm_compute in H. discriminate H.
Defined.

(** What the later version answers for java. *)
Example later_runCode_java :
  (Later.runCode Sample.host "java" "public class Main {}" Sample.emptyWorld).1 =
  Normal (Later.unsupported "java").
Proof. reflexivity. Qed.

(** ** What the detector reports *)

Section Trim.

Lemma trimEnd_split s :
  exists b, s = trimEnd s +:+ b /\ allChars isSpace b = true.
Proof.
  induction s as [|c s (b & Hs & Hb)]; [by exists ""|].
  cbn [trimEnd]. destruct (isSpace c && isEmpty (trimEnd s)) eqn:Hcond.
  - apply andb_true_iff in Hcond as [Hc Hempty].
    destruct (trimEnd s); [|done]. rewrite append_nil_l in Hs. subst s.
    exists (String c b). split; [done|]. cbn [allChars]. by rewrite Hc.
  - exists b. rewrite append_cons. split; [by f_equal|done].
Qed.

Lemma lastSatisfies_trimEnd s : lastSatisfies isSpace (trimEnd s) = false.
Proof.
  induction s as [|c s IH]; [done|]. cbn [trimEnd].
  destruct (isSpace c) eqn:Hc; destruct (trimEnd s) as [|c' r] eqn:Ht; cbn; done.
Qed.

Lemma headSatisfies_trimEnd s :
  headSatisfies isSpace s = false -> headSatisfies isSpace (trimEnd s) = false.
Proof.
  destruct s as [|c s]; [done|]. cbn [headSatisfies trimEnd]. intros Hc.
  rewrite Hc. cbn. exact Hc.
Qed.

(** [trim] removes white space at both ends, and all of it. *)
Lemma trim_spec s :
  exists a b,
    s = a +:+ trim s +:+ b /\
    allChars isSpace a = true /\ allChars isSpace b = true /\
    headSatisfies isSpace (trim s) = false /\
    lastSatisfies isSpace (trim s) = false.
Proof.
  unfold trim.
  destruct (trimEnd_split (dropWhile isSpace s)) as (b & Hb & Hsb).
  exists (takeWhile isSpace s), b. split; [|split; [|split; [|split]]].
  - rewrite <- Hb. apply takeWhile_dropWhile.
  - apply allChars_takeWhile.
  - done.
  - apply headSatisfies_trimEnd, headSatisfies_dropWhile.
  - apply lastSatisfies_trimEnd.
Qed.

End Trim.

Section Reported.

Context (shellVar : option string) (exec : string -> ChildProcess).

Lemma detect_elem d :
  d ∈ detectInstalledLanguages shellVar exec ->
  exists lang, lang ∈ languageChecks /\ d ∈ detectOne shellVar exec lang.
Proof.
  unfold detectInstalledLanguages. rewrite detectLoop_detectOne, app_nil_l.
  intros (ds & Hd & Hds)%elem_of_concat.
  apply list_elem_of_fmap in Hds as (lang & -> & Hlang). eauto.
Qed.

Lemma detect_values_sublist :
  sublist (value <$> detectInstalledLanguages shellVar exec) ["javascript"; "python"; "go"].
Proof.
  unfold detectInstalledLanguages. rewrite detectLoop_detectOne, app_nil_l.
  unfold languageChecks. cbn [fmap list_fmap concat].
  rewrite app_nil_r, !fmap_app.
  change ["javascript"; "python"; "go"] with (["javascript"] ++ ["python"] ++ ["go"]).
  repeat apply sublist_app; apply detectOne_sublist.
Qed.

(** X8.  Every entry of the result of [detectInstalledLanguages] carries
    the display name and the value of its language and, as path, the
    standard output of the probe without the white space around it (the
    line feed that [which] prints): a path that is not empty and neither
    starts nor ends with white space.  No language is listed twice. *)
Theorem detected_entries d :
  d ∈ detectInstalledLanguages shellVar exec ->
  NoDup (value <$> detectInstalledLanguages shellVar exec) /\
  exists lang a b,
    lang ∈ languageChecks /\
    name d = check_name lang /\ value d = check_value lang /\
    cp_stdout (exec (probeCommand shellVar (check_command lang)))
      = a +:+ executablePath d +:+ b /\
    allChars isSpace a = true /\ allChars isSpace b = true /\
    executablePath d <> "" /\
    headSatisfies isSpace (executablePath d) = false /\
    lastSatisfies isSpace (executablePath d) = false.
Proof.
  intros Hd. split.
  - apply (sublist_NoDup _ ["javascript"; "python"; "go"]); [|apply detect_values_sublist].
    repeat (apply NoDup_cons; split; [set_solver|]). apply NoDup_nil_2.
  - apply detect_elem in Hd as (lang & Hlang & Hd). revert Hd.
    unfold detectOne, findExecutable.
    destruct (bool_decide _ || truthy _); [by intros ?%elem_of_nil|].
    destruct (truthy (trim _)) eqn:Hpath; [|by intros ?%elem_of_nil].
    intros ->%list_elem_of_singleton. cbn [name value executablePath].
    destruct (trim_spec (cp_stdout (exec (probeCommand shellVar (check_command lang)))))
      as (a & b & Hsplit & Ha & Hb & Hhead & Hlast).
    exists lang, a, b. repeat split; try done.
    intros Hempty. rewrite Hempty in Hpath. done.
Qed.

(** X9.  Whatever the detector reports can be run: for the value of every
    entry the switch of the later [runCode], and that of the first, reach
    a plan instead of the answer [Unsupported language].  The detector
    never reports java, which the later [runCode] does not accept. *)
Theorem detected_languages_are_runnable env code uniqueId :
  (forall d, d ∈ detectInstalledLanguages shellVar exec ->
     exists p,
       Later.selectLanguage env (value d) uniqueId = inr p /\
       selectLanguage env (value d) code uniqueId = inr p) /\
  ("java" ∉ value <$> detectInstalledLanguages shellVar exec) /\
  (forall language,
     toLowerCase language = "java" ->
     Later.selectLanguage env language uniqueId = inl (Later.unsupported language)).
Proof.
  split; [|split].
  - intros d (lang & Hlang & Hd)%detect_elem.
    apply detectOne_values in Hd as ->. revert Hlang.
    unfold languageChecks. rewrite !elem_of_cons, elem_of_nil.
    intros [->|[->|[->|[]]]]; eexists; split; reflexivity.
  - intros Hin.
    pose proof (sublist_submseteq _ _ detect_values_sublist) as Hsub.
    apply (elem_of_submseteq _ _ _ Hin) in Hsub. set_solver.
  - intros language Hjava. unfold Later.selectLanguage. by rewrite Hjava.
Qed.

End Reported.

Lemma detected_entries_witness :
  NoDup (value <$> detectInstalledLanguages (Some "/bin/bash") Sample.probes) /\
  exists lang a b,
    lang ∈ languageChecks /\
    "Go" = check_name lang /\ "go" = check_value lang /\
    cp_stdout (Sample.probes (probeCommand (Some "/bin/bash") (check_command lang)))
      = a +:+ "/usr/local/go/bin/go" +:+ b /\
    allChars isSpace a = true /\ allChars isSpace b = true /\
    "/usr/local/go/bin/go" <> "" /\
    headSatisfies isSpace "/usr/local/go/bin/go" = false /\
    lastSatisfies isSpace "/usr/local/go/bin/go" = false.
Proof.
  apply (detected_entries (Some "/bin/bash") Sample.probes
           {| name := "Go"; value := "go"; executablePath := "/usr/local/go/bin/go" |}).
  vm_compute. by left.
Defined.

Lemma detected_languages_are_runnable_witness :
  (exists p,
     Later.selectLanguage Sample.host "go" Sample.firstId = inr p /\
     selectLanguage Sample.host "go" "package main" Sample.firstId = inr p) /\
  Later.selectLanguage Sample.host "Java" Sample.firstId = inl (Later.unsupported "Java").
Proof.
  destruct (detected_languages_are_runnable (Some "/bin/bash") Sample.probes Sample.host
              "package main" Sample.firstId) as (Hrun & _ & Hjava).
  split.
  - apply (Hrun {| name := "Go"; value := "go"; executablePath := "/usr/local/go/bin/go" |}).
    vm_compute. by left.
  - apply Hjava. reflexivity.
Defined.

(** ** The first form and the engine *)

Lemma classNameMatch_sampleJava : classNameMatch sampleJava = Some "Main".
Proof. vm_compute. reflexivity. Qed.

(** X10.  Selecting an entry of the list of the first form puts the sample
    program of that language in the editor, a text that greets with the
    name the entry shows, and clears the result; and every language of the
    list is one the first [runCode] accepts together with that sample:
    running what is then in the editor reaches the [try] statement, never
    the answer [Unsupported language] nor, for java, the answer about the
    missing public class, the source file being [Main.java]. *)
Theorem firstForm_samples_run env uniqueId lang st :
  lang ∈ FirstForm.languages ->
  let st' := FirstForm.handleLanguageChange (FirstForm.value lang) st in
  FirstForm.language st' = FirstForm.value lang /\
  FirstForm.result st' = None /\
  FirstForm.isLoading st' = FirstForm.isLoading st /\
  (FirstForm.value lang = "javascript" -> FirstForm.code st' = sampleJavaScript) /\
  (FirstForm.value lang = "python" -> FirstForm.code st' = samplePython) /\
  (FirstForm.value lang = "go" -> FirstForm.code st' = sampleGo) /\
  (FirstForm.value lang = "java" -> FirstForm.code st' = sampleJava) /\
  FirstForm.value lang ∈ ["javascript"; "python"; "go"; "java"] /\
  includes ("Hello from " +:+ FirstForm.name lang +:+ "!") (FirstForm.code st') = true /\
  exists p,
    selectLanguage env (FirstForm.language st') (FirstForm.code st') uniqueId = inr p /\
    (FirstForm.value lang = "java" ->
     filePath p = pathJoin (tempDir env) "Main.java").
Proof.
  unfold FirstForm.languages. rewrite !elem_of_cons, elem_of_nil.
  intros [->|[->|[->|[->|[]]]]]; cbn [FirstForm.value FirstForm.name]; cbv zeta;
    (split; [reflexivity|]); (split; [reflexivity|]); (split; [reflexivity|]);
    (split; [done|]); (split; [done|]); (split; [done|]); (split; [done|]);
    (split; [set_solver|]); (split; [vm_compute; reflexivity|]).
  - rewrite selectLanguage_javascript by done. eexists. split; [done|]. done.
  - rewrite selectLanguage_python by done. eexists. split; [done|]. done.
  - rewrite selectLanguage_go by done. eexists. split; [done|]. done.
  - change (FirstForm.code (FirstForm.handleLanguageChange "java" st)) with sampleJava.
    rewrite selectLanguage_java, classNameMatch_sampleJava by done.
    eexists. split; [done|]. done.
Qed.

Lemma firstForm_samples_run_witness :
  let st := {| FirstForm.code := ""; FirstForm.language := "javascript";
               FirstForm.isLoading := false; FirstForm.result := None |} in
  let st' := FirstForm.handleLanguageChange "java" st in
  FirstForm.language st' = "java" /\
  FirstForm.result st' = None /\
  FirstForm.isLoading st' = FirstForm.isLoading st /\
  ("java" = "javascript" -> FirstForm.code st' = sampleJavaScript) /\
  ("java" = "python" -> FirstForm.code st' = samplePython) /\
  ("java" = "go" -> FirstForm.code st' = sampleGo) /\
  ("java" = "java" -> FirstForm.code st' = sampleJava) /\
  "java" ∈ ["javascript"; "python"; "go"; "java"] /\
  includes ("Hello from " +:+ "Java" +:+ "!") (FirstForm.code st') = true /\
  exists p,
    selectLanguage Sample.host (FirstForm.language st') (FirstForm.code st') Sample.firstId
      = inr p /\
    ("java" = "java" -> filePath p = pathJoin "/ext/temp" "Main.java").
Proof.
  apply (firstForm_samples_run Sample.host Sample.firstId
           {| FirstForm.name := "Java"; FirstForm.value := "java" |}).
  unfold FirstForm.languages. set_solver.
Defined.

(** ** The form with detection: running *)

Lemma hasError_iff r :
  (forall message, Later.error r = Some message -> message <> "") ->
  Form.hasError r = false <-> Later.error r = None.
Proof.
  intros Htext. unfold Form.hasError.
  destruct (Later.error r) as [text|]; [|done].
  specialize (Htext text eq_refl). destruct text; [done|]. cbn. split; done.
Qed.

(** X11.  [handleRunCode] always ends with [isExecutingCode] false and
    leaves the editor, the selected language and the storage as they are.
    With nothing but white space in the editor it does not call [runCode]
    at all: no call into the host, no result.  Otherwise it stores what
    [runCode] returns and its toast is the success toast exactly when the
    result has no error; and an exception of [runCode] ends up, with its
    message, as the error of a result and not beyond the handler. *)
Theorem handleRunCode_outcome env st w :
  let st' := (Form.handleRunCode env st w).1 in
  let w' := (Form.handleRunCode env st w).2 in
  Form.isExecutingCode st' = false /\
  Form.code st' = Form.code st /\
  Form.language st' = Form.language st /\
  Form.storage st' = Form.storage st /\
  (trim (Form.code st) = "" ->
     w' = w /\ Form.result st' = None /\
     Form.toast st' = Some {| Form.style := Form.Failure; Form.title := "No code provided!";
                              Form.message := Some "Please enter some code to run." |}) /\
  (trim (Form.code st) <> "" ->
     match Later.runCode env (Form.language st) (Form.code st) w with
     | (Normal r, w1) =>
         w' = w1 /\ Form.result st' = Some r /\
         (Form.style <$> Form.toast st' = Some Form.Success <-> Later.error r = None)
     | (Throw e, w1) =>
         w' = w1 /\
         Form.result st' =
           Some {| Later.stdout := ""; Later.stderr := "";
                   Later.error := Some (orElse (e_message e) "Unknown error");
                   Later.command := None |} /\
         Form.style <$> Form.toast st' = Some Form.Failure
     end).
Proof.
  unfold Form.handleRunCode. cbn [Form.code Form.setToast Form.setResult
    Form.setIsExecutingCode Form.language].
  destruct (truthy (trim (Form.code st))) eqn:Hblank; cbn [negb].
  - assert (trim (Form.code st) <> "") as Hne.
    { intros Hempty. by rewrite Hempty in Hblank. }
    destruct (Later.runCode env (Form.language st) (Form.code st) w) as [[r|e] w1] eqn:Hrun.
    + pose proof (hasError_iff r (later_runCode_error_text env _ _ _ _ _ Hrun)) as Herr.
      destruct (Form.hasError r); cbn; split_and!; try done.
      * intros _. split_and!; try done. split; [done|]. intros Hnone. by apply Herr in Hnone.
      * intros _. split_and!; try done. split; [|done]. intros _. by apply Herr.
    + cbn. split_and!; try done.
  - assert (trim (Form.code st) = "") as Hempty.
    { by destruct (trim (Form.code st)). }
    cbn. split_and!; try done.
Qed.

Lemma handleRunCode_outcome_witness :
  ((Form.handleRunCode Sample.host FormSample.blank Sample.emptyWorld).2 = Sample.emptyWorld /\
   Form.result (Form.handleRunCode Sample.host FormSample.blank Sample.emptyWorld).1 = None /\
   Form.toast (Form.handleRunCode Sample.host FormSample.blank Sample.emptyWorld).1 =
     Some {| Form.style := Form.Failure; Form.title := "No code provided!";
             Form.message := Some "Please enter some code to run." |}) /\
  match Later.runCode Sample.mkdirDenied "python" "print(2)" Sample.emptyWorld with
  | (Normal r, w1) =>
      (Form.handleRunCode Sample.mkdirDenied FormSample.typing Sample.emptyWorld).2 = w1 /\
      Form.result (Form.handleRunCode Sample.mkdirDenied FormSample.typing
                     Sample.emptyWorld).1 = Some r /\
      (Form.style <$> Form.toast (Form.handleRunCode Sample.mkdirDenied FormSample.typing
                                    Sample.emptyWorld).1 = Some Form.Success
       <-> Later.error r = None)
  | (Throw e, w1) =>
      (Form.handleRunCode Sample.mkdirDenied FormSample.typing Sample.emptyWorld).2 = w1 /\
      Form.result (Form.handleRunCode Sample.mkdirDenied FormSample.typing
                     Sample.emptyWorld).1 =
        Some {| Later.stdout := ""; Later.stderr := "";
                Later.error := Some (orElse (e_message e) "Unknown error");
                Later.command := None |} /\
      Form.style <$> Form.toast (Form.handleRunCode Sample.mkdirDenied FormSample.typing
                                   Sample.emptyWorld).1 = Some Form.Failure
  end.
Proof.
  split.
  - destruct (handleRunCode_outcome Sample.host FormSample.blank Sample.emptyWorld)
      as (_ & _ & _ & _ & Hblank & _).
    apply Hblank. reflexivity.
  - destruct (handleRunCode_outcome Sample.mkdirDenied FormSample.typing Sample.emptyWorld)
      as (_ & _ & _ & _ & _ & Hrun).
    apply Hrun. discriminate.
Defined.

(** What the user sees when the scratch directory cannot be created. *)
Example handleRunCode_mkdir_denied :
  Form.result (Form.handleRunCode Sample.mkdirDenied FormSample.typing Sample.emptyWorld).1 =
  Some {| Later.stdout := ""; Later.stderr := "";
          Later.error := Some "EACCES: permission denied, mkdir '/ext/temp'";
          Later.command := None |}.
Proof. reflexivity. Qed.

(** ** The form with detection: saved snippets *)

Section Snippets.

Context (shellVar : option string) (exec : string -> ChildProcess)
        (stringify : list DetectedLanguage -> string).

Lemma codeKey_inj l1 l2 : Form.codeKey l1 = Form.codeKey l2 -> l1 = l2.
Proof. unfold Form.codeKey. apply append_inv_head. Qed.

Lemma codeKey_not_last_used l : Form.codeKey l <> Form.LAST_USED_LANGUAGE_KEY.
Proof. unfold Form.codeKey, Form.LAST_USED_LANGUAGE_KEY. by rewrite append_cons. Qed.

Lemma codeKey_not_languages l : Form.codeKey l <> Form.LANGUAGES_STORAGE_KEY.
Proof. unfold Form.codeKey, Form.LANGUAGES_STORAGE_KEY. by rewrite append_cons. Qed.

Lemma orElse_same s : orElse (Some s) s = s.
Proof. by destruct s. Qed.

Lemma orElse_orElse s d : orElse (Some (orElse (Some s) d)) d = orElse (Some s) d.
Proof. destruct s; cbn; [apply orElse_same|done]. Qed.

(** X12.  Switching to another language and back brings back what was in
    the editor: the text is saved under the key of its language on the way
    out and loaded on the way in.  An empty editor is the exception: the
    sample program of the language comes back instead.  The language
    selected last is what the storage holds as last used, and the result
    on display is cleared. *)
Theorem snippet_survives_language_switch st other :
  Form.language st <> "detect-new-languages" ->
  other <> "detect-new-languages" ->
  let st' :=
    Form.handleLanguageChange shellVar exec stringify (Form.language st)
      (Form.handleLanguageChange shellVar exec stringify other st) in
  Form.language st' = Form.language st /\
  (Form.code st <> "" -> Form.code st' = Form.code st) /\
  (Form.code st = "" ->
   Form.code st' = Form.getInitialCodeForLanguage (Form.language st)) /\
  Form.storage st' !! Form.LAST_USED_LANGUAGE_KEY = Some (Form.language st) /\
  Form.result st' = None.
Proof.
  intros Hlang Hother.
  assert (Form.code
            (Form.handleLanguageChange shellVar exec stringify (Form.language st)
               (Form.handleLanguageChange shellVar exec stringify other st)) =
          orElse (Some (Form.code st)) (Form.getInitialCodeForLanguage (Form.language st)))
    as Hcode.
  { unfold Form.handleLanguageChange.
    destruct (String.eqb_spec other "detect-new-languages") as [|_]; [done|].
    cbn [Form.language Form.setStorage Form.setResult Form.setLanguage Form.loadCode
         Form.setCode Form.storage Form.code].
    destruct (String.eqb_spec (Form.language st) "detect-new-languages") as [|_]; [done|].
    cbn [Form.language Form.setStorage Form.setResult Form.setLanguage Form.loadCode
         Form.setCode Form.storage Form.code].
    destruct (decide (other = Form.language st)) as [->|Hne].
    - rewrite !lookup_insert_eq. apply orElse_orElse.
    - rewrite lookup_insert_ne by (intros ?%codeKey_inj; done).
      rewrite lookup_insert_ne by (intros Heq; symmetry in Heq; by apply codeKey_not_last_used in Heq).
      by rewrite lookup_insert_eq. }
  cbv zeta. split_and!.
  - unfold Form.handleLanguageChange.
    destruct (String.eqb_spec other "detect-new-languages") as [|_]; [done|].
    cbn [Form.language Form.setStorage Form.setResult Form.setLanguage Form.loadCode
         Form.setCode].
    by destruct (String.eqb_spec (Form.language st) "detect-new-languages") as [|_].
  - intros Hne. rewrite Hcode. by apply orElse_truthy.
  - intros Hempty. rewrite Hcode, Hempty. done.
  - unfold Form.handleLanguageChange.
    destruct (String.eqb_spec other "detect-new-languages") as [|_]; [done|].
    cbn [Form.language Form.setStorage Form.setResult Form.setLanguage Form.loadCode
         Form.setCode].
    destruct (String.eqb_spec (Form.language st) "detect-new-languages") as [|_]; [done|].
    cbn [Form.language Form.setStorage Form.setResult Form.setLanguage Form.loadCode
         Form.setCode Form.storage]. by rewrite lookup_insert_eq.
  - unfold Form.handleLanguageChange.
    destruct (String.eqb_spec other "detect-new-languages") as [|_]; [done|].
    cbn [Form.language Form.setStorage Form.setResult Form.setLanguage Form.loadCode
         Form.setCode].
    by destruct (String.eqb_spec (Form.language st) "detect-new-languages") as [|_].
Qed.

End Snippets.

Lemma snippet_survives_language_switch_witness :
  let st' :=
    Form.handleLanguageChange (Some "/bin/bash") FormSample.twoFound FormSample.stringify
      "python"
      (Form.handleLanguageChange (Some "/bin/bash") FormSample.twoFound FormSample.stringify
         "go" FormSample.typing) in
  Form.language st' = "python" /\
  ("print(2)" <> "" -> Form.code st' = "print(2)") /\
  ("print(2)" = "" -> Form.code st' = Form.getInitialCodeForLanguage "python") /\
  Form.storage st' !! Form.LAST_USED_LANGUAGE_KEY = Some "python" /\
  Form.result st' = None.
Proof.
  apply (snippet_survives_language_switch (Some "/bin/bash") FormSample.twoFound
           FormSample.stringify FormSample.typing "go"); discriminate.
Defined.

(** The snippet saved for go is what the editor shows in between. *)
Example switch_to_go_sample :
  Form.code (Form.handleLanguageChange (Some "/bin/bash") FormSample.twoFound
               FormSample.stringify "go" FormSample.typing) = "package main".
Proof. vm_compute. reflexivity. Qed.

(** ** The form with detection: choosing the language *)

Section Detection.

Context (shellVar : option string) (exec : string -> ChildProcess)
        (stringify : list DetectedLanguage -> string).

Lemma find_by_value saved (detected : list DetectedLanguage) :
  saved ∈ value <$> detected ->
  exists lang,
    find (fun lang => String.eqb (value lang) saved) detected = Some lang /\
    value lang = saved.
Proof.
  induction detected as [|d rest IH]; [by intros ?%elem_of_nil|].
  cbn [fmap list_fmap find]. intros Hin.
  destruct (String.eqb_spec (value d) saved) as [Heq|Hne]; [eauto|].
  apply elem_of_cons in Hin as [Heq|Hin]; [done|]. by apply IH.
Qed.

Lemma matchedLanguageValue_detected saved (detected : list DetectedLanguage) first rest :
  detected = first :: rest ->
  Form.matchedLanguageValue saved detected first ∈ value <$> detected /\
  (forall s, saved = Some s -> s ∈ value <$> detected ->
             Form.matchedLanguageValue saved detected first = s).
Proof.
  intros ->. unfold Form.matchedLanguageValue. split.
  - destruct saved as [s|]; [|by left].
    destruct (find _ _) as [lang|] eqn:Hfind; [|by left].
    apply find_some in Hfind as [Hin _].
    apply list_elem_of_fmap. exists lang. split; [done|]. by apply list_elem_of_In.
  - intros s -> Hin. by destruct (find_by_value s _ Hin) as (lang & -> & ->).
Qed.

Lemma detected_value_runnable d env uniqueId :
  d ∈ detectInstalledLanguages shellVar exec ->
  exists p, Later.selectLanguage env (value d) uniqueId = inr p.
Proof.
  intros (lang & Hlang & Hd)%detect_elem.
  apply detectOne_values in Hd as ->. revert Hlang.
  unfold languageChecks. rewrite !elem_of_cons, elem_of_nil.
  intros [->|[->|[->|[]]]]; eexists; reflexivity.
Qed.

(** The state after a detection that found something. *)
Lemma performLanguageDetection_found show st first rest :
  detectInstalledLanguages shellVar exec = first :: rest ->
  let detected := first :: rest in
  let matched :=
    Form.matchedLanguageValue (Form.storage st !! Form.LAST_USED_LANGUAGE_KEY)
      detected first in
  let st' := Form.performLanguageDetection shellVar exec stringify show st in
  Form.language st' = matched /\
  Form.code st' = orElse (Form.storage st !! Form.codeKey matched)
                    (Form.getInitialCodeForLanguage matched) /\
  Form.storage st' =
    <[Form.LAST_USED_LANGUAGE_KEY := matched]>
      (<[Form.LANGUAGES_STORAGE_KEY := stringify detected]> (Form.storage st)) /\
  Form.availableLanguages st' = detected /\
  Form.isInitializing st' = false /\
  Form.result st' = Form.result st.
Proof.
  intros Hdet. unfold Form.performLanguageDetection. rewrite Hdet.
  assert (Form.LAST_USED_LANGUAGE_KEY <> Form.LANGUAGES_STORAGE_KEY) as Hkeys by done.
  destruct show;
    cbn [Form.setToast Form.setIsInitializing Form.setAvailableLanguages Form.setStorage
         Form.setLanguage Form.loadCode Form.setCode Form.storage Form.language Form.code
         Form.availableLanguages Form.isInitializing Form.result];
    rewrite !(lookup_insert_ne _ Form.LANGUAGES_STORAGE_KEY) by
      (first [done | intros Heq; symmetry in Heq; by apply codeKey_not_languages in Heq]);
    done.
Qed.

(** X13.  After [performLanguageDetection] the form is no longer
    initializing and lists what the detector found.  If that is nothing,
    no language is selected, the editor is empty and the cached list is
    removed.  Otherwise the selected language is one of those found, hence
    one the later [runCode] accepts: the one used last if it was found
    again, else one of the others; it is recorded as last used, the list is
    cached, and the editor holds the snippet saved for the language or,
    failing that, its sample program.  Saved snippets are never
    changed. *)
Theorem performLanguageDetection_selects show st :
  let detected := detectInstalledLanguages shellVar exec in
  let st' := Form.performLanguageDetection shellVar exec stringify show st in
  Form.isInitializing st' = false /\
  Form.availableLanguages st' = detected /\
  (forall lang, Form.storage st' !! Form.codeKey lang = Form.storage st !! Form.codeKey lang) /\
  (detected = [] ->
     Form.language st' = "" /\ Form.code st' = "" /\
     Form.storage st' !! Form.LANGUAGES_STORAGE_KEY = None) /\
  (detected <> [] ->
     Form.language st' ∈ value <$> detected /\
     (forall env uniqueId,
        exists p, Later.selectLanguage env (Form.language st') uniqueId = inr p) /\
     (forall saved,
        Form.storage st !! Form.LAST_USED_LANGUAGE_KEY = Some saved ->
        saved ∈ value <$> detected -> Form.language st' = saved) /\
     Form.storage st' !! Form.LAST_USED_LANGUAGE_KEY = Some (Form.language st') /\
     Form.storage st' !! Form.LANGUAGES_STORAGE_KEY = Some (stringify detected) /\
     Form.code st' = orElse (Form.storage st !! Form.codeKey (Form.language st'))
                       (Form.getInitialCodeForLanguage (Form.language st'))).
Proof.
  cbv zeta.
  destruct (detectInstalledLanguages shellVar exec) as [|first rest] eqn:Hdet.
  - unfold Form.performLanguageDetection. rewrite Hdet.
    destruct show;
      cbn [Form.setToast Form.setIsInitializing Form.setAvailableLanguages Form.setStorage
           Form.setLanguage Form.setCode Form.storage Form.language Form.code
           Form.availableLanguages Form.isInitializing];
      (split_and!; try done);
      try (intros lang; apply lookup_delete_ne; intros Heq; symmetry in Heq;
           by apply codeKey_not_languages in Heq);
      intros _; split_and!; try done; apply lookup_delete_eq.
  - destruct (performLanguageDetection_found show st first rest Hdet)
      as (Hlang & Hcode & Hstore & Hav & Hinit & _).
    destruct (matchedLanguageValue_detected
                (Form.storage st !! Form.LAST_USED_LANGUAGE_KEY) (first :: rest) first rest
                eq_refl) as [Hin Hkept].
    split_and!; try done.
    + intros lang. rewrite Hstore.
      rewrite lookup_insert_ne by
        (intros Heq; symmetry in Heq; by apply codeKey_not_last_used in Heq).
      apply lookup_insert_ne. intros Heq; symmetry in Heq. by apply codeKey_not_languages in Heq.
    + intros _. rewrite Hlang. split_and!.
      * exact Hin.
      * intros env uniqueId.
        apply list_elem_of_fmap in Hin as (d & -> & Hd). rewrite <- Hdet in Hd.
        by apply detected_value_runnable.
      * intros saved Hsaved. by apply Hkept.
      * rewrite Hstore. apply lookup_insert_eq.
      * rewrite Hstore. rewrite lookup_insert_ne by done. apply lookup_insert_eq.
      * exact Hcode.
Qed.

(** X14.  Detecting again does not lose what has been typed: when the
    language in use is the one recorded as last used and the detector
    finds it again, the form comes back with the same language and with
    the text that [handleCodeChange] saved, provided it is not empty. *)
Theorem redetection_keeps_typed_code show st newCode :
  Form.storage st !! Form.LAST_USED_LANGUAGE_KEY = Some (Form.language st) ->
  Form.language st ∈ value <$> detectInstalledLanguages shellVar exec ->
  newCode <> "" ->
  let st' := Form.performLanguageDetection shellVar exec stringify show
               (Form.handleCodeChange newCode st) in
  Form.language st' = Form.language st /\
  Form.code st' = newCode /\
  Form.isInitializing st' = false.
Proof.
  intros Hlast Hin Hne.
  destruct (detectInstalledLanguages shellVar exec) as [|first rest] eqn:Hdet;
    [by apply elem_of_nil in Hin|].
  destruct (performLanguageDetection_found show (Form.handleCodeChange newCode st)
              first rest Hdet) as (Hlang & Hcode & _ & _ & Hinit & _).
  assert (Form.storage (Form.handleCodeChange newCode st) !! Form.LAST_USED_LANGUAGE_KEY
          = Some (Form.language st)) as Hlast'.
  { unfold Form.handleCodeChange. cbn [Form.setStorage Form.setCode Form.storage Form.language].
    rewrite lookup_insert_ne by apply codeKey_not_last_used. done. }
  destruct (matchedLanguageValue_detected
              (Form.storage (Form.handleCodeChange newCode st) !! Form.LAST_USED_LANGUAGE_KEY)
              (first :: rest) first rest eq_refl) as [_ Hkept].
  specialize (Hkept _ Hlast' Hin).
  cbv zeta. rewrite Hlang, Hcode, Hkept. split_and!; try done.
  unfold Form.handleCodeChange. cbn [Form.setStorage Form.setCode Form.storage Form.language].
  rewrite lookup_insert_eq. by apply orElse_truthy.
Qed.

End Detection.

Lemma performLanguageDetection_selects_witness :
  (Form.language (Form.performLanguageDetection (Some "/bin/bash") FormSample.twoFound
                    FormSample.stringify true FormSample.typing) = "python" /\
   Form.storage (Form.performLanguageDetection (Some "/bin/bash") FormSample.twoFound
                   FormSample.stringify true FormSample.typing)
     !! Form.LAST_USED_LANGUAGE_KEY =
   Some (Form.language (Form.performLanguageDetection (Some "/bin/bash") FormSample.twoFound
                          FormSample.stringify true FormSample.typing))) /\
  (Form.language (Form.performLanguageDetection None Sample.silentProbes
                    FormSample.stringify true FormSample.typing) = "" /\
   Form.code (Form.performLanguageDetection None Sample.silentProbes
                FormSample.stringify true FormSample.typing) = "" /\
   Form.storage (Form.performLanguageDetection None Sample.silentProbes
                   FormSample.stringify true FormSample.typing)
     !! Form.LANGUAGES_STORAGE_KEY = None).
Proof.
  split.
  - destruct (performLanguageDetection_selects (Some "/bin/bash") FormSample.twoFound
                FormSample.stringify true FormSample.typing) as (_ & _ & _ & _ & Hfound).
    destruct Hfound as (_ & _ & Hkept & Hlast & _).
    + intros H. vm_compute in H. discriminate H.
    + split; [|exact Hlast]. apply Hkept; [reflexivity|]. vm_compute. by left.
  - destruct (performLanguageDetection_selects None Sample.silentProbes
                FormSample.stringify true FormSample.typing) as (_ & _ & _ & Hnone & _).
    apply Hnone. reflexivity.
Defined.

Lemma redetection_keeps_typed_code_witness :
  let st' := Form.performLanguageDetection (Some "/bin/bash") FormSample.twoFound
               FormSample.stringify false
               (Form.handleCodeChange "print(3)" FormSample.typing) in
  Form.language st' = "python" /\
  Form.code st' = "print(3)" /\
  Form.isInitializing st' = false.
Proof.
  apply (redetection_keeps_typed_code (Some "/bin/bash") FormSample.twoFound
           FormSample.stringify false FormSample.typing "print(3)").
  - reflexivity.
  - vm_compute. by left.
  - discriminate.
Defined.
